(** * Analytics synthesis engine of the GitHub statistics backend

    A shallow embedding of [src/main.py]: the classifier
    ([classify_repository]), the monthly history synthesizer, the
    reconciliation pass, the legacy monthly view and the country
    distribution ([generate_real_analytics_data]) and the daily window
    ([generate_daily_analytics]).

    Modelling conventions.
    - Python [int] is [Z].  Python [float] is idealised as an exact rational
      ([Q]) in the synthesizer: the rounding of IEEE doubles is modelled only
      where a claim turns on it ([Doubles]).  [int(x)] on a float is
      truncation towards zero ([trunc]).
    - [pow(x, 1.5)] has no rational value in general; the synthesizer takes
      the runtime's [pow] as a parameter.  The growth model is read a second
      time on binary64 floats ([Doubles.growth_factor]), where its rounding
      shows.
    - [random.random()] reads an injected stream of draws; the clock readings
      [datetime.now(timezone.utc)] are inputs.
    - [datetime] follows CPython's [datetime] module: a value carries its
      calendar fields, arithmetic goes through proleptic Gregorian ordinals
      ([_ymd2ord], [_ord2ymd]).  All timestamps are UTC; the limits
      [MINYEAR] and [MAXYEAR] are not modelled.
    - Exceptions are explicit: a computation returns [Ok] or [Raise]. *)

From Stdlib Require Import ZArith QArith Qround Qminmax List Bool String Ascii Lia Lqa Sorted.
From Stdlib Require PrimFloat.
Import ListNotations.

Set Implicit Arguments.

(* ================================================================== *)
(** ** Python values and exceptions *)

Module Py.

Inductive exn : Type :=
| ZeroDivisionError
| IndexError
| KeyError
| OutOfFuel.  (* artefact of the model: a [while] loop exceeded its budget *)

Inductive outcome (A : Type) : Type :=
| Ok (a : A)
| Raise (e : exn).
Arguments Ok {A} a.
Arguments Raise {A} e.

(** The source of randomness: the stream of values [random.random()] will
    return, in order. *)
Definition Rng : Type := nat -> Q.

(** A computation reads random draws and may raise. *)
Definition M (A : Type) : Type := Rng -> outcome (A * Rng).

Definition ret {A} (a : A) : M A := fun g => Ok (a, g).

Definition bind {A B} (m : M A) (k : A -> M B) : M B :=
  fun g => match m g with
           | Ok (a, g') => k a g'
           | Raise e => Raise e
           end.

Definition raise {A} (e : exn) : M A := fun _ => Raise e.

(** [random.random()] *)
Definition random : M Q := fun g => Ok (g 0%nat, fun n => g (S n)).

Declare Scope py_scope.
Delimit Scope py_scope with py.
Notation "x <- m ;; k" := (bind m (fun x => k))
  (at level 61, m at next level, right associativity) : py_scope.

Open Scope py_scope.

(** [for x in xs: s = body(x, s)] *)
Fixpoint for_each {A S} (xs : list A) (body : A -> S -> M S) (s : S) : M S :=
  match xs with
  | [] => ret s
  | x :: xs' => s' <- body x s ;; for_each xs' body s'
  end.

(** [range(n)] *)
Definition range (n : Z) : list Z := map Z.of_nat (seq 0 (Z.to_nat n)).

(** [enumerate(xs)] *)
Definition enumerate {A} (xs : list A) : list (Z * A) :=
  combine (range (Z.of_nat (List.length xs))) xs.

(** [len(xs)] *)
Definition len {A} (xs : list A) : Z := Z.of_nat (List.length xs).

(** [int(x)] for a float [x]: truncation towards zero. *)
Definition trunc (x : Q) : Z := Z.quot (Qnum x) (Zpos (Qden x)).

(** An [int] used in float arithmetic. *)
Definition of_int (n : Z) : Q := inject_Z n.

Definition Qlt_bool (x y : Q) : bool := negb (Qle_bool y x).

(** [a / b] on two ints (true division). *)
Definition truediv (a b : Z) : M Q :=
  if (b =? 0)%Z then raise ZeroDivisionError else ret (of_int a / of_int b)%Q.

(** [a / b] on floats. *)
Definition fdiv (a b : Q) : M Q :=
  if Qeq_bool b 0 then raise ZeroDivisionError else ret (a / b)%Q.

(** [a // b] on two ints (floor division). *)
Definition floordiv (a b : Z) : M Z :=
  if (b =? 0)%Z then raise ZeroDivisionError else ret (a / b)%Z.

(** [sum(xs)] *)
Definition sum (xs : list Z) : Z := fold_left Z.add xs 0%Z.

(** Resolution of a list index, negative indices counting from the end. *)
Definition resolve_index (len : nat) (idx : Z) : option nat :=
  let i := if (idx <? 0)%Z then (idx + Z.of_nat len)%Z else idx in
  if ((0 <=? i) && (i <? Z.of_nat len))%Z then Some (Z.to_nat i) else None.

Fixpoint replace_nth {A} (n : nat) (x : A) (l : list A) : list A :=
  match l, n with
  | [], _ => []
  | _ :: l', O => x :: l'
  | y :: l', S n' => y :: replace_nth n' x l'
  end.

(** [l[idx]] *)
Definition getitem {A} (l : list A) (idx : Z) : M A :=
  match resolve_index (List.length l) idx with
  | Some i => match nth_error l i with
              | Some x => ret x
              | None => raise IndexError
              end
  | None => raise IndexError
  end.

(** [l[idx] = x] *)
Definition setitem {A} (l : list A) (idx : Z) (x : A) : M (list A) :=
  match resolve_index (List.length l) idx with
  | Some i => ret (replace_nth i x l)
  | None => raise IndexError
  end.

(** [str.lower()], on ASCII letters. *)
Definition lower_ascii (c : ascii) : ascii :=
  let n := nat_of_ascii c in
  if ((65 <=? n) && (n <=? 90))%nat then ascii_of_nat (n + 32) else c.

Fixpoint lower (s : string) : string :=
  match s with
  | EmptyString => EmptyString
  | String c s' => String (lower_ascii c) (lower s')
  end.

(** [needle in hay] on strings. *)
Fixpoint contains (needle hay : string) : bool :=
  prefix needle hay ||
  match hay with
  | EmptyString => false
  | String _ hay' => contains needle hay'
  end.

(** [any(p(k) for k in ks)] *)
Definition any {A} (p : A -> bool) (ks : list A) : bool := existsb p ks.

(** An insertion-ordered [dict] with string keys. *)
Definition dict (V : Type) : Type := list (string * V).

Fixpoint dict_get {V} (k : string) (d : dict V) : option V :=
  match d with
  | [] => None
  | (k', v) :: d' => if String.eqb k k' then Some v else dict_get k d'
  end.

Fixpoint dict_set {V} (k : string) (v : V) (d : dict V) : dict V :=
  match d with
  | [] => [(k, v)]
  | (k', v') :: d' =>
      if String.eqb k k' then (k', v) :: d' else (k', v') :: dict_set k v d'
  end.

Definition dict_mem {V} (k : string) (d : dict V) : bool :=
  match dict_get k d with Some _ => true | None => false end.

(** [d[k]] *)
Definition getkey {V} (d : dict V) (k : string) : M V :=
  match dict_get k d with
  | Some v => ret v
  | None => raise KeyError
  end.

(** [range(start, stop, -1)] *)
Definition range_down (start stop : Z) : list Z :=
  map (fun k => (start - Z.of_nat k)%Z) (seq 0 (Z.to_nat (start - stop))).

Definition dict_values {V} (d : dict V) : list V := map snd d.

End Py.
Import Py.
Open Scope py_scope.

(* ================================================================== *)
(** ** [datetime] *)

Module Calendar.
Open Scope Z_scope.

(** An aware UTC [datetime]: calendar fields and the time of day in
    microseconds since midnight. *)
Record datetime : Type := mk_datetime {
  year : Z;
  month : Z;
  day : Z;
  tod : Z
}.

Definition us_per_day : Z := 86400000000.

Definition DAYS_IN_MONTH : list Z :=
  [0; 31; 28; 31; 30; 31; 30; 31; 31; 30; 31; 30; 31].
Definition DAYS_BEFORE_MONTH : list Z :=
  [0; 0; 31; 59; 90; 120; 151; 181; 212; 243; 273; 304; 334].

Definition is_leap (y : Z) : bool :=
  (y mod 4 =? 0) && (negb (y mod 100 =? 0) || (y mod 400 =? 0)).

Definition days_before_year (y : Z) : Z :=
  let y := y - 1 in y * 365 + y / 4 - y / 100 + y / 400.

Definition days_in_month (y m : Z) : Z :=
  if (m =? 2) && is_leap y then 29 else nth (Z.to_nat m) DAYS_IN_MONTH 0.

Definition days_before_month (y m : Z) : Z :=
  nth (Z.to_nat m) DAYS_BEFORE_MONTH 0
  + (if (m >? 2) && is_leap y then 1 else 0).

(** [_ymd2ord]: 0001-01-01 is day 1. *)
Definition ymd2ord (y m d : Z) : Z :=
  days_before_year y + days_before_month y m + d.

(** [_ord2ymd] *)
Definition ord2ymd (n : Z) : Z * Z * Z :=
  let n := n - 1 in
  let n400 := n / 146097 in
  let n := n mod 146097 in
  let year := n400 * 400 + 1 in
  let n100 := n / 36524 in
  let n := n mod 36524 in
  let n4 := n / 1461 in
  let n := n mod 1461 in
  let n1 := n / 365 in
  let n := n mod 365 in
  let year := year + n100 * 100 + n4 * 4 + n1 in
  if (n1 =? 4) || (n100 =? 4) then (year - 1, 12, 31)
  else
    let leapyear := (n1 =? 3) && (negb (n4 =? 24) || (n100 =? 3)) in
    let month := Z.shiftr (n + 50) 5 in
    let preceding := nth (Z.to_nat month) DAYS_BEFORE_MONTH 0
                     + (if (month >? 2) && leapyear then 1 else 0) in
    if preceding >? n then
      let month := month - 1 in
      let preceding :=
        preceding - (nth (Z.to_nat month) DAYS_IN_MONTH 0
                     + (if (month =? 2) && leapyear then 1 else 0)) in
      (year, month, n - preceding + 1)
    else (year, month, n - preceding + 1).

Definition valid_date (y m d : Z) : Prop :=
  1 <= m <= 12 /\ 1 <= d <= days_in_month y m.

Definition valid_datetime (t : datetime) : Prop :=
  valid_date (year t) (month t) (day t) /\ 0 <= tod t < us_per_day.

(** [t.toordinal()] *)
Definition toordinal (t : datetime) : Z := ymd2ord (year t) (month t) (day t).

(** [t - timedelta(days=i)] *)
Definition sub_days (t : datetime) (i : Z) : datetime :=
  let '(y, m, d) := ord2ymd (toordinal t - i) in
  mk_datetime y m d (tod t).

(** [(t - s).days]: a [timedelta] is normalised with non-negative seconds
    and microseconds, so its [days] is the floor of the difference. *)
Definition days_between (t s : datetime) : Z :=
  ((toordinal t - toordinal s) * us_per_day + (tod t - tod s)) / us_per_day.

(** [t.weekday()]: Monday is 0. *)
Definition weekday (t : datetime) : Z := (toordinal t + 6) mod 7.

(** [t.date()] as the triple that [strftime("%Y-%m-%d")] renders. *)
Definition date_of (t : datetime) : Z * Z * Z := (year t, month t, day t).

Definition date_eqb (a b : Z * Z * Z) : bool :=
  let '(y1, m1, d1) := a in
  let '(y2, m2, d2) := b in
  (y1 =? y2) && (m1 =? m2) && (d1 =? d2).

(** [s <= t] *)
Definition dt_leb (s t : datetime) : bool :=
  if year s <? year t then true else if year t <? year s then false else
  if month s <? month t then true else if month t <? month s then false else
  if day s <? day t then true else if day t <? day s then false else
  tod s <=? tod t.

(** [t.replace(day=1)] *)
Definition replace_day1 (t : datetime) : datetime :=
  mk_datetime (year t) (month t) 1 (tod t).

(** [t.strftime("%b")] *)
Definition month_abbr : list string :=
  ["Jan"; "Feb"; "Mar"; "Apr"; "May"; "Jun";
   "Jul"; "Aug"; "Sep"; "Oct"; "Nov"; "Dec"]%string.

Definition strftime_b (t : datetime) : string :=
  nth (Z.to_nat (month t - 1)) month_abbr ""%string.

End Calendar.
Import Calendar.

(* ================================================================== *)
(** ** Data model *)

(** One entry of the stargazers timeline.  [star.get("starred_at")] may be
    missing or empty, and [datetime.fromisoformat] may reject it. *)
Inductive StarEvent : Type :=
| star_no_timestamp
| star_bad_timestamp
| star_at (t : datetime).

(** The fields of [repo_data] the engine reads.  [language] is [None] when
    the key is absent and [Some None] when it is JSON [null]. *)
Record RepositorySnapshot : Type := {
  name : string;
  description : option string;
  language : option (option string);
  fork : bool;
  created_at : datetime;
  stargazers_count : Z;
  forks_count : Z
}.

Record ContributorRecord : Type := {
  login : option string;
  contributions : option Z
}.

Record MonthlyRecord : Type := mk_monthly {
  month_label : string * Z;      (* "%b %Y" *)
  month_key : Z * Z;             (* "%Y-%m" *)
  stars_gained : Z;
  forks_gained : Z;
  total_stars_before : Z;
  total_stars_after : Z;
  total_forks_before : Z;
  total_forks_after : Z;
  date : datetime
}.

Definition set_stars_gained (v : Z) (r : MonthlyRecord) : MonthlyRecord :=
  mk_monthly (month_label r) (month_key r) v (forks_gained r)
    (total_stars_before r) (total_stars_after r)
    (total_forks_before r) (total_forks_after r) (date r).

Definition set_forks_gained (v : Z) (r : MonthlyRecord) : MonthlyRecord :=
  mk_monthly (month_label r) (month_key r) (stars_gained r) v
    (total_stars_before r) (total_stars_after r)
    (total_forks_before r) (total_forks_after r) (date r).

Definition set_totals (sb sa fb fa : Z) (r : MonthlyRecord) : MonthlyRecord :=
  mk_monthly (month_label r) (month_key r) (stars_gained r) (forks_gained r)
    sb sa fb fa (date r).

Record DailyRecord : Type := mk_daily {
  daily_date : Z * Z * Z;        (* "%Y-%m-%d" *)
  value : Z;
  cumulative : Z
}.

Record Entry (K : Type) : Type := mk_entry {
  entry_key : K;
  entry_value : Z
}.

Record DailyData : Type := {
  daily_stars : list DailyRecord;
  daily_forks : list DailyRecord
}.

Record Series (K : Type) : Type := {
  series_stars : list (Entry K);
  series_forks : list (Entry K);
  series_clones : list (Entry K)
}.

Record AnalyticsBundle : Type := {
  monthly : Series string;
  countries : Series string;
  daily : DailyData;
  history : list MonthlyRecord
}.

Record Classification : Type := {
  primary_language : option string;
  type : string;
  framework : string;
  category : string
}.

(* ================================================================== *)
(** ** Classifier: [classify_repository] *)

Open Scope string_scope.

Definition classify_repository (repo_data : RepositorySnapshot)
    (languages : dict Z) : Classification :=
  let primary_language :=
    match language repo_data with
    | Some v => v
    | None => Some "Unknown"
    end in
  let description :=
    lower (match description repo_data with Some s => s | None => "" end) in
  let name := lower (name repo_data) in
  let in_either keyword := contains keyword description || contains keyword name in
  let in_description keyword := contains keyword description in
  (* Framework detection *)
  let framework :=
    if any in_either ["react"; "nextjs"; "next.js"] then "React/Next.js"
    else if any in_either ["vue"; "vuejs"; "nuxt"] then "Vue.js"
    else if any in_either ["angular"] then "Angular"
    else if any in_either ["django"; "flask"; "fastapi"] then "Python Web Framework"
    else if any in_either ["express"; "node"] then "Node.js"
    else "Unknown" in
  (* Category detection *)
  let category :=
    if any in_description ["api"; "backend"; "server"] then "Backend"
    else if any in_description ["frontend"; "ui"; "component"] then "Frontend"
    else if any in_description ["mobile"; "ios"; "android"] then "Mobile"
    else if any in_description ["ml"; "ai"; "machine learning"; "neural"] then "AI/ML"
    else if any in_description ["game"; "gaming"] then "Gaming"
    else if any in_description ["tool"; "cli"; "utility"] then "Tool/Utility"
    else "Unknown" in
  (* Type detection *)
  let type :=
    if fork repo_data then "Fork"
    else if any in_description ["library"; "package"; "npm"; "pip"] then "Library"
    else if any in_description ["template"; "boilerplate"; "starter"] then "Template"
    else "Project" in
  {| primary_language := primary_language;
     type := type;
     framework := framework;
     category := category |}.

Close Scope string_scope.

(* ================================================================== *)
(** ** Synthesis engine *)

Section Engine.

(** The runtime's [pow] on floats. *)
Variable pow : Q -> Q -> Q.

Open Scope Z_scope.

(** *** Growth model (lines 284-297) *)

Definition growth_factor (progress : Q) : Q :=
  if Qle_bool progress 0.2 then          (* early phase *)
    (progress * 0.25)%Q
  else if Qle_bool progress 0.6 then     (* growth phase *)
    let early_stars := 0.05%Q in
    let growth_progress := ((progress - 0.2) / 0.4)%Q in
    let growth_in_phase := (pow growth_progress 1.5 * 0.35)%Q in
    (early_stars + growth_in_phase)%Q
  else                                   (* maturity phase *)
    let early_and_growth := 0.4%Q in
    let maturity_progress := ((progress - 0.6) / 0.4)%Q in
    let maturity_growth := (maturity_progress * 0.6)%Q in
    (early_and_growth + maturity_growth)%Q.

(** *** Monthly history (lines 248-343) *)

(** The real star events of one calendar month (lines 258-267). *)
Definition count_month_stars (stargazers : list StarEvent)
    (current_month : datetime) : Z :=
  fold_left
    (fun stars_this_month star =>
       match star with
       | star_at star_date =>
           if (year star_date =? year current_month)
              && (month star_date =? month current_month)
           then stars_this_month + 1 else stars_this_month
       | _ => stars_this_month
       end)
    stargazers 0.

Definition seasonal_months : list Z := [3; 4; 9; 10; 11].

(** Lines 340-343. *)
Definition next_month (current_month : datetime) : datetime :=
  if month current_month =? 12 then
    mk_datetime (year current_month + 1) 1 (day current_month) (tod current_month)
  else
    mk_datetime (year current_month) (month current_month + 1)
      (day current_month) (tod current_month).

Section Monthly.

Variable repo_data : RepositorySnapshot.
Variable stargazers : list StarEvent.
Variable current_date : datetime.

Let created_date : datetime := created_at repo_data.

(** The stars of one month (lines 257-318): the real count is computed and
    then replaced in both branches of the conditional. *)
Definition month_stars (current_month : datetime) (cumulative_stars : Z) : M Z :=
  let stars_this_month := count_month_stars stargazers current_month in
  let months_since_creation :=
    (year current_month - year created_date) * 12
    + (month current_month - month created_date) in
  let total_months :=
    Z.max 1 ((year current_date - year created_date) * 12
             + (month current_date - month created_date)) in
  if (total_months >? 0) && (months_since_creation >=? 0) then
    progress <- truediv months_since_creation total_months ;;
    let total_stars := stargazers_count repo_data in
    let growth_factor := growth_factor progress in
    let target_cumulative := trunc (of_int total_stars * Qmin 1 growth_factor) in
    let stars_this_month := Z.max 0 (target_cumulative - cumulative_stars) in
    if stars_this_month >? 0 then
      r <- random ;;
      let variation_percent := ((r - 0.5) * 0.6)%Q in
      let variation := trunc (of_int stars_this_month * variation_percent) in
      let stars_this_month := Z.max 0 (stars_this_month + variation) in
      let month_num := month current_month in
      if any (Z.eqb month_num) seasonal_months then
        ret (trunc (of_int stars_this_month * 1.1))
      else ret stars_this_month
    else ret stars_this_month
  else
    let stars_this_month := 0 in
    ret stars_this_month.

(** One iteration of the [while] loop, up to the append (lines 254-337). *)
Definition month_record (current_month : datetime)
    (cumulative_stars cumulative_forks : Z) : M (MonthlyRecord * Z * Z) :=
  let month_name := (strftime_b current_month, year current_month) in
  let month_key := (year current_month, month current_month) in
  stars_this_month <- month_stars current_month cumulative_stars ;;
  let cumulative_stars := cumulative_stars + stars_this_month in
  fork_ratio <- truediv (forks_count repo_data)
                        (Z.max 1 (stargazers_count repo_data)) ;;
  let forks_this_month :=
    if stars_this_month >? 0
    then trunc (of_int stars_this_month * fork_ratio) else 0 in
  let cumulative_forks := cumulative_forks + forks_this_month in
  ret ({| month_label := month_name;
          month_key := month_key;
          stars_gained := stars_this_month;
          forks_gained := forks_this_month;
          total_stars_before := cumulative_stars - stars_this_month;
          total_stars_after := cumulative_stars;
          total_forks_before := cumulative_forks - forks_this_month;
          total_forks_after := cumulative_forks;
          date := current_month |},
       cumulative_stars, cumulative_forks).

(** [while current_month <= current_date: ...] with a budget of iterations. *)
Fixpoint monthly_loop (fuel : nat) (current_month : datetime)
    (cumulative_stars cumulative_forks : Z)
    (monthly_history : list MonthlyRecord) : M (list MonthlyRecord) :=
  if dt_leb current_month current_date then
    match fuel with
    | O => raise OutOfFuel
    | S fuel' =>
        step <- month_record current_month cumulative_stars cumulative_forks ;;
        let '(record, cumulative_stars, cumulative_forks) := step in
        monthly_loop fuel' (next_month current_month)
          cumulative_stars cumulative_forks (monthly_history ++ [record])
    end
  else ret monthly_history.

(** The number of calendar months from the creation month to the current
    month, both included. *)
Definition months_inclusive : Z :=
  (year current_date - year created_date) * 12
  + (month current_date - month created_date) + 1.

(** Lines 248-343.  The budget is the number of calendar months in range;
    [monthly_loop_total] shows that it is never exhausted. *)
Definition simulate_months : M (list MonthlyRecord) :=
  let monthly_history := [] in
  let current_month := replace_day1 created_date in
  let cumulative_stars := 0 in
  let cumulative_forks := 0 in
  monthly_loop (Z.to_nat months_inclusive) current_month
    cumulative_stars cumulative_forks monthly_history.

(** *** Reconciliation (lines 345-384) *)

(** Lines 362-364 and 370-372: the two loops differ in the field only. *)
Definition adjust_gained (get : MonthlyRecord -> Z)
    (set : Z -> MonthlyRecord -> MonthlyRecord) (per_month : Z) (i : Z)
    (monthly_history : list MonthlyRecord) : M (list MonthlyRecord) :=
  let idx := - (i + 1) in
  item <- getitem monthly_history idx ;;
  setitem monthly_history idx (set (Z.max 0 (get item + per_month)) item).

Definition adjust_stars : Z -> Z -> list MonthlyRecord -> M (list MonthlyRecord) :=
  adjust_gained stars_gained set_stars_gained.

Definition adjust_forks : Z -> Z -> list MonthlyRecord -> M (list MonthlyRecord) :=
  adjust_gained forks_gained set_forks_gained.

(** Lines 375-384. *)
Fixpoint recalculate (running_stars running_forks : Z)
    (monthly_history : list MonthlyRecord) : list MonthlyRecord :=
  match monthly_history with
  | [] => []
  | item :: rest =>
      let stars_after := running_stars + stars_gained item in
      let forks_after := running_forks + forks_gained item in
      set_totals running_stars stars_after running_forks forks_after item
      :: recalculate stars_after forks_after rest
  end.

Definition reconcile (monthly_history : list MonthlyRecord)
    : M (list MonthlyRecord) :=
  match monthly_history with
  | [] => ret monthly_history
  | _ :: _ =>
      let total_simulated_stars := sum (map stars_gained monthly_history) in
      let total_simulated_forks := sum (map forks_gained monthly_history) in
      let actual_stars := stargazers_count repo_data in
      let actual_forks := forks_count repo_data in
      let stars_diff := actual_stars - total_simulated_stars in
      let forks_diff := actual_forks - total_simulated_forks in
      monthly_history <-
        (if Qlt_bool (of_int actual_stars * 0.05) (of_int (Z.abs stars_diff)) then
           let months_to_adjust := Z.min 3 (len monthly_history) in
           per_month_stars <- floordiv stars_diff months_to_adjust ;;
           for_each (range months_to_adjust) (adjust_stars per_month_stars)
             monthly_history
         else ret monthly_history) ;;
      monthly_history <-
        (if Qlt_bool (of_int actual_forks * 0.05) (of_int (Z.abs forks_diff)) then
           let months_to_adjust := Z.min 3 (len monthly_history) in
           per_month_forks <- floordiv forks_diff months_to_adjust ;;
           for_each (range months_to_adjust) (adjust_forks per_month_forks)
             monthly_history
         else ret monthly_history) ;;
      ret (recalculate 0 0 monthly_history)
  end.

(** The [history] field of the result. *)
Definition monthly_history : M (list MonthlyRecord) :=
  monthly_history <- simulate_months ;;
  reconcile monthly_history.

End Monthly.

(** *** Legacy monthly view (lines 386-441) *)

Definition months : list string := month_abbr.

Section Legacy.

Variable repo_data : RepositorySnapshot.
Variable stargazers : list StarEvent.

(** Lines 397-408: the state is [(monthly_stars, total_stargazers_processed)]. *)
Definition count_legacy_star (star : StarEvent) (st : dict Z * Z)
    : M (dict Z * Z) :=
  let '(monthly_stars, total_stargazers_processed) := st in
  match star with
  | star_at star_date =>
      let month_name := strftime_b star_date in
      if dict_mem month_name monthly_stars then
        n <- getkey monthly_stars month_name ;;
        ret (dict_set month_name (n + 1) monthly_stars,
             total_stargazers_processed + 1)
      else ret st
  | _ => ret st
  end.

(** Lines 413-418. *)
Definition model_legacy_month (im : Z * string) (monthly_stars : dict Z)
    : M (dict Z) :=
  let '(i, month) := im in
  let total_stars := stargazers_count repo_data in
  let base_stars := Z.max 1 (total_stars / 12) in
  let growth_factor := (of_int (i + 1) / 12)%Q in
  let month_stars := trunc (of_int base_stars * (0.5 + growth_factor)) in
  ret (dict_set month month_stars monthly_stars).

Definition legacy_monthly_stars : M (list (Entry string)) :=
  let monthly_stars := fold_left (fun d month => dict_set month 0 d) months [] in
  let total_stargazers_processed := 0 in
  st <- for_each stargazers count_legacy_star
          (monthly_stars, total_stargazers_processed) ;;
  let '(monthly_stars, total_stargazers_processed) := st in
  monthly_stars <-
    (if Qlt_bool (of_int total_stargazers_processed)
                 (of_int (stargazers_count repo_data) * 0.1)
     then for_each (enumerate months) model_legacy_month monthly_stars
     else ret monthly_stars) ;;
  for_each months
    (fun month acc =>
       v <- getkey monthly_stars month ;; ret (acc ++ [mk_entry month v])) [].

(** Lines 424-431. *)
Definition legacy_monthly_forks : list (Entry string) :=
  let total_forks := forks_count repo_data in
  map (fun im : Z * string =>
         let '(i, month) := im in
         let base_forks := Z.max 1 (total_forks / 12) in
         let variation := Z.max 0 (trunc (of_int base_forks * 0.3)) in
         let month_forks := base_forks + (i mod 3) * variation in
         mk_entry month (Z.min month_forks total_forks))
      (enumerate months).

(** Lines 434-441. *)
Definition legacy_monthly_clones : list (Entry string) :=
  let base_clones := Z.max 10 (stargazers_count repo_data / 50) in
  map (fun im : Z * string =>
         let '(i, month) := im in
         let month_multiplier := (0.5 + (of_int i / 12) * 1.5)%Q in
         let seasonal_factor := (1 + 0.3 * of_int (Z.abs (6 - i)) / 6)%Q in
         let month_clones :=
           trunc (of_int base_clones * month_multiplier * seasonal_factor) in
         mk_entry month (Z.max 1 month_clones))
      (enumerate months).

End Legacy.

(** *** Country distribution (lines 443-520) *)

Open Scope string_scope.

(** Lines 450-469. *)
Definition country_of_login (login : string) : string :=
  let l := lower login in
  let has chars := any (fun char => contains char l) chars in
  if has ["de"; "german"] then "Germany"
  else if has ["uk"; "brit"] then "United Kingdom"
  else if has ["ca"; "canadian"] then "Canada"
  else if has ["fr"; "french"] then "France"
  else if has ["jp"; "japan"] then "Japan"
  else if has ["au"; "aussie"] then "Australia"
  else if has ["in"; "indian"] then "India"
  else if has ["br"; "brazil"] then "Brazil"
  else "United States".

Definition countries_data : list (string * Q) :=
  [("United States", 0.35%Q); ("Germany", 0.12%Q); ("United Kingdom", 0.10%Q);
   ("Canada", 0.08%Q); ("France", 0.07%Q); ("Japan", 0.06%Q);
   ("Australia", 0.05%Q); ("India", 0.04%Q); ("Brazil", 0.04%Q);
   ("Netherlands", 0.03%Q)].

Close Scope string_scope.

(** [l.sort(key=lambda x: x["value"], reverse=True)]: a stable sort, the
    largest value first. *)
Fixpoint insert_desc {K} (x : Entry K) (l : list (Entry K)) : list (Entry K) :=
  match l with
  | [] => [x]
  | y :: l' =>
      if entry_value y >? entry_value x then y :: insert_desc x l'
      else x :: y :: l'
  end.

Definition sort_desc {K} (l : list (Entry K)) : list (Entry K) :=
  fold_right insert_desc [] l.

Section Countries.

Variable repo_data : RepositorySnapshot.
Variable contributors : list ContributorRecord.

(** Lines 447-471. *)
Definition contributor_countries : dict Z :=
  if negb (match contributors with [] => true | _ => false end)
     && (len contributors >? 0)
  then
    fold_left
      (fun country_distribution contributor =>
         let login := match login contributor with Some s => s | None => ""%string end in
         let country := country_of_login login in
         let old := match dict_get country country_distribution with
                    | Some v => v | None => 0 end in
         let added := match contributions contributor with
                      | Some c => c | None => 1 end in
         dict_set country (old + added) country_distribution)
      (firstn 50 contributors) []
  else [].

(** Lines 474-495. *)
Definition fallback_countries (country_distribution : dict Z) : dict Z :=
  match country_distribution with
  | [] =>
      let total_stars := stargazers_count repo_data in
      fold_left
        (fun country_distribution cp =>
           let '(country, percentage) := cp in
           let stars_count := trunc (of_int total_stars * percentage) in
           if stars_count >? 0
           then dict_set country stars_count country_distribution
           else country_distribution)
        countries_data country_distribution
  | _ :: _ => country_distribution
  end.

(** Lines 503-515: one item of [country_distribution.items()]. *)
Definition country_item (total_contributions : Z) (item : string * Z)
    (acc : list (Entry string) * list (Entry string) * list (Entry string))
    : M (list (Entry string) * list (Entry string) * list (Entry string)) :=
  let '(country, contributions) := item in
  let '(country_stars, country_forks, country_clones) := acc in
  if total_contributions >? 0 then
    star_ratio <- truediv contributions total_contributions ;;
    let stars_count := trunc (of_int (stargazers_count repo_data) * star_ratio) in
    let forks_count := trunc (of_int (forks_count repo_data) * star_ratio) in
    let clones_count := contributions * 10 in
    let country_stars :=
      if stars_count >? 0
      then country_stars ++ [mk_entry country stars_count] else country_stars in
    let country_forks :=
      if forks_count >? 0
      then country_forks ++ [mk_entry country forks_count] else country_forks in
    let country_clones :=
      if clones_count >? 0
      then country_clones ++ [mk_entry country clones_count] else country_clones in
    ret (country_stars, country_forks, country_clones)
  else ret acc.

(** Lines 443-520 and the slices of lines 532-534. *)
Definition country_series : M (Series string) :=
  let country_distribution := fallback_countries contributor_countries in
  let total_contributions := sum (dict_values country_distribution) in
  acc <- for_each country_distribution (country_item total_contributions)
           ([], [], []) ;;
  let '(country_stars, country_forks, country_clones) := acc in
  let country_stars := sort_desc country_stars in
  let country_forks := sort_desc country_forks in
  let country_clones := sort_desc country_clones in
  ret {| series_stars := firstn 8 country_stars;
         series_forks := firstn 8 country_forks;
         series_clones := firstn 8 country_clones |}.

End Countries.

(** *** Daily window: [generate_daily_analytics] (lines 540-617) *)

Section Daily.

Variable repo_data : RepositorySnapshot.
Variable stargazers : list StarEvent.
Variable today : datetime.

(** Lines 552-560. *)
Definition count_day_stars (date : datetime) : Z :=
  fold_left
    (fun stars_count star =>
       match star with
       | star_at star_date =>
           if date_eqb (date_of star_date) (date_of date)
           then stars_count + 1 else stars_count
       | _ => stars_count
       end)
    stargazers 0.

(** Lines 563-592. *)
Definition day_stars (i : Z) (date : datetime) : M Z :=
  let stars_count := count_day_stars date in
  if (match stargazers with [] => true | _ => false end)
     || (len stargazers <? 10)
  then
    let repo_age_days := days_between today (created_at repo_data) in
    let total_stars := stargazers_count repo_data in
    if repo_age_days >? 0 then
      lifetime_avg <- truediv total_stars repo_age_days ;;
      let days_ago := i in
      let recency_factor := (1.0 + of_int (30 - days_ago) * 0.02)%Q in
      let day_of_week := weekday date in
      let weekday_factor := if day_of_week <? 5 then 1.2%Q else 0.6%Q in
      r <- random ;;
      let random_factor := (0.7 + r * 0.6)%Q in
      let stars_count :=
        Z.max 0 (trunc (lifetime_avg * recency_factor * weekday_factor
                        * random_factor)) in
      let max_daily := Z.max 1 (total_stars / 20) in
      ret (Z.min stars_count max_daily)
    else ret 0
  else ret stars_count.

(** One iteration of the loop (lines 548-612); the state is
    [(daily_stars, daily_forks)]. *)
Definition daily_step (i : Z) (st : list DailyRecord * list DailyRecord)
    : M (list DailyRecord * list DailyRecord) :=
  let '(daily_stars, daily_forks) := st in
  let date := sub_days today i in
  let date_str := date_of date in
  stars_count <- day_stars i date ;;
  ratio <- truediv (forks_count repo_data)
                   (Z.max 1 (stargazers_count repo_data)) ;;
  let fork_ratio := Qmin 0.3 ratio in
  r <- random ;;
  let forks_count :=
    Z.max 0 (trunc (of_int stars_count * fork_ratio * (0.8 + r * 0.4))) in
  let cumulative_stars := sum (map value daily_stars) + stars_count in
  let cumulative_forks := sum (map value daily_forks) + forks_count in
  ret (daily_stars ++ [mk_daily date_str stars_count cumulative_stars],
       daily_forks ++ [mk_daily date_str forks_count cumulative_forks]).

Definition generate_daily_analytics : M DailyData :=
  st <- for_each (range_down 30 (-1)) daily_step ([], []) ;;
  let '(daily_stars, daily_forks) := st in
  ret {| daily_stars := daily_stars; daily_forks := daily_forks |}.

End Daily.

(** *** The engine: [generate_real_analytics_data] (lines 235-538)

    [stargazers] and [contributors] are the results of the two fetches of
    lines 239-240; [current_date] and [today] are the clock readings of
    lines 245 and 546. *)
Definition generate_real_analytics_data (repo_data : RepositorySnapshot)
    (stargazers : list StarEvent) (contributors : list ContributorRecord)
    (current_date today : datetime) : M AnalyticsBundle :=
  monthly_history <- monthly_history repo_data stargazers current_date ;;
  monthly_stars_list <- legacy_monthly_stars repo_data stargazers ;;
  let monthly_forks_list := legacy_monthly_forks repo_data in
  let monthly_clones_list := legacy_monthly_clones repo_data in
  countries <- country_series repo_data contributors ;;
  daily_data <- generate_daily_analytics repo_data stargazers today ;;
  ret {| monthly := {| series_stars := monthly_stars_list;
                       series_forks := monthly_forks_list;
                       series_clones := monthly_clones_list |};
         countries := countries;
         daily := daily_data;
         history := monthly_history |}.

End Engine.

(* ================================================================== *)
(** ** Vocabulary of the specification *)

Section Vocabulary.
Open Scope Z_scope.

(** Calendar months counted from year 0. *)
Definition month_index (t : datetime) : Z := year t * 12 + month t.

(** The loop visits a month through its first day, at the creation's time of
    day.  That instant of the current month is not later than
    [current_date] when the current day is not the first of the month, or
    the current time of day is not earlier than the creation's. *)
Definition reaches_current_month (current_month current_date : datetime) : bool :=
  (1 <? day current_date) || (tod current_month <=? tod current_date).

(** The number of months the loop still visits from [current_month]. *)
Definition remaining_months (current_month current_date : datetime) : Z :=
  month_index current_date - month_index current_month
  + (if reaches_current_month current_month current_date then 1 else 0).

Fixpoint month_starts (n : nat) (current_month : datetime) : list datetime :=
  match n with
  | O => []
  | S n' => current_month :: month_starts n' (next_month current_month)
  end.

(** What the reconciliation achieves for one metric: [actual] is the
    authoritative total, [simulated] the sum before the pass, [final] the sum
    after it and [n] the number of records. *)
Definition reconciled (actual simulated final n : Z) : Prop :=
  let diff := actual - simulated in
  let k := Z.min 3 n in
  (20 * Z.abs diff <= actual -> final = simulated)
  /\ (actual < 20 * diff -> final = actual - diff mod k)
  /\ (actual < 20 * (- diff) -> actual - diff mod k <= final <= simulated).

(** The invariant of a monthly record. *)
Definition record_consistent (r : MonthlyRecord) : Prop :=
  total_stars_after r = total_stars_before r + stars_gained r
  /\ total_forks_after r = total_forks_before r + forks_gained r.

(** Window-local running sums of a daily series: every record carries the
    sum of the values from the window start through itself. *)
Definition running_sums (l : list DailyRecord) : Prop :=
  forall k r, nth_error l k = Some r ->
    cumulative r = sum (firstn (S k) (map value l)).

(** The ordinal of a rendered date. *)
Definition date_ordinal (d : Z * Z * Z) : Z :=
  let '(y, m, dd) := d in ymd2ord y m dd.

(** A ranked list: the largest value first. *)
Definition sorted_desc {K} (l : list (Entry K)) : Prop :=
  StronglySorted (fun a b => entry_value b <= entry_value a) l.

(** What the claims ask of one country list. *)
Definition ranked_top8 {K} (l : list (Entry K)) : Prop :=
  (List.length l <= 8)%nat
  /\ sorted_desc l
  /\ Forall (fun e => entry_value e <> 0) l.

(** What the reconciliation does by design for one metric, on the gains of
    the records: [actual] is the authoritative total, [simulated] the gains
    before the pass and [final] the gains after it.  Within 5%% nothing
    changes; beyond 5%%, a difference that splits evenly over the adjusted
    months gives each of them its share, not below zero, and the total is
    met unless a month is held at zero.  A difference that does not split
    evenly is left open. *)
Definition evenly_reconciled (actual : Z) (simulated final : list Z) : Prop :=
  let diff := actual - sum simulated in
  let months_to_adjust := Z.min 3 (len simulated) in
  let first_adjusted :=
    (List.length simulated - Z.to_nat months_to_adjust)%nat in
  (20 * Z.abs diff <= actual -> final = simulated)
  /\ (actual < 20 * Z.abs diff -> diff mod months_to_adjust = 0 ->
      List.length final = List.length simulated
      /\ (forall j x,
            nth_error simulated j = Some x ->
            nth_error final j
            = Some (if (first_adjusted <=? j)%nat
                    then Z.max 0 (x + diff / months_to_adjust) else x))
      /\ ((forall j x,
             nth_error simulated j = Some x -> (first_adjusted <= j)%nat ->
             0 <= x + diff / months_to_adjust) ->
          sum final = actual)).

(** A rendered date that is a date of the calendar. *)
Definition calendar_date (d : Z * Z * Z) : Prop :=
  let '(y, m, dd) := d in valid_date y m dd.

(** The twelve keys of the legacy [monthly_stars] dictionary are present. *)
Definition has_all_months (d : dict Z) : Prop :=
  forall m, In m months -> dict_mem m d = true.

(** The [history] field of a run of the engine. *)
Definition history_of (o : outcome (AnalyticsBundle * Rng))
    : outcome (list MonthlyRecord) :=
  match o with
  | Ok (bundle, _) => Ok (history bundle)
  | Raise e => Raise e
  end.

(** Each record of a daily series adds its value to the cumulative value of
    the record before it; the first record starts from zero. *)
Definition chained (l : list DailyRecord) : Prop :=
  (forall r, nth_error l 0 = Some r -> cumulative r = value r)
  /\ (forall k r r', nth_error l k = Some r -> nth_error l (S k) = Some r' ->
        cumulative r' = cumulative r + value r').

(** The fields of a record that the reconciliation does not assign. *)
Definition frame (r : MonthlyRecord) : string * Z * (Z * Z) * datetime :=
  (month_label r, month_key r, date r).

(** The label and the key of a record are those of its month. *)
Definition labelled (r : MonthlyRecord) : Prop :=
  month_label r = (strftime_b (date r), year (date r))
  /\ month_key r = (year (date r), month (date r)).

(** The last record of a history. *)
Definition last_record (h : list MonthlyRecord) : option MonthlyRecord :=
  nth_error h (List.length h - 1).

End Vocabulary.

(** ** Sample inputs *)

Module Samples.
Open Scope Z_scope.
Open Scope string_scope.

(** A stand-in for the runtime's [pow]; the theorems hold for every [pow]. *)
Definition linear_pow : Q -> Q -> Q := fun x _ => x.

(** Every draw of [random.random()] is 0.5: no monthly variation. *)
Definition half : Rng := fun _ => 0.5%Q.

Definition midnight : Z := 0.
Definition ten_am : Z := 36000000000.
Definition three_pm : Z := 54000000000.

(** Draws behind which February gains 3 stars, or loses 7, of 100. *)
Definition a_little_more : Rng := fun _ => 0.5625%Q.
Definition a_little_less : Rng := fun _ => 0.375%Q.

(** 100 stars, created 2023-01-10, observed 2023-02-15. *)
Definition repo_new_year : RepositorySnapshot :=
  {| name := "demo"; description := None; language := None; fork := false;
     created_at := mk_datetime 2023 1 10 midnight;
     stargazers_count := 100; forks_count := 0 |}.
Definition mid_february : datetime := mk_datetime 2023 2 15 midnight.

(** 100 stars, created 2023-02-10, observed 2023-03-15. *)
Definition repo_feb : RepositorySnapshot :=
  {| name := "demo"; description := None; language := None; fork := false;
     created_at := mk_datetime 2023 2 10 midnight;
     stargazers_count := 100; forks_count := 0 |}.
Definition mid_march : datetime := mk_datetime 2023 3 15 midnight.

(** Created 2023-01-15 15:00, observed 2023-04-01 10:00. *)
Definition repo_jan : RepositorySnapshot :=
  {| name := "demo"; description := None; language := None; fork := false;
     created_at := mk_datetime 2023 1 15 three_pm;
     stargazers_count := 100; forks_count := 10 |}.
Definition first_of_april : datetime := mk_datetime 2023 4 1 ten_am.

(** The spec's example, observed 2023-04-10 10:00. *)
Definition tenth_of_april : datetime := mk_datetime 2023 4 10 ten_am.

(** No stars, no forks, observed at the instant of creation. *)
Definition repo_empty : RepositorySnapshot :=
  {| name := "empty"; description := None; language := None; fork := false;
     created_at := tenth_of_april;
     stargazers_count := 0; forks_count := 0 |}.

(** Created earlier in the month of observation. *)
Definition repo_april : RepositorySnapshot :=
  {| name := "fresh"; description := None; language := None; fork := false;
     created_at := mk_datetime 2023 4 3 three_pm;
     stargazers_count := 57; forks_count := 5 |}.

Definition repo_react : RepositorySnapshot :=
  {| name := "widgets"; description := Some "A React component library";
     language := Some (Some "TypeScript"); fork := false;
     created_at := mk_datetime 2023 1 15 three_pm;
     stargazers_count := 100; forks_count := 10 |}.

Definition two_contributors : list ContributorRecord :=
  [ {| login := Some "Dede"; contributions := Some 5 |};
    {| login := Some "bob"; contributions := None |} ].

End Samples.

(* ================================================================== *)
(** ** The data-source client and the request layer

    The requests of [get_stargazers_timeline], [get_contributors_data],
    [get_real_traffic_data] and [get_github_data], the registry of
    [ConnectionManager] and the endpoint [test_repo].  The remote service is
    an input: what each request will answer. *)

Module Http.

(** One [await client.get(...)] and the decoding of its body: the request
    raises, or it returns a status code and a body whose [json()] raises
    ([None]) or yields a document. *)
Inductive reply (J : Type) : Type :=
| network_error
| response (status_code : Z) (body : option J).
Arguments network_error {J}.
Arguments response {J} status_code body.

(** The run of a block of requests inside a [try]: a value, an exception on
    its way to the handler, or a loop that exceeded its budget (an artefact
    of the model). *)
Inductive attempt (A : Type) : Type :=
| Returned (a : A)
| Raised
| Exhausted.
Arguments Returned {A} a.
Arguments Raised {A}.
Arguments Exhausted {A}.

End Http.
Import Http.

Section Client.
Open Scope Z_scope.

(** The [while] loop of lines 199-214: [get page] is the answer to the
    request for that page. *)
Fixpoint stargazers_pages (fuel : nat) (get : Z -> reply (list StarEvent))
    (stargazers : list StarEvent) (page : Z) : attempt (list StarEvent) :=
  if (len stargazers <? 2000) && (page <=? 20) then
    match fuel with
    | O => Exhausted
    | S fuel' =>
        match get page with
        | network_error => Raised
        | response status_code body =>
            if negb (status_code =? 200) then Returned stargazers
            else
              match body with
              | None => Raised
              | Some page_stargazers =>
                  match page_stargazers with
                  | [] => Returned stargazers
                  | _ :: _ =>
                      stargazers_pages fuel' get
                        (stargazers ++ page_stargazers) (page + 1)
                  end
              end
        end
    end
  else Returned stargazers.

(** [get_stargazers_timeline] (lines 191-218): any exception gives the empty
    list.  Twenty iterations are the budget of the loop;
    [stargazers_pages_budget] shows that it is never exceeded. *)
Definition get_stargazers_timeline (get : Z -> reply (list StarEvent))
    : list StarEvent :=
  let stargazers := [] in
  let page := 1 in
  match stargazers_pages 20 get stargazers page with
  | Returned stargazers => stargazers
  | Raised => []
  | Exhausted => []
  end.

(** [get_contributors_data] (lines 220-233). *)
Definition get_contributors_data (r : reply (list ContributorRecord))
    : list ContributorRecord :=
  match r with
  | network_error => []
  | response status_code body =>
      if status_code =? 200 then
        match body with
        | Some contributors => contributors
        | None => []
        end
      else []
  end.

(** The document of a traffic endpoint: [count], [uniques] and the list
    under the key named after the endpoint. *)
Record Traffic : Type := {
  traffic_count : Z;
  traffic_uniques : Z;
  traffic_series : list (string * Z * Z)
}.

(** [get_real_traffic_data] (lines 167-189). *)
Definition get_real_traffic_data (r : reply Traffic) : Traffic :=
  let empty := {| traffic_count := 0; traffic_uniques := 0;
                  traffic_series := [] |} in
  match r with
  | network_error => empty
  | response status_code body =>
      if status_code =? 200 then
        match body with
        | Some document => document
        | None => empty
        end
      else empty
  end.

(** The document of the repository endpoint: the fields the engine reads
    and those [get_github_data] copies. *)
Record RepositoryDocument : Type := {
  snapshot : RepositorySnapshot;
  full_name : string;
  watchers_count : Z;
  open_issues_count : Z;
  size : Z;
  updated_at : string;
  pushed_at : string
}.

(** What the remote service answers to each request of one call of
    [get_github_data], in the order of the source. *)
Record Network : Type := {
  repo_reply : reply RepositoryDocument;
  contributors_reply : reply (list ContributorRecord);
  languages_reply : reply (dict Z);
  clones_reply : reply Traffic;
  views_reply : reply Traffic;
  stargazers_reply : Z -> reply (list StarEvent);
  contributors_page_reply : reply (list ContributorRecord)
}.

(** [generate_real_analytics_data] with its two requests (lines 235-240). *)
Definition fetch_and_generate (pow : Q -> Q -> Q) (net : Network)
    (repo_data : RepositorySnapshot) (current_date today : datetime)
    : M AnalyticsBundle :=
  let stargazers := get_stargazers_timeline (stargazers_reply net) in
  let contributors := get_contributors_data (contributors_page_reply net) in
  generate_real_analytics_data pow repo_data stargazers contributors
    current_date today.

(** The dictionary [get_github_data] returns (lines 96-115). *)
Record GithubData : Type := {
  data_name : string;
  data_full_name : string;
  data_description : option string;
  data_stars : Z;
  data_forks : Z;
  data_watchers : Z;
  data_open_issues : Z;
  data_size : Z;
  data_clones : Traffic;
  data_views : Traffic;
  data_contributors_count : Z;
  data_languages : dict Z;
  data_classification : Classification;
  data_analytics : AnalyticsBundle;
  data_created_at : datetime;
  data_updated_at : string;
  data_pushed_at : string;
  data_timestamp : datetime
}.

(** The result of a request handler: a value, an [HTTPException], or any
    other exception. *)
Inductive api_result (A : Type) : Type :=
| Done (a : A)
| HTTPException (status_code : Z) (detail : string)
| Failure.
Arguments Done {A} a.
Arguments HTTPException {A} status_code detail.
Arguments Failure {A}.

(** [get_github_data] (lines 47-115); [timestamp] is the clock reading of
    line 114.  The logging of lines 86-94 is left out. *)
Definition get_github_data (pow : Q -> Q -> Q) (net : Network)
    (current_date today timestamp : datetime) (g : Rng)
    : api_result (GithubData * Rng) :=
  match repo_reply net with
  | network_error => Failure
  | response status_code body =>
      if negb (status_code =? 200) then
        HTTPException 404 "Repository not found"
      else
        match body with
        | None => Failure
        | Some document =>
            let repo_data := snapshot document in
            match contributors_reply net, languages_reply net with
            | response contributors_status contributors_body,
              response languages_status languages_body =>
                let clones_data := get_real_traffic_data (clones_reply net) in
                let views_data := get_real_traffic_data (views_reply net) in
                match (if contributors_status =? 200
                       then contributors_body else Some []),
                      (if languages_status =? 200
                       then languages_body else Some [])
                with
                | Some contributors, Some languages =>
                    let classification :=
                      classify_repository repo_data languages in
                    match fetch_and_generate pow net repo_data
                            current_date today g with
                    | Ok (analytics, g') =>
                        Done ({| data_name := name repo_data;
                                 data_full_name := full_name document;
                                 data_description := description repo_data;
                                 data_stars := stargazers_count repo_data;
                                 data_forks := forks_count repo_data;
                                 data_watchers := watchers_count document;
                                 data_open_issues := open_issues_count document;
                                 data_size := size document;
                                 data_clones := clones_data;
                                 data_views := views_data;
                                 data_contributors_count := len contributors;
                                 data_languages := languages;
                                 data_classification := classification;
                                 data_analytics := analytics;
                                 data_created_at := created_at repo_data;
                                 data_updated_at := updated_at document;
                                 data_pushed_at := pushed_at document;
                                 data_timestamp := timestamp |}, g')
                    | Raise _ => Failure
                    end
                | _, _ => Failure
                end
            | _, _ => Failure
            end
        end
  end.

(** The answer of [test_repo] (lines 623-630). *)
Inductive TestAnswer : Type :=
| test_success (repo : string) (stars : Z)
| test_error.

Definition test_repo (pow : Q -> Q -> Q) (net : Network)
    (current_date today timestamp : datetime) (g : Rng) : TestAnswer :=
  match get_github_data pow net current_date today timestamp g with
  | Done (data, _) => test_success (data_full_name data) (data_stars data)
  | _ => test_error
  end.

End Client.

Arguments Done {A} a.
Arguments HTTPException {A} status_code detail.
Arguments Failure {A}.

(** [ConnectionManager] (lines 27-43): the registry of open connections.
    A connection object is known by its identity. *)
Module ConnectionManager.

Definition WebSocket : Type := nat.

(** [list.remove(x)]: the first occurrence goes; [None] is [ValueError]. *)
Fixpoint list_remove (x : WebSocket) (l : list WebSocket)
    : option (list WebSocket) :=
  match l with
  | [] => None
  | y :: l' =>
      if Nat.eqb y x then Some l'
      else match list_remove x l' with
           | Some r => Some (y :: r)
           | None => None
           end
  end.

(** [connect]: [accepted] tells whether [websocket.accept()] returned. *)
Definition connect (accepted : bool) (websocket : WebSocket)
    (active_connections : list WebSocket) : attempt (list WebSocket) :=
  if accepted then Returned (active_connections ++ [websocket]) else Raised.

(** [disconnect] *)
Definition disconnect (websocket : WebSocket)
    (active_connections : list WebSocket) : attempt (list WebSocket) :=
  match list_remove websocket active_connections with
  | Some l => Returned l
  | None => Raised
  end.

(** [broadcast]: [send_text c] tells whether sending to [c] returned; the
    result lists the connections that received the message. *)
Fixpoint broadcast (send_text : WebSocket -> bool)
    (active_connections : list WebSocket) : list WebSocket :=
  match active_connections with
  | [] => []
  | connection :: rest =>
      if send_text connection then connection :: broadcast send_text rest
      else broadcast send_text rest
  end.

End ConnectionManager.

(** ** Further vocabulary *)

Section MoreVocabulary.
Open Scope Z_scope.

(** The star events that carry the date [d]. *)
Definition events_on (stargazers : list StarEvent) (d : Z * Z * Z) : Z :=
  fold_left
    (fun n star =>
       match star with
       | star_at star_date => if date_eqb (date_of star_date) d then n + 1 else n
       | _ => n
       end)
    stargazers 0.

(** The star events with a timestamp that parses. *)
Definition dated_events (stargazers : list StarEvent) : Z :=
  fold_left
    (fun n star => match star with star_at _ => n + 1 | _ => n end)
    stargazers 0.

Definition entry_values {K} (l : list (Entry K)) : list Z :=
  map (@entry_value K) l.

(** The draws of [random.random()] lie in [0, 1). *)
Definition unit_draws (g : Rng) : Prop :=
  forall n, (0 <= g n)%Q /\ (g n < 1)%Q.

(** The items of one page of the stargazers listing, as the loop of
    [get_stargazers_timeline] takes them. *)
Definition page_items (get : Z -> reply (list StarEvent)) (page : Z)
    : list StarEvent :=
  match get page with
  | response 200 (Some page_stargazers) => page_stargazers
  | _ => []
  end.

(** The items of the [k] pages that start at [page]. *)
Definition pages_from (get : Z -> reply (list StarEvent)) (page : Z) (k : nat)
    : list StarEvent :=
  List.concat (map (fun i => page_items get (page + Z.of_nat i)) (seq 0 k)).

(** A page that lets the loop go on: status 200 and a non-empty list. *)
Definition full_page (get : Z -> reply (list StarEvent)) (page : Z) : Prop :=
  exists x l, get page = response 200 (Some (x :: l)).

(** A request that raises: the transport fails or the body does not decode. *)
Definition raising_page (get : Z -> reply (list StarEvent)) (page : Z) : Prop :=
  get page = network_error \/ get page = response 200 None.

(** A page that ends the loop: another status, or an empty list. *)
Definition closing_page (get : Z -> reply (list StarEvent)) (page : Z) : Prop :=
  (exists status_code body,
     get page = response status_code body /\ status_code <> 200)
  \/ get page = response 200 (Some []).

(** Few star events: the daily window is modelled (line 563). *)
Definition few_events (stargazers : list StarEvent) : bool :=
  (match stargazers with [] => true | _ => false end)
  || (len stargazers <? 10).

(** The star events of the calendar month [m] of any year. *)
Definition month_events (stargazers : list StarEvent) (m : Z) : Z :=
  fold_left
    (fun n star =>
       match star with
       | star_at star_date => if month star_date =? m then n + 1 else n
       | _ => n
       end)
    stargazers 0.

Definition in_month (m : Z) (star : StarEvent) : bool :=
  match star with star_at t => month t =? m | _ => false end.

Definition is_dated (star : StarEvent) : bool :=
  match star with star_at _ => true | _ => false end.

(** Parsed timestamps carry a month between 1 and 12. *)
Definition well_dated (stargazers : list StarEvent) : Prop :=
  Forall (fun star => match star with
                      | star_at star_date => 1 <= month star_date <= 12
                      | _ => True
                      end) stargazers.

Definition month_numbers : list Z := [1; 2; 3; 4; 5; 6; 7; 8; 9; 10; 11; 12].

(** The monthly base of the legacy model (line 415). *)
Definition legacy_base (repo_data : RepositorySnapshot) : Z :=
  Z.max 1 (stargazers_count repo_data / 12).

(** The legacy dictionary that holds [f m] for the month [m]. *)
Definition month_dict (f : Z -> Z) : dict Z :=
  map (fun m => (nth (Z.to_nat (m - 1)) month_abbr ""%string, f m))
      month_numbers.

(** The cap of a modelled day: 5%% of the stars, at least 1 (line 589). *)
Definition max_daily (repo_data : RepositorySnapshot) : Z :=
  Z.max 1 (stargazers_count repo_data / 20).

(** What holds of the star record and the fork record of one day; [unit]
    says that the random draws lie in [0, 1). *)
Definition day_facts (repo_data : RepositorySnapshot)
    (stargazers : list StarEvent) (today : datetime) (unit : Prop)
    (rs rf : DailyRecord) : Prop :=
  daily_date rs = daily_date rf
  /\ (few_events stargazers = true ->
      0 <= value rs <= max_daily repo_data
      /\ (days_between today (created_at repo_data) <= 0 ->
          value rs = 0 /\ value rf = 0))
  /\ (few_events stargazers = false ->
      value rs = events_on stargazers (daily_date rs))
  /\ (unit -> 0 <= value rf <= value rs).

(** [response.json() if response.status_code == 200 else default] (lines
    76-77 of [get_github_data]): [None] when the expression raises. *)
Definition json_or {J} (r : reply J) (default : J) : option J :=
  match r with
  | network_error => None
  | response status_code body =>
      if status_code =? 200 then body else Some default
  end.

(** The contributors report no negative number of contributions. *)
Definition counted (contributors : list ContributorRecord) : Prop :=
  Forall (fun contributor =>
            match contributions contributor with
            | Some c => 0 <= c
            | None => True
            end) contributors.

End MoreVocabulary.

(** ** Further sample inputs *)

Module MoreSamples.
Import ConnectionManager.
Open Scope Z_scope.
Open Scope string_scope.

(** Two pages of one star event each, then an empty page. *)
Definition two_pages : Z -> reply (list StarEvent) :=
  fun page =>
    if (page <=? 2)%Z then response 200 (Some [star_at Samples.mid_march])
    else response 200 (Some []).

(** Ten star events of 15 March 2023. *)
Definition ten_events : list StarEvent :=
  repeat (star_at Samples.mid_march) 10.

(** One dated event among events without a usable timestamp. *)
Definition mixed_events : list StarEvent :=
  [star_no_timestamp; star_at Samples.mid_march; star_bad_timestamp].

(** [Samples.repo_react] in capitals, with other counts and another date. *)
Definition repo_react_capitals : RepositorySnapshot :=
  {| name := "WIDGETS"; description := Some "A REACT Component LIBRARY";
     language := Some (Some "TypeScript"); fork := false;
     created_at := Samples.mid_march;
     stargazers_count := 7; forks_count := 1 |}.

Definition document_react : RepositoryDocument :=
  {| snapshot := Samples.repo_react; full_name := "acme/widgets";
     watchers_count := 100; open_issues_count := 3; size := 2048;
     updated_at := "2023-04-01T00:00:00Z";
     pushed_at := "2023-04-01T00:00:00Z" |}.

(** The repository and its languages are served; the contributor listing is
    refused, and every other request fails. *)
Definition degraded_network : Network :=
  {| repo_reply := response 200 (Some document_react);
     contributors_reply := response 403 None;
     languages_reply := response 200 (Some [("TypeScript", 1000)]);
     clones_reply := network_error;
     views_reply := response 403 None;
     stargazers_reply := fun _ => network_error;
     contributors_page_reply := network_error |}.

(** A registry in which connection 1 is registered twice. *)
Definition registry : list WebSocket := [1; 2; 1]%nat.

(** Draws behind which February loses 8 stars of 100. *)
Definition well_below : Rng := fun _ => 0.359375%Q.

End MoreSamples.

(** ** The growth model on binary64 floats *)

Module Doubles.
Import PrimFloat.
Local Open Scope float_scope.

(** Lines 284-297 as the program computes them: every operation rounds to
    the nearest double; [pow] is the C library's. *)
#[warnings="-inexact-float"] Definition growth_factor (pow : float -> float -> float) (progress : float) : float :=
  if progress <=? 0.2 then
    progress * 0.25
  else if progress <=? 0.6 then
    let early_stars := 0.05 in
    let growth_progress := (progress - 0.2) / 0.4 in
    let growth_in_phase := pow growth_progress 1.5 * 0.35 in
    early_stars + growth_in_phase
  else
    let early_and_growth := 0.4 in
    let maturity_progress := (progress - 0.6) / 0.4 in
    let maturity_growth := maturity_progress * 0.6 in
    early_and_growth + maturity_growth.

(** The five doubles from 1 - 2^-51 to 1.  The power 1.5 of the double
    below 1 is 1 - 1.5 * 2^-53 to first order: every answer of a [pow] within
    a unit and a half in the last place of it is among them. *)
Definition powers_near_one : list float :=
  [0x1.ffffffffffffcp-1; 0x1.ffffffffffffdp-1; 0x1.ffffffffffffep-1;
   0x1.fffffffffffffp-1; 1].

End Doubles.

(* ================================================================== *)
(** * Properties *)

Unset Implicit Arguments.

(** ** Running computations *)

Lemma bind_ok {A B} (m : M A) (k : A -> M B) g a g1 :
  m g = Ok (a, g1) -> bind m k g = k a g1.
Proof. intros H. unfold bind. now rewrite H. Qed.

Lemma bind_inv {A B} (m : M A) (k : A -> M B) g b g2 :
  bind m k g = Ok (b, g2) ->
  exists a g1, m g = Ok (a, g1) /\ k a g1 = Ok (b, g2).
Proof.
  unfold bind. destruct (m g) as [[a g1]|e]; [|discriminate].
  intros H. now exists a, g1.
Qed.

Arguments bind_ok {A B m} k {g a g1} _.
Arguments bind_inv {A B m k g b g2} _.

Lemma truediv_ok a b g :
  b <> 0%Z -> truediv a b g = Ok ((of_int a / of_int b)%Q, g).
Proof.
  intros Hb. unfold truediv. now destruct (Z.eqb_spec b 0).
Qed.

Lemma floordiv_ok a b g :
  b <> 0%Z -> floordiv a b g = Ok ((a / b)%Z, g).
Proof.
  intros Hb. unfold floordiv. now destruct (Z.eqb_spec b 0).
Qed.

Arguments truediv_ok a {b} g _.
Arguments floordiv_ok a {b} g _.

(** ** Sums *)

Lemma fold_add_shift (l : list Z) (a : Z) :
  fold_left Z.add l a = (a + fold_left Z.add l 0)%Z.
Proof.
  revert a. induction l as [|x l IH]; intros a; simpl.
  - lia.
  - rewrite (IH (a + x)%Z), (IH x). lia.
Qed.

Lemma sum_nil : sum [] = 0%Z.
Proof. reflexivity. Qed.

Lemma sum_cons x l : sum (x :: l) = (x + sum l)%Z.
Proof. unfold sum. simpl. now rewrite fold_add_shift. Qed.

Lemma sum_app l1 l2 : sum (l1 ++ l2) = (sum l1 + sum l2)%Z.
Proof.
  induction l1 as [|x l1 IH].
  - unfold sum. simpl. lia.
  - cbn [app]. rewrite !sum_cons, IH. lia.
Qed.

(** ** Truncation *)

Lemma of_int_nonneg n : (0 <= n)%Z -> (0 <= of_int n)%Q.
Proof. intros H. unfold of_int, Qle. simpl. lia. Qed.

Lemma trunc_nonneg q : (0 <= q)%Q -> (0 <= trunc q)%Z.
Proof.
  intros H. unfold trunc. apply Z.quot_pos; [|lia].
  unfold Qle in H. simpl in H. lia.
Qed.

Lemma trunc_zero q : (q == 0)%Q -> trunc q = 0%Z.
Proof.
  intros H. unfold trunc. unfold Qeq in H. simpl in H.
  assert (Qnum q = 0%Z) as -> by lia. reflexivity.
Qed.

Lemma Qlt_bool_iff x y : Qlt_bool x y = true <-> (x < y)%Q.
Proof.
  unfold Qlt_bool. rewrite negb_true_iff. split.
  - intros H. apply Qnot_le_lt. intros Hle.
    apply Qle_bool_iff in Hle. congruence.
  - intros H. destruct (Qle_bool y x) eqn:E; [|reflexivity].
    apply Qle_bool_iff in E. exfalso. now apply (Qlt_not_le x y).
Qed.

(** The 5%% test of the reconciliation, on integers. *)
Lemma five_percent_test actual diff :
  Qlt_bool (of_int actual * 0.05) (of_int (Z.abs diff)) = true
  <-> (actual < 20 * Z.abs diff)%Z.
Proof.
  rewrite Qlt_bool_iff. unfold of_int, Qlt, Qmult, inject_Z.
  cbn [Qnum Qden]. lia.
Qed.

(** ** The monthly loop *)

Section MonthlyFacts.

Variable pow : Q -> Q -> Q.
Variable repo_data : RepositorySnapshot.
Variable stargazers : list StarEvent.
Variable current_date : datetime.

Open Scope Z_scope.

(** The real star events never reach the result of [month_stars]. *)
Lemma month_stars_ignores_events stargazers' current_month cumulative_stars :
  month_stars pow repo_data stargazers current_date current_month cumulative_stars
  = month_stars pow repo_data stargazers' current_date current_month cumulative_stars.
Proof. reflexivity. Qed.

Lemma month_stars_ok current_month cumulative_stars g :
  exists s g',
    month_stars pow repo_data stargazers current_date
      current_month cumulative_stars g = Ok (s, g') /\ 0 <= s.
Proof.
  unfold month_stars. cbv zeta.
  set (total_months := Z.max 1 _).
  assert (Htm : 1 <= total_months) by (unfold total_months; lia).
  destruct (Z.gtb_spec total_months 0) as [_|]; [|lia].
  destruct (_ >=? 0); cbn [andb].
  2:{ eexists _, _. split; [reflexivity|lia]. }
  assert (Hd : total_months <> 0) by lia.
  rewrite (bind_ok _ (truediv_ok _ g Hd)).
  set (stars := Z.max 0 _).
  destruct (stars >? 0).
  2:{ eexists _, _. split; [reflexivity|unfold stars; lia]. }
  unfold bind, random.
  set (stars' := Z.max 0 _).
  destruct (any _ _).
  - eexists _, _. split; [reflexivity|].
    apply trunc_nonneg. apply Qmult_le_0_compat.
    + apply of_int_nonneg. unfold stars'. lia.
    + discriminate.
  - eexists _, _. split; [reflexivity|unfold stars'; lia].
Qed.

Lemma month_record_ok current_month cumulative_stars cumulative_forks g :
  exists r cs cf g',
    month_record pow repo_data stargazers current_date
      current_month cumulative_stars cumulative_forks g = Ok (r, cs, cf, g')
    /\ 0 <= stars_gained r
    /\ (0 <= forks_count repo_data -> 0 <= forks_gained r)
    /\ labelled r
    /\ date r = current_month.
Proof.
  unfold month_record. cbv zeta.
  destruct (month_stars_ok current_month cumulative_stars g)
    as (s & g1 & Hs & Hs0).
  rewrite (bind_ok _ Hs).
  assert (Hd : Z.max 1 (stargazers_count repo_data) <> 0) by lia.
  rewrite (bind_ok _ (truediv_ok _ g1 Hd)).
  eexists _, _, _, _. split; [reflexivity|]. unfold labelled. simpl.
  repeat split; trivial.
  intros HF. destruct (s >? 0); [|lia].
  apply trunc_nonneg. apply Qmult_le_0_compat.
  - now apply of_int_nonneg.
  - apply Qle_shift_div_l.
    + unfold of_int, Qlt. simpl. lia.
    + rewrite Qmult_0_l. now apply of_int_nonneg.
Qed.

End MonthlyFacts.

Section LoopFacts.

Variable pow : Q -> Q -> Q.
Variable repo_data : RepositorySnapshot.
Variable stargazers : list StarEvent.
Variable current_date : datetime.
Hypothesis current_valid : valid_datetime current_date.

Open Scope Z_scope.

Lemma valid_month t : valid_datetime t -> 1 <= month t <= 12.
Proof. intros [[H _] _]. exact H. Qed.

Lemma valid_day t : valid_datetime t -> 1 <= day t.
Proof. intros [[_ H] _]. lia. Qed.

Lemma month_index_next cm :
  1 <= month cm <= 12 ->
  month_index (next_month cm) = month_index cm + 1
  /\ 1 <= month (next_month cm) <= 12
  /\ day (next_month cm) = day cm
  /\ tod (next_month cm) = tod cm.
Proof.
  intros H. unfold next_month, month_index.
  destruct (Z.eqb_spec (month cm) 12); simpl; lia.
Qed.

Lemma dt_leb_remaining cm :
  day cm = 1 -> 1 <= month cm <= 12 ->
  dt_leb cm current_date = true <-> 1 <= remaining_months cm current_date.
Proof.
  intros Hd Hm.
  pose proof (valid_month _ current_valid) as Hm'.
  pose proof (valid_day _ current_valid) as Hd'.
  unfold dt_leb, remaining_months, reaches_current_month, month_index.
  rewrite Hd.
  destruct (Z.ltb_spec (year cm) (year current_date));
  destruct (Z.ltb_spec (year current_date) (year cm));
  destruct (Z.ltb_spec (month cm) (month current_date));
  destruct (Z.ltb_spec (month current_date) (month cm));
  destruct (Z.ltb_spec 1 (day current_date));
  destruct (Z.ltb_spec (day current_date) 1);
  destruct (Z.leb_spec (tod cm) (tod current_date));
  cbn [orb]; split; intros; try lia; try discriminate; reflexivity.
Qed.

Lemma monthly_loop_spec fuel :
  forall cm cs cf h g,
    day cm = 1 -> 1 <= month cm <= 12 ->
    (Z.to_nat (remaining_months cm current_date) <= fuel)%nat ->
    exists h2 g',
      monthly_loop pow repo_data stargazers current_date fuel cm cs cf h g
      = Ok (h ++ h2, g')
      /\ List.length h2 = Z.to_nat (remaining_months cm current_date)
      /\ Forall (fun r => 0 <= stars_gained r) h2
      /\ (0 <= forks_count repo_data -> Forall (fun r => 0 <= forks_gained r) h2)
      /\ Forall labelled h2
      /\ map date h2 = month_starts (List.length h2) cm.
Proof.
  induction fuel as [|fuel IH]; intros cm cs cf h g Hd Hm Hfuel.
  - assert (Hstop : dt_leb cm current_date = false).
    { destruct (dt_leb cm current_date) eqn:E; [|reflexivity].
      apply dt_leb_remaining in E; trivial. lia. }
    simpl. rewrite Hstop. exists [], g. rewrite app_nil_r.
    split; [reflexivity|]. split; [simpl; lia|].
    split; [constructor|]. split; [constructor|].
    split; [constructor|reflexivity].
  - simpl. destruct (dt_leb cm current_date) eqn:E.
    + apply dt_leb_remaining in E; trivial.
      destruct (month_record_ok pow repo_data stargazers current_date cm cs cf g)
        as (r & cs' & cf' & g1 & Hr & Hs & Hf & Hlab & Hdate).
      rewrite (bind_ok _ Hr).
      destruct (month_index_next cm Hm) as (Hi & Hm' & Hd' & Ht').
      assert (Hrem : remaining_months (next_month cm) current_date
                     = remaining_months cm current_date - 1).
      { unfold remaining_months, reaches_current_month. rewrite Hi, Ht'. lia. }
      destruct (IH (next_month cm) cs' cf' (h ++ [r]) g1) as
        (h2 & g2 & Hrun & Hlen & Hstars & Hforks & Hlabs & Hdates).
      { congruence. } { exact Hm'. } { rewrite Hrem. lia. }
      exists (r :: h2), g2. rewrite Hrun, <- app_assoc. simpl.
      repeat split.
      * rewrite Hlen, Hrem. lia.
      * now constructor.
      * intros HF. constructor; auto.
      * now constructor.
      * now rewrite Hdate, Hdates.
    + exists [], g. rewrite app_nil_r.
      assert (remaining_months cm current_date <= 0).
      { destruct (Z.le_gt_cases 1 (remaining_months cm current_date)) as [H|H];
          [|lia].
        apply dt_leb_remaining in H; trivial. congruence. }
      replace (Z.to_nat (remaining_months cm current_date)) with 0%nat by lia.
      split; [reflexivity|]. split; [reflexivity|].
      split; [constructor|]. split; [constructor|].
      split; [constructor|reflexivity].
Qed.

Hypothesis created_valid : valid_datetime (created_at repo_data).

(** The loop of lines 253-343 always terminates within its budget. *)
Lemma simulate_months_spec g :
  exists sim g',
    simulate_months pow repo_data stargazers current_date g = Ok (sim, g')
    /\ List.length sim
       = Z.to_nat (remaining_months (replace_day1 (created_at repo_data))
                     current_date)
    /\ Forall (fun r => 0 <= stars_gained r) sim
    /\ (0 <= forks_count repo_data -> Forall (fun r => 0 <= forks_gained r) sim)
    /\ Forall labelled sim
    /\ map date sim
       = month_starts (List.length sim) (replace_day1 (created_at repo_data)).
Proof.
  unfold simulate_months. cbv zeta.
  pose proof (valid_month _ created_valid) as Hm.
  destruct (monthly_loop_spec
              (Z.to_nat (months_inclusive repo_data current_date))
              (replace_day1 (created_at repo_data)) 0 0 [] g)
    as (h2 & g' & Hrun & Hrest); trivial.
  - unfold remaining_months, months_inclusive, month_index, replace_day1.
    simpl. destruct (reaches_current_month _ _); lia.
  - exists h2, g'. split; [exact Hrun|exact Hrest].
Qed.

End LoopFacts.

(** ** Reconciliation *)

Section AdjustFacts.

Variable get : MonthlyRecord -> Z.
Variable B : Type.
Variable other : MonthlyRecord -> B.
Variable set : Z -> MonthlyRecord -> MonthlyRecord.
Hypothesis get_set : forall v r, get (set v r) = v.
Hypothesis other_set : forall v r, other (set v r) = other r.
Variable per_month : Z.

Open Scope Z_scope.

Lemma resolve_negative n i :
  (i < n)%nat ->
  resolve_index n (- (Z.of_nat i + 1)) = Some (n - 1 - i)%nat.
Proof.
  intros H. unfold resolve_index.
  destruct (Z.ltb_spec (- (Z.of_nat i + 1)) 0); [|lia].
  destruct (Z.leb_spec 0 (- (Z.of_nat i + 1) + Z.of_nat n)); [|lia].
  destruct (Z.ltb_spec (- (Z.of_nat i + 1) + Z.of_nat n) (Z.of_nat n)); [|lia].
  simpl. f_equal. lia.
Qed.

Lemma replace_nth_length {A} j (y : A) l :
  List.length (replace_nth j y l) = List.length l.
Proof.
  revert j. induction l as [|x l IH]; intros [|j]; simpl; auto.
Qed.

Lemma replace_nth_sum (f : MonthlyRecord -> Z) j x y l :
  nth_error l j = Some x ->
  sum (map f (replace_nth j y l)) = sum (map f l) - f x + f y.
Proof.
  revert j. induction l as [|z l IH]; intros [|j] H; simpl in *;
    try discriminate.
  - injection H as ->. rewrite !sum_cons. lia.
  - rewrite !sum_cons, (IH j H). lia.
Qed.

Lemma replace_nth_map (f : MonthlyRecord -> B) j x y l :
  nth_error l j = Some x -> f y = f x ->
  map f (replace_nth j y l) = map f l.
Proof.
  revert j. induction l as [|z l IH]; intros [|j] H E; simpl in *;
    try discriminate.
  - injection H as ->. now rewrite E.
  - now rewrite (IH j H E).
Qed.

Lemma replace_nth_Forall (P : MonthlyRecord -> Prop) j y l :
  P y -> Forall P l -> Forall P (replace_nth j y l).
Proof.
  intros Hy. revert j. induction l as [|z l IH]; intros [|j] H; simpl;
    inversion H; subst; constructor; auto.
Qed.

(** One assignment [monthly_history[-(i+1)][field] = max(0, ... + per_month)]. *)
Lemma adjust_step i h g :
  (i < List.length h)%nat ->
  exists x,
    nth_error h (List.length h - 1 - i) = Some x
    /\ adjust_gained get set per_month (Z.of_nat i) h g
       = Ok (replace_nth (List.length h - 1 - i)
               (set (Z.max 0 (get x + per_month)) x) h, g).
Proof.
  intros Hi.
  destruct (nth_error h (List.length h - 1 - i)) as [x|] eqn:E.
  2:{ apply nth_error_None in E. lia. }
  exists x. split; [reflexivity|].
  unfold adjust_gained, getitem, setitem, bind. cbv zeta.
  rewrite (resolve_negative _ _ Hi), E. reflexivity.
Qed.

Lemma adjust_loop k :
  forall a h g,
    (a + k <= List.length h)%nat ->
    exists h',
      for_each (map Z.of_nat (seq a k)) (adjust_gained get set per_month) h g
      = Ok (h', g)
      /\ List.length h' = List.length h
      /\ map other h' = map other h
      /\ (Forall (fun r => 0 <= get r) h ->
          Forall (fun r => 0 <= get r) h'
          /\ (0 <= per_month ->
              sum (map get h') = sum (map get h) + Z.of_nat k * per_month)
          /\ (per_month <= 0 ->
              sum (map get h) + Z.of_nat k * per_month <= sum (map get h')
              /\ sum (map get h') <= sum (map get h))).
Proof.
  induction k as [|k IH]; intros a h g Hk.
  - exists h. simpl. repeat split; auto; lia.
  - cbn [seq map for_each].
    destruct (adjust_step a h g ltac:(lia)) as (x & Hx & Hrun).
    rewrite (bind_ok _ Hrun).
    set (h1 := replace_nth _ _ h) in *.
    assert (Hlen1 : List.length h1 = List.length h)
      by apply replace_nth_length.
    destruct (IH (S a) h1 g ltac:(lia)) as (h' & Hrun' & Hlen & Hother & Hsum).
    exists h'. split; [exact Hrun'|]. split; [congruence|]. split.
    { rewrite Hother. unfold h1. apply (replace_nth_map other _ x); trivial. }
    intros Hpos.
    assert (Hx0 : 0 <= get x).
    { rewrite Forall_forall in Hpos. apply Hpos.
      eapply nth_error_In; eauto. }
    assert (Hpos1 : Forall (fun r => 0 <= get r) h1).
    { apply replace_nth_Forall; trivial. rewrite get_set. lia. }
    assert (Hsum1 : sum (map get h1)
                    = sum (map get h) - get x + Z.max 0 (get x + per_month)).
    { unfold h1. rewrite (replace_nth_sum get _ x); trivial.
      now rewrite get_set. }
    destruct (Hsum Hpos1) as (Hpos' & Hup & Hdown).
    split; [exact Hpos'|]. split.
    + intros Hp. rewrite (Hup Hp), Hsum1. lia.
    + intros Hp. specialize (Hdown Hp). rewrite Hsum1 in Hdown. lia.
Qed.

End AdjustFacts.

Section ReconcileFacts.

Variable repo_data : RepositorySnapshot.

Open Scope Z_scope.

Lemma recalculate_length h : forall a b,
  List.length (recalculate a b h) = List.length h.
Proof. induction h as [|x h IH]; intros a b; simpl; auto. Qed.

Lemma recalculate_gained h : forall a b,
  map stars_gained (recalculate a b h) = map stars_gained h
  /\ map forks_gained (recalculate a b h) = map forks_gained h.
Proof.
  induction h as [|x h IH]; intros a b; simpl; [auto|].
  destruct (IH (a + stars_gained x) (b + forks_gained x)) as [-> ->]. auto.
Qed.

Lemma recalculate_consistent h : forall a b,
  Forall record_consistent (recalculate a b h).
Proof.
  induction h as [|x h IH]; intros a b; simpl; constructor; auto.
  split; reflexivity.
Qed.

(** After the pass of lines 375-384 every record carries the sums of the
    gains up to it. *)
Lemma recalculate_prefix h : forall a b k r,
  nth_error (recalculate a b h) k = Some r ->
  total_stars_before r = a + sum (firstn k (map stars_gained h))
  /\ total_stars_after r = a + sum (firstn (S k) (map stars_gained h))
  /\ total_forks_before r = b + sum (firstn k (map forks_gained h))
  /\ total_forks_after r = b + sum (firstn (S k) (map forks_gained h)).
Proof.
  induction h as [|x h IH]; intros a b [|k] r H; simpl in H; try discriminate.
  - injection H as <-. simpl. rewrite !sum_cons, !sum_nil. lia.
  - apply IH in H.
    change (firstn (S k) (map stars_gained (x :: h)))
      with (stars_gained x :: firstn k (map stars_gained h)).
    change (firstn (S (S k)) (map stars_gained (x :: h)))
      with (stars_gained x :: firstn (S k) (map stars_gained h)).
    change (firstn (S k) (map forks_gained (x :: h)))
      with (forks_gained x :: firstn k (map forks_gained h)).
    change (firstn (S (S k)) (map forks_gained (x :: h)))
      with (forks_gained x :: firstn (S k) (map forks_gained h)).
    rewrite !sum_cons. lia.
Qed.

Lemma div_mul_mod a k : k <> 0 -> k * (a / k) = a - a mod k.
Proof. intros H. pose proof (Z.div_mod a k H). lia. Qed.

(** One metric of the reconciliation (lines 358-364 or 366-372). *)
Lemma adjust_metric {B} (get : MonthlyRecord -> Z) (other : MonthlyRecord -> B)
    (set : Z -> MonthlyRecord -> MonthlyRecord) (actual : Z) h g :
  (forall v r, get (set v r) = v) ->
  (forall v r, other (set v r) = other r) ->
  h <> [] ->
  let diff := actual - sum (map get h) in
  exists h',
    (if Qlt_bool (of_int actual * 0.05) (of_int (Z.abs diff)) then
       let months_to_adjust := Z.min 3 (len h) in
       per_month <- floordiv diff months_to_adjust ;;
       for_each (range months_to_adjust) (adjust_gained get set per_month) h
     else ret h) g = Ok (h', g)
    /\ List.length h' = List.length h
    /\ map other h' = map other h
    /\ (Forall (fun r => 0 <= get r) h ->
        Forall (fun r => 0 <= get r) h'
        /\ (0 <= actual ->
            reconciled actual (sum (map get h)) (sum (map get h')) (len h))).
Proof.
  intros get_set other_set Hne diff.
  assert (Hlen : 1 <= len h).
  { unfold len. destruct h; [congruence|simpl; lia]. }
  destruct (Qlt_bool _ _) eqn:Etest.
  - apply five_percent_test in Etest. cbv zeta.
    set (k := Z.min 3 (len h)) in *.
    assert (Hk : k <> 0) by (unfold k; lia).
    rewrite (bind_ok _ (floordiv_ok diff g Hk)).
    unfold range.
    destruct (adjust_loop get B other set get_set other_set (diff / k)
                (Z.to_nat k) 0%nat h g) as (h' & Hrun & Hl & Ho & Hsum).
    { unfold k, len. lia. }
    exists h'. split; [exact Hrun|]. split; [exact Hl|]. split; [exact Ho|].
    intros Hpos. destruct (Hsum Hpos) as (Hpos' & Hup & Hdown).
    split; [exact Hpos'|]. intros Hact.
    assert (Hkk : Z.of_nat (Z.to_nat k) = k) by (unfold k; lia).
    rewrite Hkk in *.
    pose proof (div_mul_mod diff k Hk) as Hdm.
    unfold reconciled. fold diff. fold k. cbv zeta.
    split; [lia|]. split.
    + intros Hlt. assert (0 <= diff / k) by (apply Z.div_pos; unfold k; lia).
      rewrite (Hup H). unfold diff in *. lia.
    + intros Hlt. assert (diff / k <= 0).
      { apply Z.div_le_upper_bound; unfold k; lia. }
      specialize (Hdown H). unfold diff in *. lia.
  - exists h. split; [reflexivity|]. split; [reflexivity|].
    split; [reflexivity|]. intros Hpos. split; [exact Hpos|]. intros Hact.
    assert (Hno : ~ actual < 20 * Z.abs diff).
    { intros H. apply five_percent_test in H. congruence. }
    unfold reconciled. fold diff. cbv zeta.
    split; [reflexivity|]. split; intros; lia.
Qed.

Lemma map_pair_inv {A B C} (f : A -> B) (k : A -> C) l l' :
  map (fun x => (f x, k x)) l = map (fun x => (f x, k x)) l' ->
  map f l = map f l' /\ map k l = map k l'.
Proof.
  intros H. split.
  - apply (f_equal (map fst)) in H. now rewrite !map_map in H.
  - apply (f_equal (map snd)) in H. now rewrite !map_map in H.
Qed.

Lemma recalculate_frame h : forall a b,
  map frame (recalculate a b h) = map frame h.
Proof.
  induction h as [|x h IH]; intros a b; simpl; [reflexivity|].
  now rewrite IH.
Qed.

Lemma reconcile_spec h g :
  exists h',
    reconcile repo_data h g = Ok (h', g)
    /\ List.length h' = List.length h
    /\ map frame h' = map frame h
    /\ Forall record_consistent h'
    /\ (forall k r, nth_error h' k = Some r ->
        total_stars_after r = sum (firstn (S k) (map stars_gained h'))
        /\ total_forks_after r = sum (firstn (S k) (map forks_gained h')))
    /\ (h <> [] -> Forall (fun r => 0 <= stars_gained r) h ->
        0 <= stargazers_count repo_data ->
        reconciled (stargazers_count repo_data)
          (sum (map stars_gained h)) (sum (map stars_gained h')) (len h))
    /\ (h <> [] -> Forall (fun r => 0 <= forks_gained r) h ->
        0 <= forks_count repo_data ->
        reconciled (forks_count repo_data)
          (sum (map forks_gained h)) (sum (map forks_gained h')) (len h)).
Proof.
  destruct h as [|x0 h0].
  { exists []. simpl. split; [reflexivity|]. split; [reflexivity|].
    split; [reflexivity|].
    split; [constructor|]. split; [intros [|k] r H; discriminate|].
    split; intros H; congruence. }
  unfold reconcile, adjust_stars, adjust_forks. cbv beta iota zeta.
  remember (x0 :: h0) as h eqn:Eh.
  assert (Hne : h <> []) by congruence.
  destruct (adjust_metric stars_gained (fun r => (forks_gained r, frame r))
              set_stars_gained (stargazers_count repo_data) h g)
    as (h1 & Hrun1 & Hl1 & Ho1 & Hs1); try reflexivity; trivial.
  apply map_pair_inv in Ho1. destruct Ho1 as [Ho1 Hfr1].
  cbv zeta in Hrun1. rewrite (bind_ok _ Hrun1).
  assert (Hne1 : h1 <> []).
  { intros ->. rewrite Eh in Hl1. discriminate. }
  assert (Hlen1 : len h1 = len h) by (unfold len; congruence).
  destruct (adjust_metric forks_gained (fun r => (stars_gained r, frame r))
              set_forks_gained (forks_count repo_data) h1 g)
    as (h2 & Hrun2 & Hl2 & Ho2 & Hs2); try reflexivity; trivial.
  apply map_pair_inv in Ho2. destruct Ho2 as [Ho2 Hfr2].
  cbv zeta in Hrun2. rewrite Ho1 in Hrun2.
  rewrite (bind_ok _ Hrun2).
  destruct (recalculate_gained h2 0 0) as [Hgs Hgf].
  exists (recalculate 0 0 h2). split; [reflexivity|].
  split; [rewrite recalculate_length; congruence|].
  split; [rewrite recalculate_frame; congruence|].
  split; [apply recalculate_consistent|]. split.
  { intros k r H. apply recalculate_prefix in H. rewrite Hgs, Hgf. lia. }
  rewrite Hgs, Hgf, Ho2. split.
  - intros _ Hpos Hact. now apply Hs1.
  - intros _ Hpos Hact. rewrite <- Ho1, <- Hlen1. apply Hs2; trivial.
    rewrite Forall_forall in *. intros r Hr.
    apply (in_map forks_gained) in Hr. rewrite Ho1 in Hr.
    apply in_map_iff in Hr as (r' & E & Hr'). rewrite <- E. auto.
Qed.

End ReconcileFacts.

Section HistoryFacts.

Variable pow : Q -> Q -> Q.
Variable repo_data : RepositorySnapshot.
Variable stargazers : list StarEvent.
Variable current_date : datetime.
Hypothesis current_valid : valid_datetime current_date.
Hypothesis created_valid : valid_datetime (created_at repo_data).

Open Scope Z_scope.

(** The [history] field: the simulated months, then the reconciliation. *)
Lemma monthly_history_spec g :
  exists sim h g',
    simulate_months pow repo_data stargazers current_date g = Ok (sim, g')
    /\ monthly_history pow repo_data stargazers current_date g = Ok (h, g')
    /\ reconcile repo_data sim g' = Ok (h, g')
    /\ List.length h = List.length sim
    /\ List.length sim
       = Z.to_nat (remaining_months (replace_day1 (created_at repo_data))
                     current_date)
    /\ Forall (fun r => 0 <= stars_gained r) sim
    /\ (0 <= forks_count repo_data -> Forall (fun r => 0 <= forks_gained r) sim)
    /\ Forall labelled h
    /\ map date h
       = month_starts (List.length h) (replace_day1 (created_at repo_data)).
Proof.
  destruct (simulate_months_spec pow repo_data stargazers current_date
              current_valid created_valid g)
    as (sim & g' & Hsim & Hlen & Hs & Hf & Hlab & Hdates).
  destruct (reconcile_spec repo_data sim g') as (h & Hrec & Hl & Hfr & _).
  assert (Hlab' : Forall labelled h).
  { clear - Hfr Hlab. revert h Hfr.
    induction Hlab as [|r sim Hr Hsim IH]; intros [|r' h] Hfr;
      try discriminate; constructor.
    - simpl in Hfr. injection Hfr as El Ek Ed _.
      destruct Hr as [Hr1 Hr2]. split; congruence.
    - apply IH. simpl in Hfr. now injection Hfr. }
  assert (Hdates' : map date h = map date sim).
  { apply (f_equal (map snd)) in Hfr. now rewrite !map_map in Hfr. }
  exists sim, h, g'. unfold monthly_history.
  rewrite (bind_ok _ Hsim), Hdates', Hl. auto 12.
Qed.

End HistoryFacts.

(** ** Loops that cannot fail *)

Lemma for_each_inv {A S} (P : S -> Prop) (body : A -> S -> M S) xs :
  (forall x s g, P s -> exists s' g', body x s g = Ok (s', g') /\ P s') ->
  forall s g, P s ->
    exists s' g', for_each xs body s g = Ok (s', g') /\ P s'.
Proof.
  intros Hbody. induction xs as [|x xs IH]; intros s g Hs; simpl.
  - now exists s, g.
  - destruct (Hbody x s g Hs) as (s1 & g1 & Hrun & Hs1).
    rewrite (bind_ok _ Hrun). now apply IH.
Qed.

(** The same for a loop that draws no random number. *)
Lemma for_each_pure {A S} (P : S -> Prop) (body : A -> S -> M S) xs :
  (forall x s g, P s -> exists s', body x s g = Ok (s', g) /\ P s') ->
  forall s g, P s ->
    exists s', for_each xs body s g = Ok (s', g) /\ P s'.
Proof.
  intros Hbody. induction xs as [|x xs IH]; intros s g Hs; simpl.
  - now exists s.
  - destruct (Hbody x s g Hs) as (s1 & Hrun & Hs1).
    rewrite (bind_ok _ Hrun). now apply IH.
Qed.

(** ** Legacy monthly view *)

Lemma dict_mem_set {V} k k' (v : V) d :
  dict_mem k d = true -> dict_mem k (dict_set k' v d) = true.
Proof.
  unfold dict_mem. induction d as [|[k0 v0] d IH]; simpl; [discriminate|].
  destruct (String.eqb_spec k' k0) as [->|Hne]; simpl.
  - destruct (String.eqb k k0); auto.
  - destruct (String.eqb k k0); auto.
Qed.

Lemma getkey_mem {V} (d : dict V) k g :
  dict_mem k d = true -> exists v, getkey d k g = Ok (v, g).
Proof.
  unfold dict_mem, getkey. destruct (dict_get k d) as [v|]; [|discriminate].
  intros _. now exists v.
Qed.

Lemma legacy_monthly_stars_ok repo_data stargazers g :
  exists l, legacy_monthly_stars repo_data stargazers g = Ok (l, g).
Proof.
  unfold legacy_monthly_stars. cbv zeta.
  set (init := fold_left (fun d month => dict_set month 0%Z d) months []).
  assert (Hinit : has_all_months init).
  { intros m Hm. unfold init, months, month_abbr in *. simpl in Hm.
    repeat (destruct Hm as [<-|Hm]; [reflexivity|]). contradiction. }
  destruct (for_each_pure (fun st : dict Z * Z => has_all_months (fst st))
              count_legacy_star stargazers) with (s := (init, 0%Z)) (g := g)
    as ([d n] & Hrun & Hd); trivial.
  { intros star [d n] g0 Hd. simpl in Hd. unfold count_legacy_star.
    destruct star as [| |t]; try (now exists (d, n)).
    destruct (dict_mem (strftime_b t) d) eqn:E; [|now exists (d, n)].
    destruct (getkey_mem d _ g0 E) as (v & Hv). rewrite (bind_ok _ Hv).
    eexists. split; [reflexivity|]. simpl. intros m Hm.
    apply dict_mem_set. auto. }
  rewrite (bind_ok _ Hrun). simpl in Hd.
  assert (Hmodel : exists d',
    (if Qlt_bool (of_int n) (of_int (stargazers_count repo_data) * 0.1)
     then for_each (enumerate months) (model_legacy_month repo_data) d
     else ret d) g = Ok (d', g) /\ has_all_months d').
  { destruct (Qlt_bool _ _); [|now exists d].
    apply (for_each_pure has_all_months); trivial.
    intros [i m] d0 g0 Hd0. unfold model_legacy_month. eexists.
    split; [reflexivity|]. intros m' Hm'. apply dict_mem_set. auto. }
  destruct Hmodel as (d' & Hrun' & Hd'). rewrite (bind_ok _ Hrun').
  assert (Hout : forall ms acc, (forall m, In m ms -> In m months) ->
    exists l, for_each ms
      (fun month acc => v <- getkey d' month ;; ret (acc ++ [mk_entry month v]))
      acc g = Ok (l, g)).
  { induction ms as [|m ms IH]; intros acc Hms; simpl; [now exists acc|].
    destruct (getkey_mem d' m g) as (v & Hv).
    { apply Hd', Hms. now left. }
    rewrite (bind_ok _ (bind_ok _ Hv)). apply IH.
    intros m' Hm'. apply Hms. now right. }
  apply Hout. auto.
Qed.

(** ** Country distribution *)

Section SortFacts.

Context {K : Type}.
Implicit Types (x y : Entry K) (l : list (Entry K)).

Open Scope Z_scope.

Lemma insert_desc_Forall (P : Entry K -> Prop) x l :
  P x -> Forall P l -> Forall P (insert_desc x l).
Proof.
  intros Hx. induction l as [|y l IH]; intros Hl; simpl.
  - now constructor.
  - inversion Hl; subst.
    destruct (entry_value y >? entry_value x); constructor; auto.
Qed.

Lemma insert_desc_sorted x l :
  sorted_desc l -> sorted_desc (insert_desc x l).
Proof.
  unfold sorted_desc. induction l as [|y l IH]; intros Hl; simpl.
  - constructor; constructor.
  - inversion Hl as [|? ? Hs Hall]; subst.
    destruct (Z.gtb_spec (entry_value y) (entry_value x)) as [Hgt|Hle].
    + constructor; [now apply IH|].
      apply insert_desc_Forall; [lia|exact Hall].
    + constructor; [exact Hl|]. constructor; [lia|].
      eapply Forall_impl; [|exact Hall]. simpl. intros e He. lia.
Qed.

Lemma sort_desc_sorted l : sorted_desc (sort_desc l).
Proof.
  induction l as [|x l IH]; simpl.
  - constructor.
  - now apply insert_desc_sorted.
Qed.

Lemma sort_desc_Forall (P : Entry K -> Prop) l :
  Forall P l -> Forall P (sort_desc l).
Proof.
  induction 1; simpl; [constructor|]. now apply insert_desc_Forall.
Qed.

Lemma firstn_sorted n l : sorted_desc l -> sorted_desc (firstn n l).
Proof.
  unfold sorted_desc. revert l. induction n as [|n IH]; intros l Hl; simpl.
  - constructor.
  - destruct l as [|x l]; [constructor|].
    inversion Hl as [|? ? Hs Hall]; subst. constructor; [now apply IH|].
    rewrite Forall_forall in *. intros e He. apply Hall.
    rewrite <- (firstn_skipn n l). apply in_or_app. now left.
Qed.

Lemma firstn_Forall (P : Entry K -> Prop) n l :
  Forall P l -> Forall P (firstn n l).
Proof.
  rewrite !Forall_forall. intros H e He. apply H.
  rewrite <- (firstn_skipn n l). apply in_or_app. now left.
Qed.

(** The slice [sorted(l)[:8]] of a list without zero entries is ranked. *)
Lemma top8_ranked l :
  Forall (fun e => 0 < entry_value e) l ->
  ranked_top8 (firstn 8 (sort_desc l)).
Proof.
  intros H. split; [|split].
  - rewrite length_firstn. lia.
  - apply firstn_sorted, sort_desc_sorted.
  - apply firstn_Forall, sort_desc_Forall.
    eapply Forall_impl; [|exact H]. simpl. intros e He. lia.
Qed.

End SortFacts.

Lemma country_series_spec repo_data contributors g :
  exists s,
    country_series repo_data contributors g = Ok (s, g)
    /\ ranked_top8 (series_stars s)
    /\ ranked_top8 (series_forks s)
    /\ ranked_top8 (series_clones s).
Proof.
  unfold country_series. cbv zeta.
  set (dist := fallback_countries repo_data _).
  set (total := sum (dict_values dist)).
  pose (P := fun acc : list (Entry string) * list (Entry string)
                       * list (Entry string) =>
               Forall (fun e => 0 < entry_value e)%Z (fst (fst acc))
               /\ Forall (fun e => 0 < entry_value e)%Z (snd (fst acc))
               /\ Forall (fun e => 0 < entry_value e)%Z (snd acc)).
  destruct (for_each_pure P (country_item repo_data total) dist)
    with (s := (@nil (Entry string), @nil (Entry string), @nil (Entry string)))
         (g := g)
    as ([[cs cf] cc] & Hrun & Hs & Hf & Hc).
  { intros [country contributions] [[cs cf] cc] g0 (Hs & Hf & Hc).
    simpl in Hs, Hf, Hc. unfold country_item.
    destruct (Z.gtb_spec total 0) as [Hpos|Hnon].
    2:{ eexists. split; [reflexivity|]. now repeat split. }
    assert (Hd : total <> 0%Z) by lia.
    rewrite (bind_ok _ (truediv_ok contributions g0 Hd)).
    eexists. split; [reflexivity|]. unfold P. simpl.
    repeat split;
      match goal with
      | |- Forall _ (if ?c >? 0 then _ else _)%Z =>
          destruct (Z.gtb_spec c 0); trivial;
          apply Forall_app; split; trivial;
          constructor; [simpl; lia|constructor]
      end. }
  { unfold P. simpl. repeat split; constructor. }
  rewrite (bind_ok _ Hrun). simpl in Hs, Hf, Hc.
  eexists. split; [reflexivity|]. simpl.
  split; [|split]; apply top8_ranked; assumption.
Qed.

(** ** Daily window *)

Lemma running_sums_nil : running_sums [].
Proof. intros [|k] r H; discriminate. Qed.

Lemma running_sums_snoc l d v :
  running_sums l ->
  running_sums (l ++ [mk_daily d v (sum (map value l) + v)]).
Proof.
  intros Hl k r H. rewrite map_app. cbn [map value].
  destruct (Nat.lt_ge_cases k (List.length l)) as [Hk|Hk].
  - rewrite nth_error_app1 in H by exact Hk.
    rewrite firstn_app, length_map.
    replace (S k - List.length l)%nat with 0%nat by lia.
    rewrite firstn_O, app_nil_r. now apply Hl.
  - rewrite nth_error_app2 in H by exact Hk.
    destruct (k - List.length l)%nat as [|j] eqn:E; simpl in H.
    2:{ destruct j; discriminate. }
    injection H as <-. cbn [cumulative].
    rewrite firstn_all2 by (rewrite length_app, length_map; simpl; lia).
    rewrite sum_app, sum_cons, sum_nil. lia.
Qed.

(** In a series of running sums each record adds its value to the
    cumulative value of the record before it. *)
Lemma running_sums_step l k r r' :
  running_sums l ->
  nth_error l k = Some r -> nth_error l (S k) = Some r' ->
  cumulative r' = (cumulative r + value r')%Z.
Proof.
  intros Hl Hk Hk'. rewrite (Hl _ _ Hk), (Hl _ _ Hk').
  assert (Hv : nth_error (map value l) (S k) = Some (value r'))
    by (now apply map_nth_error).
  revert Hv. generalize (map value l) as vs. generalize (S k) as n.
  induction n as [|n IH]; intros [|x vs] Hv; try discriminate.
  - simpl in Hv. injection Hv as ->. destruct vs; simpl;
      rewrite ?sum_cons, ?sum_nil; lia.
  - simpl in Hv. change (firstn (S (S n)) (x :: vs)) with (x :: firstn (S n) vs).
    change (firstn (S n) (x :: vs)) with (x :: firstn n vs).
    rewrite !sum_cons, (IH vs Hv). lia.
Qed.

Lemma running_sums_first l r :
  running_sums l -> nth_error l 0 = Some r -> cumulative r = value r.
Proof.
  intros Hl H. rewrite (Hl _ _ H). destruct l as [|x l]; [discriminate|].
  simpl in H. injection H as ->. simpl. rewrite sum_cons, sum_nil. lia.
Qed.

Section DailyFacts.

Variable repo_data : RepositorySnapshot.
Variable stargazers : list StarEvent.
Variable today : datetime.

Open Scope Z_scope.

Lemma day_stars_ok i date g :
  exists v g', day_stars repo_data stargazers today i date g = Ok (v, g').
Proof.
  unfold day_stars. cbv zeta.
  destruct (_ || _); [|now eexists _, _].
  destruct (Z.gtb_spec (days_between today (created_at repo_data)) 0)
    as [Hage|Hage]; [|now eexists _, _].
  assert (Hd : days_between today (created_at repo_data) <> 0) by lia.
  rewrite (bind_ok _ (truediv_ok (stargazers_count repo_data) g Hd)).
  unfold bind, random. now eexists _, _.
Qed.

Lemma daily_step_ok i ds df g :
  exists vs vf g',
    daily_step repo_data stargazers today i (ds, df) g
    = Ok (ds ++ [mk_daily (date_of (sub_days today i)) vs
                   (sum (map value ds) + vs)],
          df ++ [mk_daily (date_of (sub_days today i)) vf
                   (sum (map value df) + vf)], g').
Proof.
  unfold daily_step. cbv zeta.
  destruct (day_stars_ok i (sub_days today i) g) as (vs & g1 & Hvs).
  rewrite (bind_ok _ Hvs).
  assert (Hd : Z.max 1 (stargazers_count repo_data) <> 0) by lia.
  rewrite (bind_ok _ (truediv_ok (forks_count repo_data) g1 Hd)).
  unfold bind, random. now eexists _, _, _.
Qed.

Lemma daily_loop_spec days :
  forall ds df g,
    exists ds' df' g',
      for_each days (daily_step repo_data stargazers today) (ds, df) g
      = Ok (ds', df', g')
      /\ map daily_date ds'
         = map daily_date ds ++ map (fun i => date_of (sub_days today i)) days
      /\ map daily_date df'
         = map daily_date df ++ map (fun i => date_of (sub_days today i)) days
      /\ (running_sums ds -> running_sums ds')
      /\ (running_sums df -> running_sums df').
Proof.
  induction days as [|i days IH]; intros ds df g.
  - exists ds, df, g. simpl. rewrite !app_nil_r. auto.
  - cbn [for_each].
    destruct (daily_step_ok i ds df g) as (vs & vf & g1 & Hstep).
    rewrite (bind_ok _ Hstep).
    destruct (IH (ds ++ [mk_daily (date_of (sub_days today i)) vs
                           (sum (map value ds) + vs)])
                 (df ++ [mk_daily (date_of (sub_days today i)) vf
                           (sum (map value df) + vf)]) g1)
      as (ds' & df' & g' & Hrun & Hds & Hdf & Hrs & Hrf).
    exists ds', df', g'. split; [exact Hrun|].
    rewrite Hds, Hdf, !map_app, <- !app_assoc. simpl.
    repeat split; trivial.
    + intros H. now apply Hrs, running_sums_snoc.
    + intros H. now apply Hrf, running_sums_snoc.
Qed.

Lemma generate_daily_analytics_spec g :
  exists d g',
    generate_daily_analytics repo_data stargazers today g = Ok (d, g')
    /\ map daily_date (daily_stars d)
       = map (fun i => date_of (sub_days today i)) (range_down 30 (-1))
    /\ map daily_date (daily_forks d)
       = map (fun i => date_of (sub_days today i)) (range_down 30 (-1))
    /\ running_sums (daily_stars d)
    /\ running_sums (daily_forks d).
Proof.
  unfold generate_daily_analytics.
  destruct (daily_loop_spec (range_down 30 (-1)) [] [] g)
    as (ds & df & g' & Hrun & Hds & Hdf & Hrs & Hrf).
  rewrite (bind_ok _ Hrun). eexists _, _. split; [reflexivity|]. simpl.
  auto using running_sums_nil.
Qed.

End DailyFacts.

(** ** The proleptic Gregorian calendar

    [_ord2ymd] and [_ymd2ord] are inverse to each other. *)

Section CalendarFacts.

Open Scope Z_scope.

Lemma is_leap_spec y :
  is_leap y = true <-> (y mod 4 = 0 /\ (y mod 100 <> 0 \/ y mod 400 = 0)).
Proof.
  unfold is_leap.
  destruct (Z.eqb_spec (y mod 4) 0), (Z.eqb_spec (y mod 100) 0),
    (Z.eqb_spec (y mod 400) 0); simpl; intuition (try discriminate; try lia).
Qed.

(** A year written with its position in the 400, 100 and 4 year cycles. *)
Lemma year_digits a b c e :
  0 <= b <= 3 -> 0 <= c <= 24 -> 0 <= e <= 3 ->
  let y := a * 400 + 1 + b * 100 + c * 4 + e in
  days_before_year y = 146097 * a + 36524 * b + 1461 * c + 365 * e
  /\ is_leap y = (e =? 3) && (negb (c =? 24) || (b =? 3)).
Proof.
  intros Hb Hc He y. split.
  - unfold days_before_year. cbv zeta.
    replace (y - 1) with (a * 400 + b * 100 + c * 4 + e) by (unfold y; lia).
    assert ((a * 400 + b * 100 + c * 4 + e) / 4 = a * 100 + b * 25 + c)
      by (symmetry; apply (Z.div_unique _ 4 _ e); lia).
    assert ((a * 400 + b * 100 + c * 4 + e) / 100 = a * 4 + b)
      by (symmetry; apply (Z.div_unique _ 100 _ (c * 4 + e)); lia).
    assert ((a * 400 + b * 100 + c * 4 + e) / 400 = a)
      by (symmetry; apply (Z.div_unique _ 400 _ (b * 100 + c * 4 + e)); lia).
    lia.
  - assert (H4 : y mod 4 = (e + 1) mod 4).
    { unfold y. replace (a * 400 + 1 + b * 100 + c * 4 + e)
        with (e + 1 + (a * 100 + b * 25 + c) * 4) by lia.
      apply Z.mod_add. lia. }
    assert (H100 : y mod 100 = (c * 4 + e + 1) mod 100).
    { unfold y. replace (a * 400 + 1 + b * 100 + c * 4 + e)
        with (c * 4 + e + 1 + (a * 4 + b) * 100) by lia.
      apply Z.mod_add. lia. }
    assert (H400 : y mod 400 = (b * 100 + c * 4 + e + 1) mod 400).
    { unfold y. replace (a * 400 + 1 + b * 100 + c * 4 + e)
        with (b * 100 + c * 4 + e + 1 + a * 400) by lia.
      apply Z.mod_add. lia. }
    unfold is_leap. rewrite H4, H100, H400.
    destruct (Z.eqb_spec e 3) as [->|He3].
    + destruct (Z.eqb_spec c 24) as [->|Hc24].
      * destruct (Z.eqb_spec b 3) as [->|Hb3]; [reflexivity|].
        assert (b = 0 \/ b = 1 \/ b = 2) as [->|[->| ->]] by lia; reflexivity.
      * rewrite (Z.mod_small (c * 4 + 3 + 1) 100) by lia.
        destruct (Z.eqb_spec (c * 4 + 3 + 1) 0); [lia|reflexivity].
    + rewrite (Z.mod_small (e + 1) 4) by lia.
      destruct (Z.eqb_spec (e + 1) 0); [lia|reflexivity].
Qed.

Ltac calendar_eval :=
  repeat match goal with
  | |- context [nth (Z.to_nat ?k) ?T 0] =>
      let v := eval vm_compute in (nth (Z.to_nat k) T 0) in
      change (nth (Z.to_nat k) T 0) with v
  | |- context [?x >? 2] =>
      let v := eval vm_compute in (x >? 2) in
      progress change (x >? 2) with v
  | |- context [?x =? 2] =>
      let v := eval vm_compute in (x =? 2) in
      progress change (x =? 2) with v
  | |- context [3 =? 3] => change (3 =? 3) with true
  | |- context [24 =? 24] => change (24 =? 24) with true
  end;
  cbn [andb orb negb].

Lemma ymd2ord_ord2ymd n :
  let '(y, m, d) := ord2ymd n in ymd2ord y m d = n /\ valid_date y m d.
Proof.
  unfold ord2ymd. cbv zeta.
  set (n0 := n - 1).
  set (a := n0 / 146097). set (r0 := n0 mod 146097).
  set (b := r0 / 36524). set (r1 := r0 mod 36524).
  set (c := r1 / 1461). set (r2 := r1 mod 1461).
  set (e := r2 / 365). set (r3 := r2 mod 365).
  assert (H0 : n0 = 146097 * a + r0 /\ 0 <= r0 < 146097).
  { unfold a, r0. pose proof (Z.div_mod n0 146097).
    pose proof (Z.mod_pos_bound n0 146097). lia. }
  assert (H1 : r0 = 36524 * b + r1 /\ 0 <= r1 < 36524).
  { unfold b, r1. pose proof (Z.div_mod r0 36524).
    pose proof (Z.mod_pos_bound r0 36524). lia. }
  assert (H2 : r1 = 1461 * c + r2 /\ 0 <= r2 < 1461).
  { unfold c, r2. pose proof (Z.div_mod r1 1461).
    pose proof (Z.mod_pos_bound r1 1461). lia. }
  assert (H3 : r2 = 365 * e + r3 /\ 0 <= r3 < 365).
  { unfold e, r3. pose proof (Z.div_mod r2 365).
    pose proof (Z.mod_pos_bound r2 365). lia. }
  assert (Hn : n = n0 + 1) by (unfold n0; lia).
  clearbody a r0 b r1 c r2 e r3 n0. subst n.
  assert (Hb : 0 <= b <= 4) by lia.
  assert (Hc : 0 <= c <= 24) by lia.
  assert (He : 0 <= e <= 4) by lia.
  destruct (Z.eqb_spec e 4) as [He4|He4]; cbn [orb].
  { (* the last day of a leap year that ends a 4-year cycle *)
    assert (Hc' : 0 <= c <= 23) by lia.
    destruct (year_digits a b c 3) as [Hd Hl]; try lia.
    destruct (Z.eqb_spec b 4); [lia|].
    cbv zeta in Hd, Hl.
    replace (a * 400 + 1 + b * 100 + c * 4 + e - 1)
      with (a * 400 + 1 + b * 100 + c * 4 + 3) by lia.
    unfold ymd2ord, valid_date, days_in_month, days_before_month.
    rewrite Hd, Hl.
    destruct (Z.eqb_spec c 24); [lia|]. calendar_eval. lia. }
  destruct (Z.eqb_spec b 4) as [Hb4|Hb4]; cbn [orb].
  { (* the last day of a 400-year cycle *)
    destruct (year_digits a 3 24 3) as [Hd Hl]; try lia.
    cbv zeta in Hd, Hl.
    replace (a * 400 + 1 + b * 100 + c * 4 + e - 1)
      with (a * 400 + 1 + 3 * 100 + 24 * 4 + 3) by lia.
    unfold ymd2ord, valid_date, days_in_month, days_before_month.
    rewrite Hd, Hl. calendar_eval. lia. }
  destruct (year_digits a b c e) as [Hd Hl]; try lia.
  cbv zeta in Hd, Hl.
  set (Y := a * 400 + 1 + b * 100 + c * 4 + e) in *.
  rewrite <- Hl. clear Hl.
  rewrite Z.shiftr_div_pow2 by lia. change (2 ^ 5) with 32.
  set (M := (r3 + 50) / 32).
  assert (HM : 32 * M <= r3 + 50 < 32 * M + 32).
  { unfold M. pose proof (Z.div_mod (r3 + 50) 32).
    pose proof (Z.mod_pos_bound (r3 + 50) 32). lia. }
  clearbody M.
  assert (HMcases : M = 1 \/ M = 2 \/ M = 3 \/ M = 4 \/ M = 5 \/ M = 6 \/
                    M = 7 \/ M = 8 \/ M = 9 \/ M = 10 \/ M = 11 \/ M = 12)
    by lia.
  destruct (is_leap Y) eqn:EL;
  repeat (destruct HMcases as [->|HMcases]); try subst M;
  calendar_eval;
  match goal with
  | |- context [?p >? r3] => destruct (Z.gtb_spec p r3)
  end;
  unfold ymd2ord, valid_date, days_in_month, days_before_month;
  rewrite EL, Hd; calendar_eval; lia.
Qed.

Lemma days_before_year_succ y :
  days_before_year (y + 1)
  = days_before_year y + 365 + (if is_leap y then 1 else 0).
Proof.
  unfold days_before_year. cbv zeta.
  replace (y + 1 - 1) with y by lia.
  destruct (is_leap y) eqn:E.
  - apply is_leap_spec in E. Z.div_mod_to_equations. lia.
  - assert (H : ~ (y mod 4 = 0 /\ (y mod 100 <> 0 \/ y mod 400 = 0))).
    { rewrite <- is_leap_spec. congruence. }
    Z.div_mod_to_equations. lia.
Qed.

Lemma days_before_year_mono y y' :
  y <= y' -> days_before_year y <= days_before_year y'.
Proof.
  intros H. unfold days_before_year. cbv zeta.
  Z.div_mod_to_equations. lia.
Qed.

Lemma day_of_year_bounds y m d :
  valid_date y m d ->
  1 <= days_before_month y m + d <= 365 + (if is_leap y then 1 else 0).
Proof.
  unfold valid_date, days_in_month, days_before_month. intros [Hm Hd].
  assert (Hc : m = 1 \/ m = 2 \/ m = 3 \/ m = 4 \/ m = 5 \/ m = 6 \/
               m = 7 \/ m = 8 \/ m = 9 \/ m = 10 \/ m = 11 \/ m = 12) by lia.
  revert Hd. destruct (is_leap y);
  repeat (destruct Hc as [->|Hc]); try subst m; calendar_eval; lia.
Qed.

Lemma day_of_year_inj y m d m' d' :
  valid_date y m d -> valid_date y m' d' ->
  days_before_month y m + d = days_before_month y m' + d' ->
  m = m' /\ d = d'.
Proof.
  unfold valid_date, days_in_month, days_before_month.
  intros [Hm Hd] [Hm' Hd'].
  assert (Hc : m = 1 \/ m = 2 \/ m = 3 \/ m = 4 \/ m = 5 \/ m = 6 \/
               m = 7 \/ m = 8 \/ m = 9 \/ m = 10 \/ m = 11 \/ m = 12) by lia.
  assert (Hc' : m' = 1 \/ m' = 2 \/ m' = 3 \/ m' = 4 \/ m' = 5 \/ m' = 6 \/
                m' = 7 \/ m' = 8 \/ m' = 9 \/ m' = 10 \/ m' = 11 \/ m' = 12)
    by lia.
  revert Hd Hd'. destruct (is_leap y);
  repeat (destruct Hc as [->|Hc]); try subst m;
  repeat (destruct Hc' as [->|Hc']); try subst m';
  calendar_eval; lia.
Qed.

Lemma ymd2ord_inj y m d y' m' d' :
  valid_date y m d -> valid_date y' m' d' ->
  ymd2ord y m d = ymd2ord y' m' d' ->
  y = y' /\ m = m' /\ d = d'.
Proof.
  intros Hv Hv' Heq. unfold ymd2ord in Heq.
  pose proof (day_of_year_bounds _ _ _ Hv) as Hb.
  pose proof (day_of_year_bounds _ _ _ Hv') as Hb'.
  pose proof (days_before_year_succ y) as Hs.
  pose proof (days_before_year_succ y') as Hs'.
  assert (Hy : y = y').
  { destruct (Z.lt_trichotomy y y') as [Hlt|[Heq'|Hgt]]; trivial.
    - pose proof (days_before_year_mono (y + 1) y' ltac:(lia)). lia.
    - pose proof (days_before_year_mono (y' + 1) y ltac:(lia)). lia. }
  subst y'. split; [reflexivity|].
  apply (day_of_year_inj y); trivial. lia.
Qed.

Lemma ord2ymd_ymd2ord y m d :
  valid_date y m d -> ord2ymd (ymd2ord y m d) = (y, m, d).
Proof.
  intros Hv. pose proof (ymd2ord_ord2ymd (ymd2ord y m d)) as H.
  destruct (ord2ymd (ymd2ord y m d)) as [[y' m'] d'].
  destruct H as [Heq Hv'].
  destruct (ymd2ord_inj _ _ _ _ _ _ Hv' Hv Heq) as (-> & -> & ->).
  reflexivity.
Qed.

(** Going back [i] days moves the ordinal by [i]. *)
Lemma sub_days_ordinal t i :
  date_ordinal (date_of (sub_days t i)) = toordinal t - i.
Proof.
  unfold sub_days. pose proof (ymd2ord_ord2ymd (toordinal t - i)) as H.
  destruct (ord2ymd (toordinal t - i)) as [[y m] d]. simpl. tauto.
Qed.

Lemma sub_days_valid t i : calendar_date (date_of (sub_days t i)).
Proof.
  unfold sub_days. pose proof (ymd2ord_ord2ymd (toordinal t - i)) as H.
  destruct (ord2ymd (toordinal t - i)) as [[y m] d]. simpl. tauto.
Qed.

Lemma sub_days_zero t :
  valid_datetime t -> date_of (sub_days t 0) = date_of t.
Proof.
  intros [Hv _]. unfold sub_days, toordinal.
  rewrite Z.sub_0_r, (ord2ymd_ymd2ord _ _ _ Hv). reflexivity.
Qed.

End CalendarFacts.

(** ** The growth model in exact arithmetic *)

Section GrowthShape.

Variable pow : Q -> Q -> Q.
Hypothesis pow_unit :
  forall x, (0 <= x)%Q -> (x <= 1)%Q ->
            (0 <= pow x 1.5)%Q /\ (pow x 1.5 <= 1)%Q.
Hypothesis pow_monotone :
  forall x y, (0 <= x)%Q -> (x <= y)%Q -> (y <= 1)%Q ->
              (pow x 1.5 <= pow y 1.5)%Q.
Hypothesis pow_one : (pow 1 1.5 == 1)%Q.

Open Scope Q_scope.

Lemma Qle_bool_false x y : Qle_bool x y = false -> y < x.
Proof.
  intros H. apply Qnot_le_lt. intros Hle.
  apply Qle_bool_iff in Hle. congruence.
Qed.

(** The three phases, with the tests decided. *)
Lemma growth_factor_phases p :
  (p <= 0.2 /\ growth_factor pow p = p * 0.25)
  \/ (0.2 < p /\ p <= 0.6
      /\ growth_factor pow p = 0.05 + pow ((p - 0.2) / 0.4) 1.5 * 0.35)
  \/ (0.6 < p /\ growth_factor pow p = 0.4 + (p - 0.6) / 0.4 * 0.6).
Proof.
  unfold growth_factor.
  destruct (Qle_bool p 0.2) eqn:E1.
  - left. apply Qle_bool_iff in E1. split; [exact E1|reflexivity].
  - apply Qle_bool_false in E1. destruct (Qle_bool p 0.6) eqn:E2.
    + right. left. apply Qle_bool_iff in E2. repeat split; trivial.
    + right. right. apply Qle_bool_false in E2. split; trivial.
Qed.

Lemma over_two_fifths x : x / 0.4 == x * 2.5.
Proof. field. Qed.

Lemma growth_progress_unit p :
  0.2 < p -> p <= 0.6 -> 0 <= (p - 0.2) / 0.4 /\ (p - 0.2) / 0.4 <= 1.
Proof. intros H1 H2. rewrite over_two_fifths. split; Lqa.lra. Qed.

Lemma growth_phase_bounds p :
  0.2 < p -> p <= 0.6 ->
  0.05 <= 0.05 + pow ((p - 0.2) / 0.4) 1.5 * 0.35
  /\ 0.05 + pow ((p - 0.2) / 0.4) 1.5 * 0.35 <= 0.4.
Proof.
  intros H1 H2. destruct (growth_progress_unit p H1 H2) as [Ha Hb].
  destruct (pow_unit _ Ha Hb) as [Hc Hd]. split; Lqa.lra.
Qed.

Lemma growth_factor_bounded p :
  0 <= p -> p <= 1 -> 0 <= growth_factor pow p /\ growth_factor pow p <= 1.
Proof.
  intros H0 H1.
  destruct (growth_factor_phases p) as [[Hp ->]|[(Hp & Hq & ->)|[Hp ->]]].
  - split; Lqa.lra.
  - destruct (growth_phase_bounds p Hp Hq). split; Lqa.lra.
  - rewrite over_two_fifths. split; Lqa.lra.
Qed.

Lemma growth_factor_monotone p q :
  0 <= p -> p <= q -> q <= 1 -> growth_factor pow p <= growth_factor pow q.
Proof.
  intros H0 Hpq H1.
  destruct (growth_factor_phases p) as [[Hp ->]|[(Hp & Hp' & ->)|[Hp ->]]];
  destruct (growth_factor_phases q) as [[Hq ->]|[(Hq & Hq' & ->)|[Hq ->]]];
    rewrite ?(over_two_fifths (p - 0.6)), ?(over_two_fifths (q - 0.6));
    try Lqa.lra.
  - destruct (growth_phase_bounds q Hq Hq'). Lqa.lra.
  - destruct (growth_progress_unit p Hp Hp') as [Ha Hb].
    destruct (growth_progress_unit q Hq Hq') as [Hc Hd].
    assert (pow ((p - 0.2) / 0.4) 1.5 <= pow ((q - 0.2) / 0.4) 1.5).
    { apply pow_monotone; [exact Ha|rewrite !over_two_fifths; Lqa.lra|exact Hd]. }
    Lqa.lra.
  - destruct (growth_phase_bounds p Hp Hp'). Lqa.lra.
Qed.

Lemma growth_factor_values :
  growth_factor pow 0 == 0
  /\ growth_factor pow 0.2 == 0.05
  /\ growth_factor pow 0.6 == 0.4
  /\ growth_factor pow 1 == 1.
Proof.
  split; [reflexivity|]. split; [reflexivity|]. split; [|reflexivity].
  change (growth_factor pow 0.6)
    with (0.05 + pow ((0.6 - 0.2) / 0.4) 1.5 * 0.35).
  assert (E : pow ((0.6 - 0.2) / 0.4) 1.5 == 1).
  { rewrite <- pow_one.
    apply Qle_antisym; apply pow_monotone; vm_compute; discriminate. }
  rewrite E. reflexivity.
Qed.

End GrowthShape.

(** ** The engine as a whole *)

Section EngineFacts.

Variable pow : Q -> Q -> Q.
Variable repo_data : RepositorySnapshot.
Variable stargazers : list StarEvent.
Variable contributors : list ContributorRecord.
Variable current_date today : datetime.

Open Scope Z_scope.

(** Once the monthly history is built the remaining stages cannot fail, and
    they leave the history as it is. *)
Lemma engine_after_history g h g1 :
  monthly_history pow repo_data stargazers current_date g = Ok (h, g1) ->
  exists bundle g2,
    generate_real_analytics_data pow repo_data stargazers contributors
      current_date today g = Ok (bundle, g2)
    /\ history bundle = h
    /\ country_series repo_data contributors g1 = Ok (countries bundle, g1)
    /\ generate_daily_analytics repo_data stargazers today g1
       = Ok (daily bundle, g2).
Proof.
  intros Hh.
  destruct (legacy_monthly_stars_ok repo_data stargazers g1) as (ms & Hms).
  destruct (country_series_spec repo_data contributors g1) as (cs & Hcs & _).
  destruct (generate_daily_analytics_spec repo_data stargazers today g1)
    as (d & g2 & Hd & _).
  eexists _, g2. split; [|split; [|split]].
  - unfold generate_real_analytics_data.
    rewrite (bind_ok _ Hh), (bind_ok _ Hms). cbv zeta.
    rewrite (bind_ok _ Hcs), (bind_ok _ Hd). reflexivity.
  - reflexivity.
  - exact Hcs.
  - exact Hd.
Qed.

Lemma monthly_history_raise g e :
  monthly_history pow repo_data stargazers current_date g = Raise e ->
  generate_real_analytics_data pow repo_data stargazers contributors
    current_date today g = Raise e.
Proof.
  intros H. unfold generate_real_analytics_data, bind. now rewrite H.
Qed.

End EngineFacts.

(** The monthly loop never looks at the star events. *)
Lemma monthly_loop_ignores_events pow repo_data s1 s2 current_date fuel :
  forall cm cs cf h g,
    monthly_loop pow repo_data s1 current_date fuel cm cs cf h g
    = monthly_loop pow repo_data s2 current_date fuel cm cs cf h g.
Proof.
  induction fuel as [|fuel IH]; intros cm cs cf h g; simpl; [reflexivity|].
  destruct (dt_leb cm current_date); [|reflexivity].
  unfold bind.
  change (month_record pow repo_data s1 current_date cm cs cf g)
    with (month_record pow repo_data s2 current_date cm cs cf g).
  destruct (month_record pow repo_data s2 current_date cm cs cf g)
    as [[[[r cs'] cf'] g']|e]; [apply IH|reflexivity].
Qed.

Lemma monthly_history_ignores_events pow repo_data s1 s2 current_date g :
  monthly_history pow repo_data s1 current_date g
  = monthly_history pow repo_data s2 current_date g.
Proof.
  unfold monthly_history, simulate_months, bind. cbv zeta.
  now rewrite (monthly_loop_ignores_events pow repo_data s1 s2).
Qed.

(** The first month of a history starts from zero progress and gains
    nothing before the reconciliation. *)
Lemma first_month_stars pow repo_data stargazers current_date g :
  month_stars pow repo_data stargazers current_date
    (replace_day1 (created_at repo_data)) 0 g = Ok (0%Z, g).
Proof.
  unfold month_stars. cbv zeta. cbn [replace_day1 year month].
  rewrite !Z.sub_diag. cbn [Z.mul Z.add].
  set (total_months := Z.max 1 _).
  assert (Hd : total_months <> 0%Z) by (unfold total_months; lia).
  destruct (Z.gtb_spec total_months 0) as [_|]; [|lia].
  cbn [Z.geb Z.compare andb].
  rewrite (bind_ok _ (truediv_ok 0 g Hd)).
  assert (Hp : (of_int 0 / of_int total_months == 0)%Q).
  { unfold of_int, Qdiv. change (inject_Z 0) with 0%Q. apply Qmult_0_l. }
  assert (Hg : (growth_factor pow (of_int 0 / of_int total_months) == 0)%Q).
  { unfold growth_factor.
    assert (Hle : Qle_bool (of_int 0 / of_int total_months) 0.2 = true).
    { apply Qle_bool_iff. rewrite Hp. discriminate. }
    rewrite Hle, Hp. reflexivity. }
  assert (Ht : trunc (of_int (stargazers_count repo_data)
                      * Qmin 1 (growth_factor pow
                                  (of_int 0 / of_int total_months))) = 0%Z).
  { apply trunc_zero. rewrite Hg.
    rewrite (Q.min_r 1 0) by discriminate. apply Qmult_0_r. }
  rewrite Ht. reflexivity.
Qed.

Lemma first_month_record pow repo_data stargazers current_date g :
  exists r,
    month_record pow repo_data stargazers current_date
      (replace_day1 (created_at repo_data)) 0 0 g = Ok (r, 0%Z, 0%Z, g)
    /\ stars_gained r = 0%Z /\ forks_gained r = 0%Z.
Proof.
  unfold month_record. cbv zeta.
  rewrite (bind_ok _ (first_month_stars pow repo_data stargazers current_date g)).
  assert (Hd : Z.max 1 (stargazers_count repo_data) <> 0%Z) by lia.
  rewrite (bind_ok _ (truediv_ok (forks_count repo_data) g Hd)).
  eexists. split; [reflexivity|]. split; reflexivity.
Qed.

Lemma running_sums_chained l : running_sums l -> chained l.
Proof.
  intros H. split.
  - intros r. now apply running_sums_first.
  - intros k r r'. now apply running_sums_step.
Qed.

Lemma replace_day1_leb t current_date :
  valid_datetime t -> dt_leb t current_date = true ->
  dt_leb (replace_day1 t) current_date = true.
Proof.
  intros Hv. pose proof (valid_day _ Hv) as Hd.
  unfold dt_leb, replace_day1. cbn [year month day tod].
  destruct (Z.ltb_spec (year t) (year current_date)); trivial.
  destruct (Z.ltb_spec (year current_date) (year t)); trivial.
  destruct (Z.ltb_spec (month t) (month current_date)); trivial.
  destruct (Z.ltb_spec (month current_date) (month t)); trivial.
  destruct (Z.ltb_spec (day t) (day current_date));
  destruct (Z.ltb_spec (day current_date) (day t));
  destruct (Z.ltb_spec 1 (day current_date));
  destruct (Z.ltb_spec (day current_date) 1); trivial; lia.
Qed.

Lemma last_record_total h r :
  (forall k r, nth_error h k = Some r ->
     total_stars_after r = sum (firstn (S k) (map stars_gained h))
     /\ total_forks_after r = sum (firstn (S k) (map forks_gained h))) ->
  last_record h = Some r ->
  total_stars_after r = sum (map stars_gained h)
  /\ total_forks_after r = sum (map forks_gained h).
Proof.
  intros Hprefix Hlast. unfold last_record in Hlast.
  destruct (Hprefix _ _ Hlast) as [Hs Hf].
  assert (Hlen : (List.length h - 1 < List.length h)%nat).
  { apply nth_error_Some. congruence. }
  rewrite firstn_all2 in Hs, Hf by (rewrite length_map; lia). auto.
Qed.

(** The number of records of a history, in general. *)
Lemma history_length pow repo_data stargazers current_date g :
  valid_datetime (created_at repo_data) -> valid_datetime current_date ->
  exists h g',
    monthly_history pow repo_data stargazers current_date g = Ok (h, g')
    /\ List.length h
       = Z.to_nat (remaining_months (replace_day1 (created_at repo_data))
                     current_date).
Proof.
  intros Hc Hn.
  destruct (monthly_history_spec pow repo_data stargazers current_date Hn Hc g)
    as (sim & h & g' & _ & Hh & _ & Hl & Hlen & _).
  exists h, g'. split; [exact Hh|congruence].
Qed.

(* ================================================================== *)
(** * The claims of the specification *)

Section Claims.

Variable pow : Q -> Q -> Q.

Open Scope Z_scope.

(** C2.  The monthly history does not depend on the star events: the count
    of real events of a month is replaced by the modelled value in both
    branches, so two runs on the same repository, clock and random draws
    return the same history whatever the two event lists are. *)
Theorem history_ignores_star_events repo_data s1 s2 contributors
    current_date today g :
  (forall current_month cumulative_stars,
     month_stars pow repo_data s1 current_date current_month cumulative_stars
     = month_stars pow repo_data s2 current_date current_month cumulative_stars)
  /\ monthly_history pow repo_data s1 current_date g
     = monthly_history pow repo_data s2 current_date g
  /\ history_of (generate_real_analytics_data pow repo_data s1 contributors
                   current_date today g)
     = history_of (generate_real_analytics_data pow repo_data s2 contributors
                     current_date today g).
Proof.
  split; [reflexivity|].
  pose proof (monthly_history_ignores_events pow repo_data s1 s2 current_date g)
    as Heq.
  split; [exact Heq|].
  destruct (monthly_history pow repo_data s2 current_date g)
    as [[h g1]|e] eqn:H2.
  - destruct (engine_after_history pow repo_data s1 contributors current_date
                today g h g1 Heq) as (b1 & g2 & -> & <- & _).
    destruct (engine_after_history pow repo_data s2 contributors current_date
                today g _ g1 H2) as (b2 & g3 & -> & E & _).
    simpl. now rewrite E.
  - rewrite (monthly_history_raise pow repo_data s1 contributors current_date
               today g e Heq).
    rewrite (monthly_history_raise pow repo_data s2 contributors current_date
               today g e H2).
    reflexivity.
Qed.

(** C3.  Every record of the returned monthly history satisfies
    after = before + gained for stars and for forks, and every record of the
    returned daily series carries the sum of the daily values from the start
    of the window through itself, that is the cumulative value of the record
    before it plus its own value. *)
Theorem cumulative_fields_consistent repo_data stargazers contributors
    current_date today g :
  valid_datetime (created_at repo_data) -> valid_datetime current_date ->
  exists bundle g',
    generate_real_analytics_data pow repo_data stargazers contributors
      current_date today g = Ok (bundle, g')
    /\ Forall record_consistent (history bundle)
    /\ running_sums (daily_stars (daily bundle))
    /\ chained (daily_stars (daily bundle))
    /\ running_sums (daily_forks (daily bundle))
    /\ chained (daily_forks (daily bundle)).
Proof.
  intros Hc Hn.
  destruct (monthly_history_spec pow repo_data stargazers current_date Hn Hc g)
    as (sim & h & g1 & _ & Hh & Hrec & _).
  destruct (reconcile_spec repo_data sim g1)
    as (h' & Hrec' & _ & _ & Hcons & _).
  assert (h' = h) as -> by congruence.
  destruct (engine_after_history pow repo_data stargazers contributors
              current_date today g h g1 Hh) as (b & g2 & Hrun & Hb & _ & Hd).
  destruct (generate_daily_analytics_spec repo_data stargazers today g1)
    as (d & g2' & Hd' & _ & _ & Hrs & Hrf).
  assert (d = daily b) as -> by congruence.
  exists b, g2. rewrite Hb.
  auto 10 using running_sums_chained.
Qed.

(** C9.  Each country list of the output (stars, forks, clones) has at most
    8 entries, is sorted with the largest value first, and holds no entry of
    value zero. *)
Theorem country_lists_ranked repo_data stargazers contributors
    current_date today g :
  valid_datetime (created_at repo_data) -> valid_datetime current_date ->
  exists bundle g',
    generate_real_analytics_data pow repo_data stargazers contributors
      current_date today g = Ok (bundle, g')
    /\ ranked_top8 (series_stars (countries bundle))
    /\ ranked_top8 (series_forks (countries bundle))
    /\ ranked_top8 (series_clones (countries bundle)).
Proof.
  intros Hc Hn.
  destruct (monthly_history_spec pow repo_data stargazers current_date Hn Hc g)
    as (sim & h & g1 & _ & Hh & _).
  destruct (engine_after_history pow repo_data stargazers contributors
              current_date today g h g1 Hh) as (b & g2 & Hrun & _ & Hcs & _).
  destruct (country_series_spec repo_data contributors g1)
    as (cs & Hcs' & Hranked).
  assert (cs = countries b) as -> by congruence.
  exists b, g2. split; [exact Hrun|exact Hranked].
Qed.

(** C10.  No synthesis call faults: with the fork ratio dividing by
    max(1, stars), the progress by the months floored at 1, the lifetime
    average computed only for a positive age and the country ratios only for
    a positive total weight, the engine returns a bundle for every
    repository, also with zero stars, zero forks and zero age. *)
Theorem engine_never_faults repo_data stargazers contributors
    current_date today g :
  valid_datetime (created_at repo_data) -> valid_datetime current_date ->
  exists bundle g',
    generate_real_analytics_data pow repo_data stargazers contributors
      current_date today g = Ok (bundle, g').
Proof.
  intros Hc Hn.
  destruct (monthly_history_spec pow repo_data stargazers current_date Hn Hc g)
    as (sim & h & g1 & _ & Hh & _).
  destruct (engine_after_history pow repo_data stargazers contributors
              current_date today g h g1 Hh) as (b & g2 & Hrun & _).
  now exists b, g2.
Qed.

End Claims.

(** C7.  Every daily window, stars and forks alike, has exactly 31 records;
    every record carries a date of the calendar, and these dates advance by
    one day from 30 days before the current day and end on the current
    day. *)
Theorem daily_window_dates repo_data stargazers today g :
  valid_datetime today ->
  exists d g',
    generate_daily_analytics repo_data stargazers today g = Ok (d, g')
    /\ List.length (daily_stars d) = 31%nat
    /\ List.length (daily_forks d) = 31%nat
    /\ Forall (fun r => calendar_date (daily_date r)) (daily_stars d)
    /\ Forall (fun r => calendar_date (daily_date r)) (daily_forks d)
    /\ map (fun r => date_ordinal (daily_date r)) (daily_stars d)
       = map (fun k => toordinal today - 30 + k)%Z (range 31)
    /\ map (fun r => date_ordinal (daily_date r)) (daily_forks d)
       = map (fun k => toordinal today - 30 + k)%Z (range 31)
    /\ (exists r, nth_error (daily_stars d) 30 = Some r
                  /\ daily_date r = date_of today)
    /\ (exists r, nth_error (daily_forks d) 30 = Some r
                  /\ daily_date r = date_of today).
Proof.
  intros Hv.
  destruct (generate_daily_analytics_spec repo_data stargazers today g)
    as (d & g' & Hrun & Hs & Hf & _).
  exists d, g'. split; [exact Hrun|].
  change (range_down 30 (-1))
    with [30; 29; 28; 27; 26; 25; 24; 23; 22; 21; 20; 19; 18; 17; 16; 15;
          14; 13; 12; 11; 10; 9; 8; 7; 6; 5; 4; 3; 2; 1; 0]%Z in Hs, Hf.
  assert (Hord : forall l : list DailyRecord,
    map daily_date l
    = map (fun i => date_of (sub_days today i))
        [30; 29; 28; 27; 26; 25; 24; 23; 22; 21; 20; 19; 18; 17; 16; 15;
         14; 13; 12; 11; 10; 9; 8; 7; 6; 5; 4; 3; 2; 1; 0]%Z ->
    List.length l = 31%nat
    /\ Forall (fun r => calendar_date (daily_date r)) l
    /\ map (fun r => date_ordinal (daily_date r)) l
       = map (fun k => toordinal today - 30 + k)%Z (range 31)
    /\ exists r, nth_error l 30 = Some r /\ daily_date r = date_of today).
  { intros l Hl. split; [|split; [|split]].
    - rewrite <- (length_map daily_date), Hl. reflexivity.
    - apply (Forall_map daily_date calendar_date). rewrite Hl.
      apply Forall_map, Forall_forall. intros i _. apply sub_days_valid.
    - rewrite <- (map_map daily_date date_ordinal), Hl, map_map.
      change (range 31)
        with [0; 1; 2; 3; 4; 5; 6; 7; 8; 9; 10; 11; 12; 13; 14; 15; 16; 17;
              18; 19; 20; 21; 22; 23; 24; 25; 26; 27; 28; 29; 30]%Z.
      cbn [map]. rewrite !sub_days_ordinal.
      repeat (f_equal; try lia).
    - assert (Hn : nth_error (map daily_date l) 30
                   = Some (date_of (sub_days today 0)))
        by (rewrite Hl; reflexivity).
      rewrite nth_error_map in Hn.
      destruct (nth_error l 30) as [r|]; [|discriminate].
      exists r. split; [reflexivity|].
      simpl in Hn. injection Hn as ->. now apply sub_days_zero. }
  destruct (Hord _ Hs) as (Ls & Vs & Os & Es).
  destruct (Hord _ Hf) as (Lf & Vf & Of & Ef).
  auto 12.
Qed.

(** A daily window of the sample repository. *)
Lemma daily_window_dates_witness :
  exists d g',
    generate_daily_analytics Samples.repo_jan [] Samples.tenth_of_april
      Samples.half = Ok (d, g')
    /\ List.length (daily_stars d) = 31%nat
    /\ List.length (daily_forks d) = 31%nat
    /\ Forall (fun r => calendar_date (daily_date r)) (daily_stars d)
    /\ Forall (fun r => calendar_date (daily_date r)) (daily_forks d)
    /\ map (fun r => date_ordinal (daily_date r)) (daily_stars d)
       = map (fun k => toordinal Samples.tenth_of_april - 30 + k)%Z (range 31)
    /\ map (fun r => date_ordinal (daily_date r)) (daily_forks d)
       = map (fun k => toordinal Samples.tenth_of_april - 30 + k)%Z (range 31)
    /\ (exists r, nth_error (daily_stars d) 30 = Some r
                  /\ daily_date r = date_of Samples.tenth_of_april)
    /\ (exists r, nth_error (daily_forks d) 30 = Some r
                  /\ daily_date r = date_of Samples.tenth_of_april).
Proof.
  apply daily_window_dates.
  unfold valid_datetime, valid_date. vm_compute. intuition discriminate.
Defined.

(** C1, as stated, fails, in each branch of the reconciliation.  [pow] is
    not called on these inputs: the progress of the two months is 0 and 1.
    - 100 stars, created in January, observed in mid February, every draw
      0.5625: February gets 100 + int(100 * 0.0375) = 103 stars, the
      difference of 3 is within 5%% and nothing is adjusted: the sum is 103.
    - The same with every draw 0.375: February gets 100 + int(-7.5) = 93
      stars, the difference 7 exceeds 5%%, each of the two months gains
      7 // 2 = 3: the sum is 99.
    - 100 stars, created in February, observed in mid March, every draw 0.5:
      March is a seasonal month and gets int(100 * 1.1) = 110 stars, the
      reconciliation takes -10 // 2 = -5 from each month and February stays
      at max(0, 0 - 5) = 0: the sum is 105.
    In each case the last record's total_stars_after is that sum, not 100. *)
Lemma reconciliation_not_exact :
  (exists h g',
     monthly_history Samples.linear_pow Samples.repo_new_year []
       Samples.mid_february Samples.a_little_more = Ok (h, g')
     /\ stargazers_count Samples.repo_new_year = 100%Z
     /\ map stars_gained h = [0; 103]%Z
     /\ map total_stars_after h = [0; 103]%Z)
  /\ (exists h g',
        monthly_history Samples.linear_pow Samples.repo_new_year []
          Samples.mid_february Samples.a_little_less = Ok (h, g')
        /\ map stars_gained h = [3; 96]%Z
        /\ map total_stars_after h = [3; 99]%Z)
  /\ (exists h g',
        monthly_history Samples.linear_pow Samples.repo_feb []
          Samples.mid_march Samples.half = Ok (h, g')
        /\ stargazers_count Samples.repo_feb = 100%Z
        /\ map stars_gained h = [0; 105]%Z
        /\ map total_stars_after h = [0; 105]%Z
        /\ sum (map stars_gained h) <> stargazers_count Samples.repo_feb).
Proof.
  split; [|split].
  - eexists _, _. split; [vm_compute; reflexivity|].
    repeat split; reflexivity.
  - eexists _, _. split; [vm_compute; reflexivity|].
    repeat split; reflexivity.
  - eexists _, _. split; [vm_compute; reflexivity|].
    split; [reflexivity|]. split; [reflexivity|]. split; [reflexivity|].
    vm_compute. discriminate.
Qed.

Section ReconciliationByDesign.
Open Scope Z_scope.

Lemma nth_error_replace_nth {A} j (y : A) l i :
  nth_error (replace_nth j y l) i
  = if (i =? j)%nat
    then (if (j <? List.length l)%nat then Some y else None)
    else nth_error l i.
Proof.
  revert j i. induction l as [|x l IH]; intros [|j] [|i]; simpl; trivial.
  destruct (i =? j)%nat; reflexivity.
Qed.

Section AdjustValues.

Variable get : MonthlyRecord -> Z.
Variable set : Z -> MonthlyRecord -> MonthlyRecord.
Hypothesis get_set : forall v r, get (set v r) = v.
Variable per_month : Z.

(** The assignments of one adjustment loop, record by record. *)
Lemma adjust_loop_values k :
  forall a h g h' g',
    (a + k <= List.length h)%nat ->
    for_each (map Z.of_nat (seq a k)) (adjust_gained get set per_month) h g
    = Ok (h', g') ->
    List.length h' = List.length h
    /\ forall j x,
         nth_error h j = Some x ->
         exists x',
           nth_error h' j = Some x'
           /\ get x'
              = if ((List.length h - (a + k) <=? j)
                    && (j <? List.length h - a))%nat
                then Z.max 0 (get x + per_month) else get x.
Proof.
  induction k as [|k IH]; intros a h g h' g' Hk Hrun.
  - simpl in Hrun. injection Hrun as <- _. split; [reflexivity|].
    intros j x Hx. exists x. split; [exact Hx|].
    rewrite Nat.add_0_r.
    destruct (Nat.leb_spec (List.length h - a) j);
      destruct (Nat.ltb_spec j (List.length h - a)); trivial; lia.
  - cbn [seq map for_each] in Hrun.
    destruct (adjust_step get set per_month a h g ltac:(lia))
      as (x0 & Hx0 & Hstep).
    rewrite (bind_ok _ Hstep) in Hrun.
    set (h1 := replace_nth _ _ h) in *.
    assert (Hlen1 : List.length h1 = List.length h)
      by apply replace_nth_length.
    destruct (IH (S a) h1 g h' g' ltac:(lia) Hrun) as [Hlen Hval].
    split; [congruence|]. intros j x Hx.
    assert (Hj : (j < List.length h)%nat).
    { apply nth_error_Some. congruence. }
    pose proof (nth_error_replace_nth (List.length h - 1 - a)
                  (set (Z.max 0 (get x0 + per_month)) x0) h j) as Hnth.
    fold h1 in Hnth.
    destruct (Nat.eqb_spec j (List.length h - 1 - a)) as [->|Hne].
    + destruct (Nat.ltb_spec (List.length h - 1 - a) (List.length h));
        [|lia].
      destruct (Hval _ _ Hnth) as (x' & Hx' & Hget).
      exists x'. split; [exact Hx'|]. rewrite Hget, Hlen1, get_set.
      assert (x = x0) as -> by congruence.
      destruct (Nat.leb_spec (List.length h - (S a + k))
                  (List.length h - 1 - a));
        destruct (Nat.ltb_spec (List.length h - 1 - a)
                    (List.length h - S a));
        destruct (Nat.leb_spec (List.length h - (a + S k))
                    (List.length h - 1 - a));
        destruct (Nat.ltb_spec (List.length h - 1 - a) (List.length h - a));
        cbn [andb]; trivial; lia.
    + rewrite Hx in Hnth.
      destruct (Hval _ _ Hnth) as (x' & Hx' & Hget).
      exists x'. split; [exact Hx'|]. rewrite Hget, Hlen1.
      destruct (Nat.leb_spec (List.length h - (S a + k)) j);
        destruct (Nat.ltb_spec j (List.length h - S a));
        destruct (Nat.leb_spec (List.length h - (a + S k)) j);
        destruct (Nat.ltb_spec j (List.length h - a));
        cbn [andb]; trivial; lia.
Qed.

(** One metric of the reconciliation, record by record. *)
Lemma adjust_metric_values (actual : Z) h g h' g' :
  h <> [] ->
  (if Qlt_bool (of_int actual * 0.05)
        (of_int (Z.abs (actual - sum (map get h)))) then
     let months_to_adjust := Z.min 3 (len h) in
     per_month <- floordiv (actual - sum (map get h)) months_to_adjust ;;
     for_each (range months_to_adjust) (adjust_gained get set per_month) h
   else ret h) g = Ok (h', g') ->
  let diff := actual - sum (map get h) in
  let months_to_adjust := Z.min 3 (len h) in
  (20 * Z.abs diff <= actual -> h' = h)
  /\ (actual < 20 * Z.abs diff ->
      per_month = diff / months_to_adjust ->
      List.length h' = List.length h
      /\ forall j x,
           nth_error h j = Some x ->
           exists x',
             nth_error h' j = Some x'
             /\ get x'
                = if (List.length h - Z.to_nat months_to_adjust <=? j)%nat
                  then Z.max 0 (get x + per_month) else get x).
Proof.
  intros Hne Hrun diff months_to_adjust.
  assert (Hlen : 1 <= len h).
  { unfold len. destruct h; [congruence|simpl; lia]. }
  destruct (Qlt_bool _ _) eqn:Etest.
  - apply five_percent_test in Etest. fold diff in Etest.
    split; [lia|]. intros _ Hper. cbv zeta in Hrun.
    fold diff months_to_adjust in Hrun.
    assert (Hk : months_to_adjust <> 0) by (unfold months_to_adjust; lia).
    rewrite (bind_ok _ (floordiv_ok diff g Hk)) in Hrun.
    rewrite <- Hper in Hrun. unfold range in Hrun.
    destruct (adjust_loop_values (Z.to_nat months_to_adjust) 0%nat
                h g h' g') as [Hl Hval]; trivial.
    { unfold months_to_adjust, len. lia. }
    split; [exact Hl|]. intros j x Hx.
    destruct (Hval j x Hx) as (x' & Hx' & Hget).
    exists x'. split; [exact Hx'|]. rewrite Hget.
    assert (Hj : (j < List.length h)%nat).
    { apply nth_error_Some. congruence. }
    rewrite Nat.sub_0_r. simpl.
    destruct (Nat.ltb_spec j (List.length h)); [|lia].
    now rewrite andb_true_r.
  - split.
    + intros _. now injection Hrun as <- _.
    + intros Hlt. apply five_percent_test in Hlt. fold diff in Etest.
      congruence.
Qed.

End AdjustValues.

Lemma sum_shift_tail (c : Z) :
  forall (l l' : list Z) (first : nat),
    List.length l' = List.length l ->
    (forall j x, nth_error l j = Some x ->
       nth_error l' j = Some (if (first <=? j)%nat then x + c else x)) ->
    sum l' = sum l + Z.of_nat (List.length l - first) * c.
Proof.
  induction l as [|x l IH]; intros [|y l'] first Hlen Hval;
    try discriminate.
  - simpl. rewrite sum_nil. lia.
  - pose proof (Hval 0%nat x eq_refl) as H0. simpl in H0.
    injection H0 as Hy. simpl in Hlen. injection Hlen as Hlen.
    rewrite !sum_cons.
    destruct first as [|first].
    + rewrite (IH l' 0%nat Hlen).
      * simpl in Hy. cbn [List.length].
        replace (Z.of_nat (S (List.length l) - 0))
          with (Z.of_nat (List.length l - 0) + 1) by lia.
        rewrite Hy. ring.
      * intros j z Hz. apply (Hval (S j) z Hz).
    + rewrite (IH l' first Hlen).
      * simpl in Hy. cbn [List.length].
        replace (S (List.length l) - S first)%nat
          with (List.length l - first)%nat by lia.
        rewrite Hy. ring.
      * intros j z Hz. apply (Hval (S j) z Hz).
Qed.

Lemma nth_error_map_inv {A B} (f : A -> B) l j y :
  nth_error (map f l) j = Some y ->
  exists x, nth_error l j = Some x /\ f x = y.
Proof.
  rewrite nth_error_map. destruct (nth_error l j) as [x|]; [|discriminate].
  intros [= <-]. now exists x.
Qed.

(** From the records to the list of their gains. *)
Lemma evenly_reconciled_intro (get : MonthlyRecord -> Z) actual h h' :
  let diff := actual - sum (map get h) in
  let months_to_adjust := Z.min 3 (len h) in
  h <> [] ->
  (20 * Z.abs diff <= actual -> map get h' = map get h) ->
  (actual < 20 * Z.abs diff ->
   List.length h' = List.length h
   /\ forall j x,
        nth_error h j = Some x ->
        exists x',
          nth_error h' j = Some x'
          /\ get x'
             = if (List.length h - Z.to_nat months_to_adjust <=? j)%nat
               then Z.max 0 (get x + diff / months_to_adjust) else get x) ->
  evenly_reconciled actual (map get h) (map get h').
Proof.
  intros diff months_to_adjust Hne Hkeep Hadj.
  assert (Hlen : 1 <= len h).
  { unfold len. destruct h; [congruence|simpl; lia]. }
  unfold evenly_reconciled. cbv zeta.
  replace (len (map get h)) with (len h) by (unfold len; now rewrite length_map).
  rewrite !length_map. fold diff months_to_adjust.
  split; [exact Hkeep|]. intros Hlt Hmod.
  destruct (Hadj Hlt) as [Hl Hval].
  assert (Hpoint : forall j x,
            nth_error (map get h) j = Some x ->
            nth_error (map get h') j
            = Some (if (List.length h - Z.to_nat months_to_adjust <=? j)%nat
                    then Z.max 0 (x + diff / months_to_adjust) else x)).
  { intros j x Hx. apply nth_error_map_inv in Hx as (r & Hr & <-).
    destruct (Hval j r Hr) as (r' & Hr' & Hget).
    rewrite nth_error_map, Hr'. simpl. now rewrite Hget. }
  split; [exact Hl|]. split; [exact Hpoint|].
  intros Hfree.
  rewrite (sum_shift_tail (diff / months_to_adjust) (map get h) (map get h')
             (List.length h - Z.to_nat months_to_adjust)).
  - rewrite length_map.
    replace (Z.of_nat (List.length h
                       - (List.length h - Z.to_nat months_to_adjust)))
      with months_to_adjust by (unfold months_to_adjust, len in *; lia).
    assert (Hk : months_to_adjust <> 0) by (unfold months_to_adjust; lia).
    pose proof (Z.div_mod diff months_to_adjust Hk). unfold diff in *. lia.
  - now rewrite !length_map.
  - intros j x Hx. rewrite (Hpoint j x Hx).
    destruct (Nat.leb_spec (List.length h - Z.to_nat months_to_adjust) j)
      as [Hj|Hj]; [|reflexivity].
    specialize (Hfree j x Hx Hj). f_equal. lia.
Qed.

(** The two metrics of the reconciliation, on the gains of the records. *)
Lemma reconcile_values repo_data h g h' g' :
  h <> [] ->
  reconcile repo_data h g = Ok (h', g') ->
  evenly_reconciled (stargazers_count repo_data)
    (map stars_gained h) (map stars_gained h')
  /\ evenly_reconciled (forks_count repo_data)
       (map forks_gained h) (map forks_gained h').
Proof.
  intros Hne Hrun. destruct h as [|x0 h0]; [congruence|].
  unfold reconcile, adjust_stars, adjust_forks in Hrun.
  cbv beta iota zeta in Hrun.
  remember (x0 :: h0) as h eqn:Eh.
  destruct (adjust_metric stars_gained forks_gained set_stars_gained
              (stargazers_count repo_data) h g)
    as (h1 & Hrun1 & Hl1 & Ho1 & _); try reflexivity; trivial.
  cbv zeta in Hrun1.
  pose proof (adjust_metric_values stars_gained set_stars_gained
                ltac:(reflexivity)
                ((stargazers_count repo_data - sum (map stars_gained h))
                 / Z.min 3 (len h))
                (stargazers_count repo_data) h g h1 g Hne Hrun1) as Hv1.
  rewrite (bind_ok _ Hrun1) in Hrun.
  assert (Hne1 : h1 <> []).
  { intros ->. rewrite Eh in Hl1. discriminate. }
  assert (Hlen1 : len h1 = len h) by (unfold len; congruence).
  destruct (adjust_metric forks_gained stars_gained set_forks_gained
              (forks_count repo_data) h1 g)
    as (h2 & Hrun2 & Hl2 & Ho2 & _); try reflexivity; trivial.
  cbv zeta in Hrun2.
  pose proof (adjust_metric_values forks_gained set_forks_gained
                ltac:(reflexivity)
                ((forks_count repo_data - sum (map forks_gained h1))
                 / Z.min 3 (len h1))
                (forks_count repo_data) h1 g h2 g Hne1 Hrun2) as Hv2.
  rewrite Ho1 in Hrun2. rewrite (bind_ok _ Hrun2) in Hrun.
  injection Hrun as <- _.
  destruct (recalculate_gained h2 0 0) as [-> ->].
  cbv zeta in Hv1, Hv2. destruct Hv1 as [Hk1 Ha1], Hv2 as [Hk2 Ha2].
  split.
  - rewrite Ho2. apply evenly_reconciled_intro; trivial.
    + intros H. now rewrite (Hk1 H).
    + intros H. exact (Ha1 H eq_refl).
  - assert (Hrec : evenly_reconciled (forks_count repo_data)
                     (map forks_gained h1) (map forks_gained h2)).
    { apply evenly_reconciled_intro; trivial.
      + intros H. now rewrite (Hk2 H).
      + intros H. exact (Ha2 H eq_refl). }
    now rewrite Ho1 in Hrec.
Qed.

(** C1, amended.  For a repository that exists at the time of the call and
    has stars, the last record's total_stars_after and total_forks_after are
    the sums of stars_gained and forks_gained over the returned history.
    The reconciliation is gated: a simulated sum within 5%% of the
    authoritative total is kept, month by month.  A simulated sum further
    off whose difference splits evenly over the last k = min(3, number of
    months) months gives each of these months its share, not below zero,
    and leaves the other months alone; the sum of the gains is then the
    authoritative total exactly, unless a month was held at zero.  The
    same holds for forks when the repository has forks. *)
Theorem reconciliation_by_design pow repo_data stargazers current_date g :
  valid_datetime (created_at repo_data) -> valid_datetime current_date ->
  dt_leb (created_at repo_data) current_date = true ->
  0 < stargazers_count repo_data ->
  exists sim h g',
    simulate_months pow repo_data stargazers current_date g = Ok (sim, g')
    /\ monthly_history pow repo_data stargazers current_date g = Ok (h, g')
    /\ (exists r, last_record h = Some r
          /\ total_stars_after r = sum (map stars_gained h)
          /\ total_forks_after r = sum (map forks_gained h))
    /\ evenly_reconciled (stargazers_count repo_data)
         (map stars_gained sim) (map stars_gained h)
    /\ (0 < forks_count repo_data ->
        evenly_reconciled (forks_count repo_data)
          (map forks_gained sim) (map forks_gained h)).
Proof.
  intros Hc Hn Hle Hstars.
  destruct (monthly_history_spec pow repo_data stargazers current_date Hn Hc g)
    as (sim & h & g' & Hsim & Hh & Hrec & Hl & Hlen & _).
  destruct (reconcile_spec repo_data sim g')
    as (h' & Hrec' & _ & _ & _ & Hprefix & _).
  assert (h' = h) as -> by congruence.
  assert (Hrem : 1 <= remaining_months (replace_day1 (created_at repo_data))
                        current_date).
  { apply dt_leb_remaining; trivial.
    - apply (valid_month _ Hc).
    - now apply replace_day1_leb. }
  assert (Hne : sim <> []).
  { intros ->. simpl in Hlen. lia. }
  destruct (reconcile_values repo_data sim g' h g' Hne Hrec) as [Hs Hf].
  exists sim, h, g'. split; [exact Hsim|]. split; [exact Hh|]. split.
  { unfold last_record.
    destruct (nth_error h (List.length h - 1)) as [r|] eqn:E.
    - exists r. split; [reflexivity|].
      now apply (last_record_total h r Hprefix).
    - apply nth_error_None in E. lia. }
  split; [exact Hs|]. intros _. exact Hf.
Qed.

End ReconciliationByDesign.

(** 100 stars, created in January and observed in mid February, every draw
    0.359375: February gets 92 stars, the difference of 8 exceeds 5%% and
    splits evenly, each of the two months gains 4 and the sum is 100. *)
Lemma reconciliation_by_design_witness :
  exists sim h g',
    simulate_months Samples.linear_pow Samples.repo_new_year []
      Samples.mid_february MoreSamples.well_below = Ok (sim, g')
    /\ monthly_history Samples.linear_pow Samples.repo_new_year []
         Samples.mid_february MoreSamples.well_below = Ok (h, g')
    /\ (exists r, last_record h = Some r
          /\ total_stars_after r = sum (map stars_gained h)
          /\ total_forks_after r = sum (map forks_gained h))
    /\ evenly_reconciled (stargazers_count Samples.repo_new_year)
         (map stars_gained sim) (map stars_gained h)
    /\ ((0 < forks_count Samples.repo_new_year)%Z ->
        evenly_reconciled (forks_count Samples.repo_new_year)
          (map forks_gained sim) (map forks_gained h)).
Proof.
  apply reconciliation_by_design.
  - unfold valid_datetime, valid_date. vm_compute. intuition discriminate.
  - unfold valid_datetime, valid_date. vm_compute. intuition discriminate.
  - reflexivity.
  - reflexivity.
Defined.

(** C5.  A repository created in the current calendar month has a history
    of exactly one record, and that record's total_stars_after is the
    authoritative star count: the whole total is the gain of the month. *)
Theorem single_month_history pow repo_data stargazers current_date g :
  valid_datetime (created_at repo_data) -> valid_datetime current_date ->
  year (created_at repo_data) = year current_date ->
  month (created_at repo_data) = month current_date ->
  dt_leb (created_at repo_data) current_date = true ->
  (0 <= stargazers_count repo_data)%Z ->
  exists r,
    monthly_history pow repo_data stargazers current_date g = Ok ([r], g)
    /\ total_stars_before r = 0%Z
    /\ stars_gained r = stargazers_count repo_data
    /\ total_stars_after r = stargazers_count repo_data.
Proof.
  intros Hc Hn Hy Hm Hle Hstars.
  set (cm := replace_day1 (created_at repo_data)).
  pose proof (valid_month _ Hc) as Hcm.
  assert (Hrem : remaining_months cm current_date = 1%Z).
  { assert (H1 : (1 <= remaining_months cm current_date)%Z).
    { apply dt_leb_remaining; trivial. now apply replace_day1_leb. }
    revert H1. unfold remaining_months, month_index, cm. simpl.
    destruct (reaches_current_month _ _); lia. }
  destruct (first_month_record pow repo_data stargazers current_date g)
    as (r0 & Hr0 & Hs0 & Hf0).
  assert (Hsim : simulate_months pow repo_data stargazers current_date g
                 = Ok ([r0], g)).
  { unfold simulate_months. cbv zeta.
    replace (Z.to_nat (months_inclusive repo_data current_date)) with 1%nat
      by (unfold months_inclusive; lia).
    fold cm. cbn [monthly_loop].
    assert (E1 : dt_leb cm current_date = true).
    { apply dt_leb_remaining; trivial. lia. }
    rewrite E1. fold cm in Hr0. rewrite (bind_ok _ Hr0).
    assert (E2 : dt_leb (next_month cm) current_date = false).
    { destruct (month_index_next cm Hcm) as (Hi & Hm' & Hd' & Ht').
      destruct (dt_leb (next_month cm) current_date) eqn:E; [|reflexivity].
      apply dt_leb_remaining in E; trivial.
      unfold remaining_months, reaches_current_month in E, Hrem.
      rewrite Hi, Ht' in E. lia. }
    rewrite E2. reflexivity. }
  destruct (reconcile_spec repo_data [r0] g)
    as (h & Hrec & Hlen & _ & _ & Hprefix & Hrs & _).
  destruct h as [|r [|r' h]]; try discriminate.
  exists r. split.
  { unfold monthly_history. now rewrite (bind_ok _ Hsim). }
  assert (Hrecd : reconciled (stargazers_count repo_data) 0
                    (stars_gained r) 1).
  { specialize (Hrs ltac:(discriminate)
                    ltac:(constructor; [lia|constructor]) Hstars).
    assert (E1 : sum (map stars_gained [r0]) = 0%Z)
      by (cbn [map]; rewrite sum_cons, sum_nil, Hs0; reflexivity).
    assert (E2 : sum (map stars_gained [r]) = stars_gained r)
      by (cbn [map]; rewrite sum_cons, sum_nil; lia).
    rewrite E1, E2 in Hrs. exact Hrs. }
  assert (Hgain : stars_gained r = stargazers_count repo_data).
  { destruct Hrecd as (Hkeep & Hshort & _).
    rewrite Z.sub_0_r in Hkeep, Hshort.
    change (Z.min 3 1) with 1%Z in Hshort. rewrite Z.mod_1_r in Hshort.
    destruct (Z.eq_dec (stargazers_count repo_data) 0) as [E0|E0].
    - rewrite Hkeep; lia.
    - rewrite Hshort; lia. }
  destruct (Hprefix 0%nat r eq_refl) as [Hafter _].
  cbn [map firstn] in Hafter. rewrite sum_cons, sum_nil in Hafter.
  assert (Hcons : record_consistent r).
  { destruct (reconcile_spec repo_data [r0] g)
      as (h2 & Hrec2 & _ & _ & Hc2 & _).
    assert (h2 = [r]) as -> by congruence. now inversion Hc2. }
  destruct Hcons as [Hcs _]. repeat split; lia.
Qed.

(** A repository created on 3 April, observed on 10 April. *)
Lemma single_month_history_witness :
  exists r,
    monthly_history Samples.linear_pow Samples.repo_april []
      Samples.tenth_of_april Samples.half = Ok ([r], Samples.half)
    /\ total_stars_before r = 0%Z
    /\ stars_gained r = stargazers_count Samples.repo_april
    /\ total_stars_after r = stargazers_count Samples.repo_april.
Proof.
  apply single_month_history.
  - unfold valid_datetime, valid_date. vm_compute. intuition discriminate.
  - unfold valid_datetime, valid_date. vm_compute. intuition discriminate.
  - reflexivity.
  - reflexivity.
  - reflexivity.
  - vm_compute. discriminate.
Defined.

Lemma labelled_keys h :
  Forall labelled h ->
  map month_key h = map (fun t => (year t, month t)) (map date h).
Proof.
  induction 1 as [|r h [_ Hr] _ IH]; simpl; [reflexivity|].
  now rewrite Hr, IH.
Qed.

(** C4 fails on the code.  The loop compares the first day of each month, at
    the creation's time of day, with the current instant; on the first day
    of a month, before that time of day, the current month is not visited.
    A repository created 2023-01-15 15:00 and observed 2023-04-01 10:00 has
    four calendar months from January to April but a history of three
    records, January to March; observed on 2023-04-10, the spec's example,
    it has four. *)
Theorem history_misses_current_month pow stargazers g :
  months_inclusive Samples.repo_jan Samples.first_of_april = 4%Z
  /\ dt_leb (created_at Samples.repo_jan) Samples.first_of_april = true
  /\ (exists h g',
        monthly_history pow Samples.repo_jan stargazers Samples.first_of_april g
        = Ok (h, g')
        /\ List.length h = 3%nat
        /\ map month_key h = [(2023, 1); (2023, 2); (2023, 3)]%Z)
  /\ (exists h g',
        monthly_history pow Samples.repo_jan stargazers Samples.tenth_of_april g
        = Ok (h, g')
        /\ List.length h = 4%nat
        /\ map month_key h = [(2023, 1); (2023, 2); (2023, 3); (2023, 4)]%Z).
Proof.
  assert (Hc : valid_datetime (created_at Samples.repo_jan)).
  { unfold valid_datetime, valid_date. vm_compute. intuition discriminate. }
  assert (H1 : valid_datetime Samples.first_of_april).
  { unfold valid_datetime, valid_date. vm_compute. intuition discriminate. }
  assert (H10 : valid_datetime Samples.tenth_of_april).
  { unfold valid_datetime, valid_date. vm_compute. intuition discriminate. }
  split; [reflexivity|]. split; [reflexivity|]. split.
  - destruct (monthly_history_spec pow Samples.repo_jan stargazers
                Samples.first_of_april H1 Hc g)
      as (sim & h & g' & _ & Hh & _ & Hl & Hlen & _ & _ & Hlab & Hdates).
    assert (Hlen' : List.length h = 3%nat) by (rewrite Hl, Hlen; reflexivity).
    exists h, g'. split; [exact Hh|]. split; [exact Hlen'|].
    rewrite (labelled_keys h Hlab), Hdates, Hlen'. reflexivity.
  - destruct (monthly_history_spec pow Samples.repo_jan stargazers
                Samples.tenth_of_april H10 Hc g)
      as (sim & h & g' & _ & Hh & _ & Hl & Hlen & _ & _ & Hlab & Hdates).
    assert (Hlen' : List.length h = 4%nat) by (rewrite Hl, Hlen; reflexivity).
    exists h, g'. split; [exact Hh|]. split; [exact Hlen'|].
    rewrite (labelled_keys h Hlab), Hdates, Hlen'. reflexivity.
Qed.

(** When the loop reaches the current month the history has one record per
    calendar month from the creation month to the current month, in
    chronological order. *)
Theorem history_one_record_per_month pow repo_data stargazers current_date g :
  valid_datetime (created_at repo_data) -> valid_datetime current_date ->
  reaches_current_month (replace_day1 (created_at repo_data)) current_date
  = true ->
  exists h g',
    monthly_history pow repo_data stargazers current_date g = Ok (h, g')
    /\ List.length h = Z.to_nat (months_inclusive repo_data current_date)
    /\ map date h
       = month_starts (List.length h) (replace_day1 (created_at repo_data))
    /\ Forall labelled h.
Proof.
  intros Hc Hn Hreach.
  destruct (monthly_history_spec pow repo_data stargazers current_date Hn Hc g)
    as (sim & h & g' & _ & Hh & _ & Hl & Hlen & _ & _ & Hlab & Hdates).
  exists h, g'. split; [exact Hh|]. split; [|split; trivial].
  rewrite Hl, Hlen. f_equal.
  unfold remaining_months, months_inclusive, month_index. rewrite Hreach.
  simpl. lia.
Qed.

(** The spec's example: created 2023-01-15, observed 2023-04-10. *)
Lemma history_one_record_per_month_witness :
  exists h g',
    monthly_history Samples.linear_pow Samples.repo_jan []
      Samples.tenth_of_april Samples.half = Ok (h, g')
    /\ List.length h
       = Z.to_nat (months_inclusive Samples.repo_jan Samples.tenth_of_april)
    /\ map date h
       = month_starts (List.length h)
           (replace_day1 (created_at Samples.repo_jan))
    /\ Forall labelled h.
Proof.
  apply history_one_record_per_month.
  - unfold valid_datetime, valid_date. vm_compute. intuition discriminate.
  - unfold valid_datetime, valid_date. vm_compute. intuition discriminate.
  - reflexivity.
Defined.

Section GrowthClaim.
Import PrimFloat.




End GrowthClaim.

(** C8, as stated, fails: the description "A React component library"
    contains the keyword "component" of the Frontend category, so the
    category is "Frontend", not "Unknown". *)
Lemma classifier_example_category :
  category (classify_repository Samples.repo_react []) = "Frontend"%string
  /\ category (classify_repository Samples.repo_react []) <> "Unknown"%string.
Proof. split; [reflexivity|discriminate]. Qed.

(** C8, amended.  The classification is a function of the repository
    metadata alone (the languages argument is not read), and for the
    description "A React component library" of a repository that is not a
    fork it is framework "React/Next.js", type "Library" and category
    "Frontend". *)
Theorem classifier_deterministic nm lang created stars forks_n
    languages languages' :
  let repo_data :=
    {| name := nm; description := Some "A React component library"%string;
       language := lang; fork := false; created_at := created;
       stargazers_count := stars; forks_count := forks_n |} in
  (forall r, classify_repository r languages = classify_repository r languages')
  /\ framework (classify_repository repo_data languages) = "React/Next.js"%string
  /\ type (classify_repository repo_data languages) = "Library"%string
  /\ category (classify_repository repo_data languages) = "Frontend"%string.
Proof.
  cbv zeta. split; [reflexivity|]. split; [|split]; reflexivity.
Qed.

(** The sample repository with two contributors, observed on 10 April. *)
Lemma cumulative_fields_consistent_witness :
  exists bundle g',
    generate_real_analytics_data Samples.linear_pow Samples.repo_react []
      Samples.two_contributors Samples.tenth_of_april Samples.tenth_of_april
      Samples.half = Ok (bundle, g')
    /\ Forall record_consistent (history bundle)
    /\ running_sums (daily_stars (daily bundle))
    /\ chained (daily_stars (daily bundle))
    /\ running_sums (daily_forks (daily bundle))
    /\ chained (daily_forks (daily bundle)).
Proof.
  apply cumulative_fields_consistent.
  - unfold valid_datetime, valid_date. vm_compute. intuition discriminate.
  - unfold valid_datetime, valid_date. vm_compute. intuition discriminate.
Defined.

Lemma country_lists_ranked_witness :
  exists bundle g',
    generate_real_analytics_data Samples.linear_pow Samples.repo_react []
      Samples.two_contributors Samples.tenth_of_april Samples.tenth_of_april
      Samples.half = Ok (bundle, g')
    /\ ranked_top8 (series_stars (countries bundle))
    /\ ranked_top8 (series_forks (countries bundle))
    /\ ranked_top8 (series_clones (countries bundle)).
Proof.
  apply country_lists_ranked.
  - unfold valid_datetime, valid_date. vm_compute. intuition discriminate.
  - unfold valid_datetime, valid_date. vm_compute. intuition discriminate.
Defined.

(** Zero stars, zero forks and zero age. *)
Lemma engine_never_faults_witness :
  exists bundle g',
    generate_real_analytics_data Samples.linear_pow Samples.repo_empty [] []
      Samples.tenth_of_april Samples.tenth_of_april Samples.half
    = Ok (bundle, g').
Proof.
  apply engine_never_faults.
  - unfold valid_datetime, valid_date. vm_compute. intuition discriminate.
  - unfold valid_datetime, valid_date. vm_compute. intuition discriminate.
Defined.
(* ================================================================== *)
(** * The client, the request layer and the remaining views *)

(** ** The stargazers listing *)

Section TimelineFacts.
Open Scope Z_scope.
Lemma pages_from_succ get page k :
  pages_from get page (S k)
  = page_items get page ++ pages_from get (page + 1) k.
Proof.
  unfold pages_from. cbn [seq map List.concat].
  rewrite Z.add_0_r. f_equal. f_equal.
  rewrite <- seq_shift, map_map. apply map_ext. intros i. f_equal. lia.
Qed.

Lemma pages_from_snoc get page k :
  pages_from get page (S k)
  = pages_from get page k ++ page_items get (page + Z.of_nat k).
Proof.
  unfold pages_from. rewrite seq_S, map_app, concat_app. simpl.
  now rewrite app_nil_r.
Qed.

(** The loop never runs out of its twenty iterations, and what it returns is
    what it had plus some first pages. *)
Lemma stargazers_pages_spec fuel :
  forall get acc page,
    (Z.to_nat (21 - page) <= fuel)%nat ->
    stargazers_pages fuel get acc page = Raised
    \/ exists k, stargazers_pages fuel get acc page
                 = Returned (acc ++ pages_from get page k)
                 /\ (Z.of_nat k <= Z.max 0 (21 - page)).
Proof.
  induction fuel as [|fuel IH]; intros get acc page Hfuel.
  - right. exists 0%nat. simpl.
    destruct (Z.leb_spec page 20); [lia|].
    rewrite andb_false_r, app_nil_r. split; [reflexivity|lia].
  - cbn [stargazers_pages].
    destruct ((len acc <? 2000) && (page <=? 20)) eqn:Econd.
    2:{ right. exists 0%nat. unfold pages_from. simpl.
        rewrite app_nil_r. split; [reflexivity|lia]. }
    apply andb_prop in Econd as [_ Hpage]. apply Z.leb_le in Hpage.
    destruct (get page) as [|status body] eqn:Eget; [now left|].
    destruct (Z.eqb_spec status 200) as [->|Hst]; cbn [negb].
    2:{ right. exists 0%nat. unfold pages_from. simpl.
        rewrite app_nil_r. split; [reflexivity|lia]. }
    destruct body as [[|x l]|]; [| |now left].
    { right. exists 0%nat. unfold pages_from. simpl.
      rewrite app_nil_r. split; [reflexivity|lia]. }
    destruct (IH get (acc ++ x :: l) (page + 1) ltac:(lia)) as [->|(k & -> & Hk)];
      [now left|].
    right. exists (S k). rewrite pages_from_succ.
    unfold page_items at 1. rewrite Eget, <- app_assoc.
    split; [reflexivity|lia].
Qed.

Lemma stargazers_pages_budget get :
  stargazers_pages 20 get [] 1 <> Exhausted.
Proof.
  destruct (stargazers_pages_spec 20 get [] 1 ltac:(simpl; lia))
    as [->|(k & -> & _)]; discriminate.
Qed.

(** The paging loop never needs more than its twenty iterations: it returns
    the first [k] pages of the listing, in the order of the pages, for some
    [k] of at most 20, or it raises.  [get_stargazers_timeline] returns
    these pages and nothing else, the empty list when the loop raises; with
    pages of at most 100 items that is at most 2000 events. *)
Theorem timeline_is_page_prefix get :
  stargazers_pages 20 get [] 1 <> Exhausted
  /\ exists k,
       (k <= 20)%nat
       /\ (stargazers_pages 20 get [] 1 = Returned (pages_from get 1 k)
           \/ (stargazers_pages 20 get [] 1 = Raised /\ k = 0%nat))
       /\ get_stargazers_timeline get = pages_from get 1 k
       /\ ((forall page, (List.length (page_items get page) <= 100)%nat) ->
           (List.length (get_stargazers_timeline get) <= 2000)%nat).
Proof.
  unfold get_stargazers_timeline. cbv zeta.
  destruct (stargazers_pages_spec 20 get [] 1 ltac:(simpl; lia))
    as [->|(k & -> & Hk)].
  - split; [discriminate|]. exists 0%nat. split; [lia|].
    split; [right; split; reflexivity|]. split; [reflexivity|]. simpl. lia.
  - split; [discriminate|]. exists k. split; [lia|].
    split; [left; reflexivity|]. split; [reflexivity|].
    intros Hsize. simpl.
    assert (Hlen : forall n p,
      (List.length (pages_from get p n) <= 100 * n)%nat).
    { induction n as [|n IHn]; intros p; [simpl; lia|].
      rewrite pages_from_succ, length_app.
      specialize (Hsize p). specialize (IHn (p + 1)). lia. }
    specialize (Hlen k 1). lia.
Qed.

(** Along full pages the loop only accumulates. *)
Lemma stargazers_pages_run n :
  forall fuel get acc page,
    page + Z.of_nat n <= 21 ->
    (forall i, (i < n)%nat -> full_page get (page + Z.of_nat i)) ->
    (forall i, (i < n)%nat ->
       len (acc ++ pages_from get page i) < 2000) ->
    stargazers_pages (n + fuel) get acc page
    = stargazers_pages fuel get (acc ++ pages_from get page n)
        (page + Z.of_nat n).
Proof.
  induction n as [|n IH]; intros fuel get acc page Hpage Hfull Hlen.
  - unfold pages_from. simpl. now rewrite app_nil_r, Z.add_0_r.
  - cbn [Nat.add stargazers_pages].
    pose proof (Hlen 0%nat ltac:(lia)) as H0.
    unfold pages_from in H0. simpl in H0. rewrite app_nil_r in H0.
    destruct (Z.ltb_spec (len acc) 2000); [|lia].
    destruct (Z.leb_spec page 20); [|lia]. cbn [andb].
    destruct (Hfull 0%nat ltac:(lia)) as (x & l & Hget).
    rewrite Z.add_0_r in Hget. rewrite Hget. cbn [Z.eqb Pos.eqb negb].
    rewrite (IH fuel get (acc ++ x :: l) (page + 1)).
    + rewrite (pages_from_succ get page n). unfold page_items. rewrite Hget.
      rewrite <- app_assoc. f_equal. lia.
    + lia.
    + intros i Hi. specialize (Hfull (S i) ltac:(lia)).
      replace (page + 1 + Z.of_nat i) with (page + Z.of_nat (S i)) by lia.
      exact Hfull.
    + intros i Hi. specialize (Hlen (S i) ltac:(lia)).
      rewrite pages_from_succ in Hlen. unfold page_items in Hlen.
      rewrite Hget in Hlen. now rewrite <- app_assoc.
Qed.

(** After [k] full pages the loop stops and keeps them when it has asked
    for 20 pages, holds 2000 events or more, or meets a page that is empty
    or has another status than 200; a request that raises makes the function
    return the empty list, the pages already read are lost. *)
Theorem timeline_outcome get k :
  (k <= 20)%nat ->
  (forall i, (i < k)%nat -> full_page get (1 + Z.of_nat i)) ->
  (forall i, (i < k)%nat -> len (pages_from get 1 i) < 2000) ->
  (k = 20%nat \/ 2000 <= len (pages_from get 1 k)
   \/ closing_page get (1 + Z.of_nat k) ->
   get_stargazers_timeline get = pages_from get 1 k)
  /\ ((k < 20)%nat -> len (pages_from get 1 k) < 2000 ->
      raising_page get (1 + Z.of_nat k) ->
      get_stargazers_timeline get = []).
Proof.
  intros Hk Hfull Hlen.
  assert (Hrun : stargazers_pages 20 get [] 1
                 = stargazers_pages (20 - k) get (pages_from get 1 k)
                     (1 + Z.of_nat k)).
  { replace 20%nat with (k + (20 - k))%nat at 1 by lia.
    rewrite stargazers_pages_run; trivial. lia. }
  unfold get_stargazers_timeline. cbv zeta. rewrite Hrun. split.
  - intros Hstop.
    destruct (20 - k)%nat as [|fuel] eqn:Efuel.
    + assert (k = 20%nat) as -> by lia. simpl.
      now rewrite andb_false_r.
    + cbn [stargazers_pages].
      destruct (Z.ltb_spec (len (pages_from get 1 k)) 2000);
        [|reflexivity].
      destruct (Z.leb_spec (1 + Z.of_nat k) 20); [|reflexivity].
      cbn [andb].
      destruct Hstop as [->|[Hcap|[(st & body & -> & Hst)| ->]]];
        try lia; try discriminate; [|reflexivity].
      destruct (Z.eqb_spec st 200); [contradiction|reflexivity].
  - intros Hk' Hsmall Hraise.
    destruct (20 - k)%nat as [|fuel] eqn:Efuel; [lia|].
    cbn [stargazers_pages].
    destruct (Z.ltb_spec (len (pages_from get 1 k)) 2000); [|lia].
    destruct (Z.leb_spec (1 + Z.of_nat k) 20); [|lia]. cbn [andb].
    destruct Hraise as [-> | ->]; reflexivity.
Qed.

(** Two full pages and an empty third one. *)
Lemma timeline_outcome_witness :
  get_stargazers_timeline MoreSamples.two_pages
  = pages_from MoreSamples.two_pages 1 2.
Proof.
  refine (proj1 (timeline_outcome MoreSamples.two_pages 2 _ _ _) _).
  - lia.
  - intros [|[|i]] Hi; [eexists _, _; reflexivity
                       |eexists _, _; reflexivity|lia].
  - intros [|[|i]] Hi; [reflexivity|reflexivity|lia].
  - right. right. right. reflexivity.
Defined.
End TimelineFacts.

(** ** The shape of the monthly history *)

Section HistoryShapeFacts.
Open Scope Z_scope.
Lemma firstn_replace_nth {A} m j (y : A) l :
  (m <= j)%nat -> firstn m (replace_nth j y l) = firstn m l.
Proof.
  revert m j. induction l as [|x l IH]; intros [|m] [|j] H; simpl; trivial;
    try lia.
  f_equal. apply IH. lia.
Qed.

(** The assignments of one adjustment loop stay within the last records. *)
Lemma adjust_loop_prefix get set per_month k :
  forall a h g h' g',
    (a + k <= List.length h)%nat ->
    for_each (map Z.of_nat (seq a k)) (adjust_gained get set per_month) h g
    = Ok (h', g') ->
    firstn (List.length h - (a + k)) h' = firstn (List.length h - (a + k)) h.
Proof.
  induction k as [|k IH]; intros a h g h' g' Hk Hrun.
  - simpl in Hrun. now injection Hrun as <- _.
  - cbn [seq map for_each] in Hrun.
    destruct (adjust_step get set per_month a h g ltac:(lia))
      as (x & Hx & Hstep).
    rewrite (bind_ok _ Hstep) in Hrun.
    set (h1 := replace_nth _ _ h) in *.
    assert (Hlen1 : List.length h1 = List.length h)
      by apply replace_nth_length.
    apply IH in Hrun; [|lia]. rewrite Hlen1 in Hrun.
    replace (a + S k)%nat with (S a + k)%nat by lia.
    rewrite Hrun. unfold h1. apply firstn_replace_nth. lia.
Qed.

Lemma adjust_metric_prefix get set (actual : Z) h g h' g' :
  (if Qlt_bool (of_int actual * 0.05)
        (of_int (Z.abs (actual - sum (map get h)))) then
     let months_to_adjust := Z.min 3 (len h) in
     per_month <- floordiv (actual - sum (map get h)) months_to_adjust ;;
     for_each (range months_to_adjust) (adjust_gained get set per_month) h
   else ret h) g = Ok (h', g') ->
  firstn (List.length h - 3) h' = firstn (List.length h - 3) h.
Proof.
  destruct (Qlt_bool _ _).
  - cbv zeta. intros Hrun.
    apply bind_inv in Hrun as (p & g1 & Hdiv & Hrun).
    unfold range in Hrun. apply adjust_loop_prefix in Hrun.
    + simpl in Hrun.
      destruct (Nat.le_gt_cases 3 (List.length h)) as [H3|H3].
      * replace (Z.to_nat (Z.min 3 (len h))) with 3%nat in Hrun
          by (unfold len; lia).
        exact Hrun.
      * replace (List.length h - 3)%nat with 0%nat by lia. reflexivity.
    + unfold len. lia.
  - intros Hrun. now injection Hrun as <- _.
Qed.

(** The reconciliation rewrites the totals of a list of records that differs
    from the simulated one in the gains of the last three records only. *)
Lemma reconcile_shape repo_data h g :
  exists h2,
    reconcile repo_data h g = Ok (recalculate 0 0 h2, g)
    /\ List.length h2 = List.length h
    /\ firstn (List.length h - 3) h2 = firstn (List.length h - 3) h
    /\ (Forall (fun r => 0 <= stars_gained r) h ->
        Forall (fun r => 0 <= stars_gained r) h2)
    /\ (Forall (fun r => 0 <= forks_gained r) h ->
        Forall (fun r => 0 <= forks_gained r) h2).
Proof.
  destruct h as [|x0 h0].
  { exists []. simpl. auto. }
  unfold reconcile, adjust_stars, adjust_forks. cbv beta iota zeta.
  remember (x0 :: h0) as h eqn:Eh.
  assert (Hne : h <> []) by congruence.
  destruct (adjust_metric stars_gained forks_gained set_stars_gained
              (stargazers_count repo_data) h g)
    as (h1 & Hrun1 & Hl1 & Ho1 & Hs1); try reflexivity; trivial.
  cbv zeta in Hrun1.
  pose proof (adjust_metric_prefix _ _ _ _ _ _ _ Hrun1) as Hp1.
  rewrite (bind_ok _ Hrun1).
  assert (Hne1 : h1 <> []).
  { intros ->. rewrite Eh in Hl1. discriminate. }
  destruct (adjust_metric forks_gained stars_gained set_forks_gained
              (forks_count repo_data) h1 g)
    as (h2 & Hrun2 & Hl2 & Ho2 & Hs2); try reflexivity; trivial.
  cbv zeta in Hrun2.
  pose proof (adjust_metric_prefix _ _ _ _ _ _ _ Hrun2) as Hp2.
  rewrite Ho1 in Hrun2. rewrite (bind_ok _ Hrun2).
  exists h2. split; [reflexivity|]. split; [congruence|]. split.
  { rewrite Hl1 in Hp2. congruence. }
  assert (Hmap : forall (f : MonthlyRecord -> Z) (a b : list MonthlyRecord),
            map f a = map f b ->
            Forall (fun r => 0 <= f r) b -> Forall (fun r => 0 <= f r) a).
  { intros f a b E Hb. rewrite Forall_forall in *. intros r Hr.
    apply (in_map f) in Hr. rewrite E in Hr.
    apply in_map_iff in Hr as (r' & E' & Hr'). rewrite <- E'. auto. }
  split.
  - intros Hpos. apply (Hmap stars_gained h2 h1 Ho2). now apply Hs1.
  - intros Hpos. apply Hs2. now apply (Hmap forks_gained h1 h Ho1).
Qed.

Section HistoryShape.

Variable pow : Q -> Q -> Q.
Variable repo_data : RepositorySnapshot.
Variable stargazers : list StarEvent.
Variable current_date : datetime.
Hypothesis created_valid : valid_datetime (created_at repo_data).
Hypothesis current_valid : valid_datetime current_date.

(** The history starts from zero, every record takes up the totals where the
    record before it left them, and no month loses stars: the cumulative
    totals never decrease.  Forks behave the same for a repository whose
    fork count is not negative. *)
Theorem history_contiguous g :
  exists h g',
    monthly_history pow repo_data stargazers current_date g = Ok (h, g')
    /\ (forall r, nth_error h 0 = Some r ->
          total_stars_before r = 0 /\ total_forks_before r = 0)
    /\ (forall k r r',
          nth_error h k = Some r -> nth_error h (S k) = Some r' ->
          total_stars_before r' = total_stars_after r
          /\ total_forks_before r' = total_forks_after r)
    /\ Forall (fun r => 0 <= stars_gained r
                        /\ total_stars_before r <= total_stars_after r) h
    /\ (0 <= forks_count repo_data ->
        Forall (fun r => 0 <= forks_gained r
                         /\ total_forks_before r <= total_forks_after r) h).
Proof.
  destruct (monthly_history_spec pow repo_data stargazers current_date
              current_valid created_valid g)
    as (sim & h & g' & _ & Hh & Hrec & _ & _ & Hs & Hf & _).
  destruct (reconcile_shape repo_data sim g')
    as (h2 & Hrec2 & _ & _ & Hs2 & Hf2).
  assert (h = recalculate 0 0 h2) as -> by congruence.
  exists (recalculate 0 0 h2), g'. split; [exact Hh|].
  destruct (recalculate_gained h2 0 0) as [Hgs Hgf].
  split; [|split; [|split]].
  - intros r Hr. apply recalculate_prefix in Hr. simpl in Hr.
    rewrite !sum_nil in Hr. lia.
  - intros k r r' Hr Hr'.
    apply recalculate_prefix in Hr, Hr'. lia.
  - specialize (Hs2 Hs).
    pose proof (recalculate_consistent h2 0 0) as Hc.
    rewrite Forall_forall in *. intros r Hr.
    destruct (Hc r Hr) as [Hcs _].
    assert (0 <= stars_gained r).
    { apply (in_map stars_gained) in Hr. rewrite Hgs in Hr.
      apply in_map_iff in Hr as (r' & <- & Hr'). auto. }
    lia.
  - intros HF. specialize (Hf2 (Hf HF)).
    pose proof (recalculate_consistent h2 0 0) as Hc.
    rewrite Forall_forall in *. intros r Hr.
    destruct (Hc r Hr) as [_ Hcf].
    assert (0 <= forks_gained r).
    { apply (in_map forks_gained) in Hr. rewrite Hgf in Hr.
      apply in_map_iff in Hr as (r' & <- & Hr'). auto. }
    lia.
Qed.

(** The reconciliation assigns the gains of the last three months only:
    every earlier month keeps the stars and forks the model gave it. *)
Theorem reconciliation_keeps_early_months g :
  exists sim h g',
    simulate_months pow repo_data stargazers current_date g = Ok (sim, g')
    /\ monthly_history pow repo_data stargazers current_date g = Ok (h, g')
    /\ List.length h = List.length sim
    /\ firstn (List.length sim - 3) (map stars_gained h)
       = firstn (List.length sim - 3) (map stars_gained sim)
    /\ firstn (List.length sim - 3) (map forks_gained h)
       = firstn (List.length sim - 3) (map forks_gained sim).
Proof.
  destruct (monthly_history_spec pow repo_data stargazers current_date
              current_valid created_valid g)
    as (sim & h & g' & Hsim & Hh & Hrec & Hl & _).
  destruct (reconcile_shape repo_data sim g')
    as (h2 & Hrec2 & _ & Hpre & _).
  assert (h = recalculate 0 0 h2) as -> by congruence.
  exists sim, (recalculate 0 0 h2), g'.
  destruct (recalculate_gained h2 0 0) as [-> ->].
  rewrite !firstn_map, Hpre. auto.
Qed.

End HistoryShape.

(** The sample repository of January, observed on 10 April. *)
Lemma history_contiguous_witness :
  exists h g',
    monthly_history Samples.linear_pow Samples.repo_react []
      Samples.tenth_of_april Samples.half = Ok (h, g')
    /\ (forall r, nth_error h 0 = Some r ->
          total_stars_before r = 0 /\ total_forks_before r = 0)
    /\ (forall k r r',
          nth_error h k = Some r -> nth_error h (S k) = Some r' ->
          total_stars_before r' = total_stars_after r
          /\ total_forks_before r' = total_forks_after r)
    /\ Forall (fun r => 0 <= stars_gained r
                        /\ total_stars_before r <= total_stars_after r) h
    /\ (0 <= forks_count Samples.repo_react ->
        Forall (fun r => 0 <= forks_gained r
                         /\ total_forks_before r <= total_forks_after r) h).
Proof.
  apply history_contiguous.
  - unfold valid_datetime, valid_date. vm_compute. intuition discriminate.
  - unfold valid_datetime, valid_date. vm_compute. intuition discriminate.
Defined.

Lemma reconciliation_keeps_early_months_witness :
  exists sim h g',
    simulate_months Samples.linear_pow Samples.repo_react []
      Samples.tenth_of_april Samples.half = Ok (sim, g')
    /\ monthly_history Samples.linear_pow Samples.repo_react []
         Samples.tenth_of_april Samples.half = Ok (h, g')
    /\ List.length h = List.length sim
    /\ firstn (List.length sim - 3) (map stars_gained h)
       = firstn (List.length sim - 3) (map stars_gained sim)
    /\ firstn (List.length sim - 3) (map forks_gained h)
       = firstn (List.length sim - 3) (map forks_gained sim).
Proof.
  apply reconciliation_keeps_early_months.
  - unfold valid_datetime, valid_date. vm_compute. intuition discriminate.
  - unfold valid_datetime, valid_date. vm_compute. intuition discriminate.
Defined.
End HistoryShapeFacts.

(** ** The values of the daily window *)

Section DailyValueFacts.
Open Scope Z_scope.
Lemma trunc_le_int q n :
  (q <= of_int n)%Q -> 0 <= n -> trunc q <= n.
Proof.
  intros Hq Hn. unfold trunc. unfold of_int, Qle in Hq. simpl in Hq.
  destruct (Z.le_gt_cases 0 (Qnum q)) as [Hpos|Hneg].
  - rewrite Z.quot_div_nonneg by lia.
    apply Z.div_le_upper_bound; lia.
  - assert (Z.quot (Qnum q) (Z.pos (Qden q)) <= 0); [|lia].
    rewrite <- (Z.opp_involutive (Qnum q)), Z.quot_opp_l by lia.
    assert (0 <= Z.quot (- Qnum q) (Z.pos (Qden q))) by (apply Z.quot_pos; lia).
    lia.
Qed.

Lemma events_on_nonneg stargazers d : 0 <= events_on stargazers d.
Proof.
  unfold events_on.
  assert (H : forall n, 0 <= n ->
    0 <= fold_left
           (fun n star =>
              match star with
              | star_at star_date =>
                  if date_eqb (date_of star_date) d then n + 1 else n
              | _ => n
              end) stargazers n).
  { induction stargazers as [|s l IH]; intros n Hn; cbn [fold_left]; trivial.
    apply IH. destruct s as [| |t]; trivial.
    destruct (date_eqb (date_of t) d); lia. }
  apply H. lia.
Qed.

Lemma unit_draws_shift g : unit_draws g -> unit_draws (fun n => g (S n)).
Proof. intros H n. apply H. Qed.

Section DailyValues.

Variable repo_data : RepositorySnapshot.
Variable stargazers : list StarEvent.
Variable today : datetime.

(** What one day's star value is. *)
Lemma day_stars_value i date g :
  exists v g',
    day_stars repo_data stargazers today i date g = Ok (v, g')
    /\ (g' = g \/ g' = (fun n => g (S n)))
    /\ (few_events stargazers = true ->
        0 <= v <= Z.max 1 (stargazers_count repo_data / 20)
        /\ (days_between today (created_at repo_data) <= 0 -> v = 0))
    /\ (few_events stargazers = false ->
        v = events_on stargazers (date_of date)).
Proof.
  unfold day_stars. cbv zeta. fold (few_events stargazers).
  destruct (few_events stargazers).
  2:{ eexists _, _. split; [reflexivity|]. split; [now left|].
      split; [discriminate|]. reflexivity. }
  destruct (Z.gtb_spec (days_between today (created_at repo_data)) 0)
    as [Hage|Hage].
  2:{ eexists _, _. split; [reflexivity|]. split; [now left|].
      split; [|discriminate]. intros _. split; lia. }
  assert (Hd : days_between today (created_at repo_data) <> 0) by lia.
  rewrite (bind_ok _ (truediv_ok (stargazers_count repo_data) g Hd)).
  unfold bind, random. eexists _, _. split; [reflexivity|].
  split; [now right|]. split; [|discriminate].
  intros _. split; lia.
Qed.

(** What one iteration appends. *)
Lemma daily_step_value i ds df g :
  exists rs rf g',
    daily_step repo_data stargazers today i (ds, df) g
    = Ok (ds ++ [rs], df ++ [rf], g')
    /\ (unit_draws g -> unit_draws g')
    /\ day_facts repo_data stargazers today (unit_draws g) rs rf.
Proof.
  unfold daily_step, day_facts, max_daily. cbv zeta.
  destruct (day_stars_value i (sub_days today i) g)
    as (vs & g1 & Hvs & Hg1 & Hfew & Hmany).
  rewrite (bind_ok _ Hvs).
  assert (Hd : Z.max 1 (stargazers_count repo_data) <> 0) by lia.
  rewrite (bind_ok _ (truediv_ok (forks_count repo_data) g1 Hd)).
  unfold bind, random.
  eexists _, _, _. split; [reflexivity|]. cbn [value daily_date].
  assert (Hvs0 : 0 <= vs).
  { destruct (few_events stargazers) eqn:E.
    - destruct (Hfew eq_refl) as [? _]. lia.
    - rewrite (Hmany eq_refl). apply events_on_nonneg. }
  assert (Hunit : unit_draws g -> unit_draws g1).
  { intros H. destruct Hg1 as [-> | ->]; trivial.
    now apply unit_draws_shift. }
  split; [intros H; apply unit_draws_shift; auto|].
  split; [reflexivity|]. split; [|split].
  - intros E. destruct (Hfew E) as [Hb Hz]. split; [exact Hb|].
    intros Hage. rewrite (Hz Hage). split; [reflexivity|].
    rewrite trunc_zero; [reflexivity|].
    unfold of_int. change (inject_Z 0) with 0%Q. now rewrite !Qmult_0_l.
  - exact Hmany.
  - intros Hu. specialize (Hunit Hu). destruct (Hunit 0%nat) as [Hr0 Hr1].
    split; [lia|]. apply Z.max_lub; [exact Hvs0|].
    apply trunc_le_int; [|exact Hvs0].
    set (r := g1 0%nat) in *.
    set (ratio := (of_int (forks_count repo_data)
                   / of_int (Z.max 1 (stargazers_count repo_data)))%Q).
    assert (Hmin : (Qmin 0.3 ratio <= 0.3)%Q) by apply Q.le_min_l.
    assert (Hv : (0 <= of_int vs)%Q) by now apply of_int_nonneg.
    set (m := Qmin 0.3 ratio) in *. set (v := of_int vs) in *.
    assert (Hf : (m * (0.8 + r * 0.4) <= 1)%Q).
    { destruct (Qlt_le_dec m 0) as [Hm|Hm].
      - assert (m * (0.8 + r * 0.4) <= 0)%Q; [|Lqa.lra].
        rewrite <- (Qmult_0_l (0.8 + r * 0.4)).
        apply Qmult_le_compat_r; Lqa.lra.
      - apply Qle_trans with (0.3 * (0.8 + r * 0.4))%Q; [|Lqa.lra].
        apply Qmult_le_compat_r; Lqa.lra. }
    rewrite <- Qmult_assoc.
    rewrite <- (Qmult_1_r v) at 2.
    rewrite !(Qmult_comm v). apply Qmult_le_compat_r; trivial.
Qed.

Lemma daily_loop_values (unit : Prop) days :
  forall ds df g,
    (unit -> unit_draws g) ->
    Forall2 (day_facts repo_data stargazers today unit) ds df ->
    exists ds' df' g',
      for_each days (daily_step repo_data stargazers today) (ds, df) g
      = Ok (ds', df', g')
      /\ (unit -> unit_draws g')
      /\ Forall2 (day_facts repo_data stargazers today unit) ds' df'.
Proof.
  induction days as [|i days IH]; intros ds df g Hg Hfacts.
  - exists ds, df, g. auto.
  - cbn [for_each].
    destruct (daily_step_value i ds df g)
      as (rs & rf & g1 & Hstep & Hg1 & Hd & Hfew & Hmany & Hle).
    rewrite (bind_ok _ Hstep). apply IH; [tauto|].
    apply Forall2_app; trivial. constructor; [|constructor].
    unfold day_facts. tauto.
Qed.

Lemma Forall2_left {A B} (P : A -> Prop) (l : list A) (l' : list B) :
  Forall2 (fun a _ => P a) l l' -> Forall P l.
Proof. induction 1; constructor; trivial. Qed.

Lemma Forall2_right {A B} (P : B -> Prop) (l : list A) (l' : list B) :
  Forall2 (fun _ b => P b) l l' -> Forall P l'.
Proof. induction 1; constructor; trivial. Qed.

Lemma generate_daily_analytics_values (unit : Prop) g :
  (unit -> unit_draws g) ->
  exists d g',
    generate_daily_analytics repo_data stargazers today g = Ok (d, g')
    /\ Forall2 (day_facts repo_data stargazers today unit)
         (daily_stars d) (daily_forks d).
Proof.
  intros Hg. unfold generate_daily_analytics.
  destruct (daily_loop_values unit (range_down 30 (-1)) [] [] g Hg
              ltac:(constructor))
    as (ds & df & g' & Hrun & _ & Hfacts).
  rewrite (bind_ok _ Hrun). now eexists _, _.
Qed.

(** With random draws in [0, 1), no day of the window shows more forks than
    stars, and no value is negative. *)
Theorem daily_forks_within_stars g :
  unit_draws g ->
  exists d g',
    generate_daily_analytics repo_data stargazers today g = Ok (d, g')
    /\ Forall2 (fun rs rf => daily_date rs = daily_date rf
                             /\ 0 <= value rf <= value rs)
         (daily_stars d) (daily_forks d).
Proof.
  intros Hg.
  destruct (generate_daily_analytics_values (unit_draws g) g (fun H => H))
    as (d & g' & Hrun & Hfacts).
  exists d, g'. split; [exact Hrun|].
  eapply Forall2_impl; [|exact Hfacts].
  intros rs rf (Hd & _ & _ & Hle). auto.
Qed.

(** With fewer than ten star events every day is modelled: its stars lie
    between 0 and the cap max(1, stars // 20), and a repository less than a
    day old shows no stars and no forks at all. *)
Theorem daily_modelled_cap g :
  few_events stargazers = true ->
  exists d g',
    generate_daily_analytics repo_data stargazers today g = Ok (d, g')
    /\ Forall (fun r => 0 <= value r <= max_daily repo_data) (daily_stars d)
    /\ (days_between today (created_at repo_data) <= 0 ->
        Forall (fun r => value r = 0) (daily_stars d)
        /\ Forall (fun r => value r = 0) (daily_forks d)).
Proof.
  intros Hfew.
  destruct (generate_daily_analytics_values False g ltac:(contradiction))
    as (d & g' & Hrun & Hfacts).
  exists d, g'. split; [exact Hrun|]. split; [|intros Hage; split].
  - apply (Forall2_left _ _ (daily_forks d)).
    eapply Forall2_impl; [|exact Hfacts].
    intros rs rf (_ & H & _). now apply H.
  - apply (Forall2_left _ _ (daily_forks d)).
    eapply Forall2_impl; [|exact Hfacts].
    intros rs rf (_ & H & _). now apply H.
  - apply (Forall2_right _ (daily_stars d)).
    eapply Forall2_impl; [|exact Hfacts].
    intros rs rf (_ & H & _). now apply H.
Qed.

(** With ten star events or more the window shows the real events: the
    stars of a day are the events that carry its date. *)
Theorem daily_real_counts g :
  few_events stargazers = false ->
  exists d g',
    generate_daily_analytics repo_data stargazers today g = Ok (d, g')
    /\ Forall (fun r => value r = events_on stargazers (daily_date r))
         (daily_stars d).
Proof.
  intros Hmany.
  destruct (generate_daily_analytics_values False g ltac:(contradiction))
    as (d & g' & Hrun & Hfacts).
  exists d, g'. split; [exact Hrun|].
  apply (Forall2_left _ _ (daily_forks d)).
  eapply Forall2_impl; [|exact Hfacts].
  intros rs rf (_ & _ & H & _). now apply H.
Qed.

End DailyValues.

(** Every draw is 0.5. *)
Lemma daily_forks_within_stars_witness :
  exists d g',
    generate_daily_analytics Samples.repo_react [] Samples.tenth_of_april
      Samples.half = Ok (d, g')
    /\ Forall2 (fun rs rf => daily_date rs = daily_date rf
                             /\ 0 <= value rf <= value rs)
         (daily_stars d) (daily_forks d).
Proof.
  apply daily_forks_within_stars.
  intros n. unfold Samples.half. split; [discriminate|reflexivity].
Defined.

(** No star event at all. *)
Lemma daily_modelled_cap_witness :
  exists d g',
    generate_daily_analytics Samples.repo_react [] Samples.tenth_of_april
      Samples.half = Ok (d, g')
    /\ Forall (fun r => 0 <= value r <= max_daily Samples.repo_react)
         (daily_stars d)
    /\ (days_between Samples.tenth_of_april (created_at Samples.repo_react)
        <= 0 ->
        Forall (fun r => value r = 0) (daily_stars d)
        /\ Forall (fun r => value r = 0) (daily_forks d)).
Proof.
  apply daily_modelled_cap. reflexivity.
Defined.

(** Ten star events of one day. *)
Lemma daily_real_counts_witness :
  exists d g',
    generate_daily_analytics Samples.repo_react MoreSamples.ten_events
      Samples.tenth_of_april Samples.half = Ok (d, g')
    /\ Forall (fun r => value r
                        = events_on MoreSamples.ten_events (daily_date r))
         (daily_stars d).
Proof.
  apply daily_real_counts. reflexivity.
Defined.
End DailyValueFacts.

(** ** The classifier *)

Section ClassifierFacts.
Open Scope Z_scope.
Open Scope string_scope.
(** The classification reads the description and the name through their
    lower-case forms only, and nothing but these, the fork flag and the
    language: two repositories that differ in letter case, or in any other
    field, are classified alike. *)
Theorem classification_ignores_case r1 r2 languages1 languages2 :
  lower (match description r1 with Some s => s | None => "" end)
  = lower (match description r2 with Some s => s | None => "" end) ->
  lower (name r1) = lower (name r2) ->
  fork r1 = fork r2 ->
  language r1 = language r2 ->
  classify_repository r1 languages1 = classify_repository r2 languages2.
Proof.
  intros Hd Hn Hf Hl. unfold classify_repository. cbv zeta.
  now rewrite Hd, Hn, Hf, Hl.
Qed.

(** The type is never left "Unknown": a fork is a "Fork" whatever its
    description says, and any other repository is a "Library", a "Template"
    or a "Project". *)
Theorem classification_type_decided repo_data languages :
  (fork repo_data = true ->
   type (classify_repository repo_data languages) = "Fork")
  /\ (fork repo_data = false ->
      type (classify_repository repo_data languages) = "Library"
      \/ type (classify_repository repo_data languages) = "Template"
      \/ type (classify_repository repo_data languages) = "Project")
  /\ type (classify_repository repo_data languages) <> "Unknown".
Proof.
  unfold classify_repository. cbv zeta. cbn [type].
  destruct (fork repo_data).
  - split; [reflexivity|]. split; [discriminate|discriminate].
  - split; [discriminate|].
    destruct (any _ ["library"; "package"; "npm"; "pip"]).
    + split; [auto|discriminate].
    + destruct (any _ ["template"; "boilerplate"; "starter"]).
      * split; [auto|discriminate].
      * split; [auto|discriminate].
Qed.

(** A repository without a description, or with an empty one, has no
    category, and is a "Fork" or a "Project"; only its name can give it a
    framework. *)
Theorem classification_without_description repo_data languages :
  description repo_data = None \/ description repo_data = Some "" ->
  category (classify_repository repo_data languages) = "Unknown"
  /\ type (classify_repository repo_data languages)
     = (if fork repo_data then "Fork" else "Project").
Proof.
  intros H. unfold classify_repository. cbv zeta. cbn [category type].
  assert (E : lower (match description repo_data with
                     | Some s => s | None => "" end) = "").
  { destruct H as [-> | ->]; reflexivity. }
  rewrite E. split; [reflexivity|]. destruct (fork repo_data); reflexivity.
Qed.

(** The same repository in capitals. *)
Lemma classification_ignores_case_witness :
  classify_repository Samples.repo_react []
  = classify_repository MoreSamples.repo_react_capitals [("Go", 1)].
Proof.
  apply classification_ignores_case; reflexivity.
Defined.

(** A repository without a description. *)
Lemma classification_without_description_witness :
  category (classify_repository Samples.repo_empty []) = "Unknown"
  /\ type (classify_repository Samples.repo_empty [])
     = (if fork Samples.repo_empty then "Fork" else "Project").
Proof.
  apply classification_without_description. now left.
Defined.
End ClassifierFacts.

(** ** The legacy monthly view *)

Section LegacyFacts.
Open Scope Z_scope.
Section LegacySeries.

Variable repo_data : RepositorySnapshot.

Lemma fold_count_shift {A} (p : A -> bool) (l : list A) (a : Z) :
  fold_left (fun n x => if p x then n + 1 else n) l a
  = a + fold_left (fun n x => if p x then n + 1 else n) l 0.
Proof.
  revert a. induction l as [|x l IH]; intros a; simpl; [lia|].
  destruct (p x); [rewrite IH, (IH 1)|rewrite IH]; lia.
Qed.

Lemma month_events_count stargazers m :
  month_events stargazers m
  = fold_left (fun n x => if in_month m x then n + 1 else n) stargazers 0.
Proof.
  unfold month_events. generalize 0.
  induction stargazers as [|s l IH]; intros a; simpl; [reflexivity|].
  rewrite IH. destruct s; reflexivity.
Qed.

Lemma dated_events_count stargazers :
  dated_events stargazers
  = fold_left (fun n x => if is_dated x then n + 1 else n) stargazers 0.
Proof.
  unfold dated_events. generalize 0.
  induction stargazers as [|s l IH]; intros a; simpl; [reflexivity|].
  rewrite IH. destruct s; reflexivity.
Qed.

Lemma month_events_cons s l m :
  month_events (s :: l) m
  = (if in_month m s then 1 else 0) + month_events l m.
Proof.
  rewrite !month_events_count. simpl. rewrite fold_count_shift.
  destruct (in_month m s); reflexivity.
Qed.

Lemma dated_events_cons s l :
  dated_events (s :: l) = (if is_dated s then 1 else 0) + dated_events l.
Proof.
  rewrite !dated_events_count. simpl. rewrite fold_count_shift.
  destruct (is_dated s); reflexivity.
Qed.

Lemma month_dict_ext f f' :
  (forall m, 1 <= m <= 12 -> f m = f' m) -> month_dict f = month_dict f'.
Proof.
  intros H. unfold month_dict, month_numbers. cbn [map].
  rewrite !H by lia. reflexivity.
Qed.

(** The counting loop of lines 399-408 on a dictionary of twelve months. *)
Lemma count_legacy_stars stargazers :
  well_dated stargazers ->
  forall f n g,
    for_each stargazers count_legacy_star (month_dict f, n) g
    = Ok (month_dict (fun m => f m + month_events stargazers m),
          n + dated_events stargazers, g).
Proof.
  induction 1 as [|s l Hs Hl IH]; intros f n g.
  - cbn [for_each]. unfold ret. rewrite Z.add_0_r.
    f_equal. f_equal. f_equal. apply month_dict_ext. intros m _.
    unfold month_events. simpl. lia.
  - cbn [for_each].
    assert (Hstep : count_legacy_star s (month_dict f, n) g
                    = Ok (month_dict (fun m => f m + (if in_month m s then 1 else 0)),
                          n + (if is_dated s then 1 else 0), g)).
    { destruct s as [| |t]; cbn [count_legacy_star in_month is_dated].
      - unfold ret. rewrite Z.add_0_r. f_equal. f_equal. f_equal.
        apply month_dict_ext. intros; lia.
      - unfold ret. rewrite Z.add_0_r. f_equal. f_equal. f_equal.
        apply month_dict_ext. intros; lia.
      - rewrite (month_dict_ext
                   (fun m => f m + (if month t =? m then 1 else 0))
                   (fun m => if month t =? m then f m + 1 else f m))
          by (intros m _; destruct (month t =? m); lia).
        unfold strftime_b.
        assert (Hc : month t = 1 \/ month t = 2 \/ month t = 3 \/ month t = 4
                     \/ month t = 5 \/ month t = 6 \/ month t = 7
                     \/ month t = 8 \/ month t = 9 \/ month t = 10
                     \/ month t = 11 \/ month t = 12) by lia.
        repeat (destruct Hc as [->|Hc]); try rewrite Hc;
          lazy - [Z.add]; reflexivity. }
    rewrite (bind_ok _ Hstep), IH. f_equal. f_equal. f_equal.
    + apply month_dict_ext. intros m _. rewrite month_events_cons. lia.
    + rewrite dated_events_cons. lia.
Qed.

Lemma month_events_total stargazers :
  well_dated stargazers ->
  sum (map (month_events stargazers) month_numbers) = dated_events stargazers.
Proof.
  induction 1 as [|s l Hs Hl IH].
  - reflexivity.
  - revert IH. unfold sum, month_numbers. cbn [map fold_left].
    rewrite !month_events_cons, dated_events_cons. intros IH.
    destruct s as [| |t]; cbn [in_month is_dated]; [lia|lia|].
    revert Hs. generalize (month t). intros x Hx.
    assert (Hc : x = 1 \/ x = 2 \/ x = 3 \/ x = 4 \/ x = 5 \/ x = 6
                 \/ x = 7 \/ x = 8 \/ x = 9 \/ x = 10 \/ x = 11 \/ x = 12)
      by lia.
    clear Hx.
    repeat (destruct Hc as [->|Hc]); try subst x;
      cbn [Z.eqb Pos.eqb]; lia.
Qed.

(** [int(q)] of a non-negative fraction is the integer quotient. *)
Lemma trunc_fraction q n d :
  0 <= n -> (q == n # d)%Q -> trunc q = n / Z.pos d.
Proof.
  intros Hn Hq. destruct q as [a b].
  assert (Hq0 : 0 <= a).
  { unfold Qeq in Hq. cbn [Qnum Qden] in Hq. nia. }
  unfold trunc. cbn [Qnum Qden]. rewrite Z.quot_div_nonneg by lia.
  change (Qfloor (a # b) = Qfloor (n # d)).
  now apply Qfloor_comp.
Qed.

(** [int(b * (0.5 + (i + 1) / 12))] is the integer quotient of
    [b * (i + 7)] by 12. *)
Lemma legacy_month_value b i :
  0 <= b -> 0 <= i ->
  trunc (of_int b * (0.5 + of_int (i + 1) / 12)) = b * (i + 7) / 12.
Proof.
  intros Hb Hi. apply (trunc_fraction _ (b * (i + 7)) 12); [nia|].
  unfold of_int, Qeq, Qdiv, Qinv, Qmult, Qplus, inject_Z.
  cbn [Qnum Qden]. lia.
Qed.

Lemma floor_twelfth n : 12 * (n / 12) <= n <= 12 * (n / 12) + 12.
Proof.
  pose proof (Z.div_mod n 12 ltac:(lia)).
  pose proof (Z.mod_pos_bound n 12 ltac:(lia)). lia.
Qed.

(** The legacy star series never faults, draws no random number and has
    the twelve months of the year in order.  When the dated events are
    fewer than 10%% of the stars, month [i] holds the twelfth part of
    [legacy_base * (i + 7)], rounded down and at most one below that, and
    the series never decreases along the year; otherwise each month holds
    the events of that month, whatever their year, and the series sums to
    the number of dated events. *)
Theorem legacy_stars_series stargazers g :
  well_dated stargazers ->
  exists l,
    legacy_monthly_stars repo_data stargazers g = Ok (l, g)
    /\ map (@entry_key string) l = months
    /\ (Qlt_bool (of_int (dated_events stargazers))
                 (of_int (stargazers_count repo_data) * 0.1) = true ->
        Forall2 (fun i v =>
                   12 * v <= legacy_base repo_data * (i + 7) <= 12 * v + 12)
          (range 12) (entry_values l)
        /\ StronglySorted Z.le (entry_values l))
    /\ (Qlt_bool (of_int (dated_events stargazers))
                 (of_int (stargazers_count repo_data) * 0.1) = false ->
        entry_values l = map (month_events stargazers) month_numbers
        /\ sum (entry_values l) = dated_events stargazers).
Proof.
  intros Hwd. unfold legacy_monthly_stars. cbv zeta.
  change (fold_left (fun d month => dict_set month 0 d) months [])
    with (month_dict (fun _ => 0)).
  rewrite (bind_ok _ (count_legacy_stars stargazers Hwd (fun _ => 0) 0 g)).
  rewrite Z.add_0_l.
  destruct (Qlt_bool _ _) eqn:Etest.
  - eexists. split; [reflexivity|]. split; [reflexivity|].
    split; [|discriminate]. intros _.
    assert (Hb : 0 <= legacy_base repo_data) by (unfold legacy_base; lia).
    match goal with
    | |- Forall2 _ _ (entry_values ?l) /\ _ =>
        assert (Hvalues :
          entry_values l
          = map (fun i => trunc (of_int (legacy_base repo_data)
                                 * (0.5 + of_int (i + 1) / 12)))
              [0; 1; 2; 3; 4; 5; 6; 7; 8; 9; 10; 11]) by reflexivity;
        rewrite Hvalues; clear Hvalues
    end.
    change (range 12) with [0; 1; 2; 3; 4; 5; 6; 7; 8; 9; 10; 11].
    cbn [map]. rewrite !legacy_month_value by lia.
    split.
    + repeat (constructor; [apply floor_twelfth|]). constructor.
    + repeat (constructor;
              [|repeat (constructor;
                        [apply Z.div_le_mono; [lia|nia]|]);
                constructor]).
      constructor.
  - eexists. split; [reflexivity|]. split; [reflexivity|].
    split; [discriminate|]. intros _. split; [reflexivity|].
    rewrite <- (month_events_total stargazers Hwd). reflexivity.
Qed.

End LegacySeries.

(** One dated event among three. *)
Lemma legacy_stars_series_witness :
  exists l,
    legacy_monthly_stars Samples.repo_react MoreSamples.mixed_events
      Samples.half = Ok (l, Samples.half)
    /\ map (@entry_key string) l = months
    /\ (Qlt_bool (of_int (dated_events MoreSamples.mixed_events))
                 (of_int (stargazers_count Samples.repo_react) * 0.1) = true ->
        Forall2 (fun i v =>
                   12 * v <= legacy_base Samples.repo_react * (i + 7)
                   <= 12 * v + 12)
          (range 12) (entry_values l)
        /\ StronglySorted Z.le (entry_values l))
    /\ (Qlt_bool (of_int (dated_events MoreSamples.mixed_events))
                 (of_int (stargazers_count Samples.repo_react) * 0.1) = false ->
        entry_values l = map (month_events MoreSamples.mixed_events)
                           month_numbers
        /\ sum (entry_values l) = dated_events MoreSamples.mixed_events).
Proof.
  apply legacy_stars_series.
  unfold well_dated, MoreSamples.mixed_events.
  repeat constructor; simpl; lia.
Defined.

(** The legacy fork and clone series have the twelve months in order; a
    month never shows more forks than the repository has, shows at least one
    fork as soon as the repository has one, and shows at least one clone. *)
Theorem legacy_forks_and_clones repo_data :
  map (@entry_key string) (legacy_monthly_forks repo_data) = months
  /\ map (@entry_key string) (legacy_monthly_clones repo_data) = months
  /\ Forall (fun v => v <= forks_count repo_data
                      /\ (1 <= forks_count repo_data -> 1 <= v))
            (entry_values (legacy_monthly_forks repo_data))
  /\ Forall (fun v => 1 <= v) (entry_values (legacy_monthly_clones repo_data)).
Proof.
  split; [reflexivity|]. split; [reflexivity|]. split.
  - unfold legacy_monthly_forks, entry_values. cbv zeta.
    rewrite map_map. apply Forall_forall. intros v Hv.
    apply in_map_iff in Hv. destruct Hv as ([i m] & <- & Hin).
    cbn [entry_value].
    assert (Hi : 0 <= i mod 3) by (apply Z.mod_pos_bound; lia).
    split; [lia|]. intros Hf. nia.
  - unfold legacy_monthly_clones, entry_values. cbv zeta.
    rewrite map_map. apply Forall_forall. intros v Hv.
    apply in_map_iff in Hv. destruct Hv as ([i m] & <- & Hin).
    cbn [entry_value]. lia.
Qed.
End LegacyFacts.

(** ** The country distribution *)

Section CountryFacts.
Open Scope Z_scope.
Section CountryShares.

Lemma dict_get_Forall {V} (P : V -> Prop) k (d : dict V) v :
  Forall (fun kv => P (snd kv)) d -> dict_get k d = Some v -> P v.
Proof.
  induction 1 as [|[k' v'] d Hv Hd IH]; simpl; [discriminate|].
  destruct (String.eqb k k'); [now intros [= <-]|exact IH].
Qed.

Lemma dict_set_Forall {V} (P : V -> Prop) k v (d : dict V) :
  P v -> Forall (fun kv => P (snd kv)) d ->
  Forall (fun kv => P (snd kv)) (dict_set k v d).
Proof.
  intros Hv. induction 1 as [|[k' v'] d Hv' Hd IH]; simpl.
  - now repeat constructor.
  - destruct (String.eqb k k'); constructor; auto.
Qed.

Lemma Forall_firstn_list {A} (P : A -> Prop) n (l : list A) :
  Forall P l -> Forall P (firstn n l).
Proof.
  rewrite !Forall_forall. intros H e He. apply H.
  rewrite <- (firstn_skipn n l). apply in_or_app. now left.
Qed.

Lemma contributor_countries_nonneg contributors :
  counted contributors ->
  Forall (fun kv => 0 <= snd kv) (contributor_countries contributors).
Proof.
  intros Hc. unfold contributor_countries.
  destruct (_ && _); [|constructor].
  apply (Forall_firstn_list _ 50) in Hc.
  assert (Hinit : Forall (fun kv : string * Z => 0 <= snd kv) [])
    by constructor.
  revert Hinit. generalize (@nil (string * Z)).
  induction Hc as [|c l Hc Hl IH]; intros d Hd; simpl; [exact Hd|].
  apply IH. apply (dict_set_Forall (fun v => 0 <= v)); [|exact Hd].
  assert (0 <= match dict_get
                       (country_of_login
                          match login c with Some s => s | None => ""%string end)
                       d with Some v => v | None => 0 end).
  { destruct (dict_get _ d) as [v|] eqn:E; [|lia].
    exact (dict_get_Forall (fun v => 0 <= v) _ _ _ Hd E). }
  destruct (contributions c); lia.
Qed.

Lemma fallback_countries_nonneg repo_data d :
  Forall (fun kv => 0 <= snd kv) d ->
  Forall (fun kv => 0 <= snd kv) (fallback_countries repo_data d).
Proof.
  intros Hd. unfold fallback_countries. destruct d; [|exact Hd].
  cbv zeta. generalize countries_data. intros l. revert Hd.
  generalize (@nil (string * Z)).
  induction l as [|[country percentage] l IH]; intros d Hd; simpl; [exact Hd|].
  apply IH. destruct (Z.gtb_spec (trunc (of_int (stargazers_count repo_data)
                                         * percentage)) 0); [|exact Hd].
  apply (dict_set_Forall (fun v => 0 <= v)); [lia|exact Hd].
Qed.

(** The share [int(n * (c / t))] of a total [n] is the integer quotient
    [n * c / t]. *)
Lemma share_trunc n c t :
  0 <= n -> 0 <= c -> 0 < t ->
  trunc (of_int n * (of_int c / of_int t)) = n * c / t.
Proof.
  intros Hn Hc Ht. destruct t as [|t|t]; try lia.
  unfold trunc, of_int, Qdiv, Qinv, Qmult, inject_Z. cbn [Qnum Qden].
  rewrite Z.mul_1_r, !Pos.mul_1_l.
  apply Z.quot_div_nonneg; [nia|lia].
Qed.

Lemma insert_desc_sum {K} (x : Entry K) l :
  sum (entry_values (insert_desc x l)) = entry_value x + sum (entry_values l).
Proof.
  unfold entry_values. induction l as [|y l IH]; simpl.
  - now rewrite sum_cons.
  - destruct (entry_value y >? entry_value x); simpl.
    + rewrite !sum_cons, IH. lia.
    + now rewrite !sum_cons.
Qed.

Lemma sort_desc_sum {K} (l : list (Entry K)) :
  sum (entry_values (sort_desc l)) = sum (entry_values l).
Proof.
  induction l as [|x l IH]; simpl; [reflexivity|].
  rewrite insert_desc_sum. unfold entry_values in *. simpl.
  rewrite sum_cons. lia.
Qed.

Lemma firstn_sum_le n (l : list Z) :
  Forall (fun v => 0 <= v) l -> 0 <= sum (firstn n l) <= sum l.
Proof.
  intros H. revert n. induction H as [|x l Hx Hl IH]; intros [|n]; simpl;
    rewrite ?sum_cons, ?sum_nil; try lia.
  - specialize (IH 0%nat). simpl in IH. rewrite sum_nil in IH. lia.
  - specialize (IH n). lia.
Qed.

Lemma top8_sum {K} (l : list (Entry K)) :
  Forall (fun e => 0 < entry_value e) l ->
  sum (entry_values (firstn 8 (sort_desc l))) <= sum (entry_values l).
Proof.
  intros H. rewrite <- (sort_desc_sum l). unfold entry_values.
  rewrite <- firstn_map. apply firstn_sum_le.
  apply Forall_map. apply sort_desc_Forall.
  eapply Forall_impl; [|exact H]. simpl. intros; lia.
Qed.

Variable repo_data : RepositorySnapshot.
Hypothesis stars_nonneg : 0 <= stargazers_count repo_data.
Hypothesis forks_nonneg : 0 <= forks_count repo_data.

(** The loop of lines 503-515 over items of non-negative weight. *)
Lemma country_items_sum t xs :
  0 < t -> Forall (fun kv : string * Z => 0 <= snd kv) xs ->
  forall cs cf cc g,
    Forall (fun e => 0 < entry_value e) cs ->
    Forall (fun e => 0 < entry_value e) cf ->
    exists cs' cf' cc',
      for_each xs (country_item repo_data t) (cs, cf, cc) g
      = Ok ((cs', cf', cc'), g)
      /\ Forall (fun e => 0 < entry_value e) cs'
      /\ Forall (fun e => 0 < entry_value e) cf'
      /\ sum (entry_values cs') * t
         <= sum (entry_values cs) * t
            + stargazers_count repo_data * sum (map snd xs)
      /\ sum (entry_values cf') * t
         <= sum (entry_values cf) * t
            + forks_count repo_data * sum (map snd xs).
Proof.
  intros Ht. induction 1 as [|[country c] xs Hc Hxs IH];
    intros cs cf cc g Hcs Hcf.
  - exists cs, cf, cc. simpl. rewrite sum_nil. repeat split; trivial; lia.
  - simpl in Hc. cbn [for_each]. unfold country_item at 1.
    destruct (Z.gtb_spec t 0) as [_|]; [|lia].
    assert (Hd : t <> 0) by lia.
    rewrite (bind_ok _ (bind_ok _ (truediv_ok c g Hd))).
    rewrite !share_trunc by lia.
    set (cs1 := if stargazers_count repo_data * c / t >? 0 then _ else cs).
    set (cf1 := if forks_count repo_data * c / t >? 0 then _ else cf).
    set (cc1 := if c * 10 >? 0 then _ else cc).
    assert (Hs : 0 <= stargazers_count repo_data * c / t * t
                 <= stargazers_count repo_data * c).
    { split; [apply Z.mul_nonneg_nonneg; [apply Z.div_pos|]; nia|].
      rewrite Z.mul_comm. apply Z.mul_div_le. lia. }
    assert (Hf : 0 <= forks_count repo_data * c / t * t
                 <= forks_count repo_data * c).
    { split; [apply Z.mul_nonneg_nonneg; [apply Z.div_pos|]; nia|].
      rewrite Z.mul_comm. apply Z.mul_div_le. lia. }
    assert (Hcs1 : Forall (fun e => 0 < entry_value e) cs1
                   /\ sum (entry_values cs1) * t
                      <= sum (entry_values cs) * t
                         + stargazers_count repo_data * c).
    { unfold cs1. destruct (Z.gtb_spec (stargazers_count repo_data * c / t) 0).
      - split.
        + apply Forall_app. split; trivial. constructor; [simpl; lia|constructor].
        + unfold entry_values. rewrite map_app, sum_app. simpl.
          rewrite sum_cons, sum_nil. lia.
      - split; trivial. nia. }
    assert (Hcf1 : Forall (fun e => 0 < entry_value e) cf1
                   /\ sum (entry_values cf1) * t
                      <= sum (entry_values cf) * t
                         + forks_count repo_data * c).
    { unfold cf1. destruct (Z.gtb_spec (forks_count repo_data * c / t) 0).
      - split.
        + apply Forall_app. split; trivial. constructor; [simpl; lia|constructor].
        + unfold entry_values. rewrite map_app, sum_app. simpl.
          rewrite sum_cons, sum_nil. lia.
      - split; trivial. nia. }
    destruct Hcs1 as [Hp1 Hb1], Hcf1 as [Hp2 Hb2].
    destruct (IH cs1 cf1 cc1 g Hp1 Hp2)
      as (cs' & cf' & cc' & Hrun & Hp1' & Hp2' & Hb1' & Hb2').
    exists cs', cf', cc'. split; [exact Hrun|].
    cbn [map snd]. rewrite sum_cons. repeat split; trivial; lia.
Qed.

(** The stars of the country list never add up to more than the stars of
    the repository, and the forks to no more than its forks. *)
Theorem country_shares_within_totals contributors g :
  counted contributors ->
  exists s,
    country_series repo_data contributors g = Ok (s, g)
    /\ 0 <= sum (entry_values (series_stars s)) <= stargazers_count repo_data
    /\ 0 <= sum (entry_values (series_forks s)) <= forks_count repo_data.
Proof.
  intros Hc. unfold country_series. cbv zeta.
  set (dist := fallback_countries repo_data _).
  assert (Hdist : Forall (fun kv => 0 <= snd kv) dist).
  { apply fallback_countries_nonneg, contributor_countries_nonneg, Hc. }
  set (t := sum (dict_values dist)).
  assert (Hlow : forall l : list (Entry string),
            Forall (fun e => 0 < entry_value e) l ->
            0 <= sum (entry_values (firstn 8 (sort_desc l)))).
  { intros l Hl. unfold entry_values. rewrite <- firstn_map.
    apply firstn_sum_le. apply Forall_map, sort_desc_Forall.
    eapply Forall_impl; [|exact Hl]. simpl. intros; lia. }
  destruct (Z_lt_le_dec 0 t) as [Ht|Ht].
  - destruct (country_items_sum t dist Ht Hdist [] [] [] g)
      as (cs & cf & cc & Hrun & Hp1 & Hp2 & Hb1 & Hb2); try constructor.
    rewrite (bind_ok _ Hrun). eexists. split; [reflexivity|].
    cbn [series_stars series_forks].
    pose proof (top8_sum cs Hp1). pose proof (top8_sum cf Hp2).
    pose proof (Hlow cs Hp1). pose proof (Hlow cf Hp2).
    change (sum (map snd dist)) with t in Hb1, Hb2.
    change (sum (entry_values (@nil (Entry string)))) with 0 in Hb1, Hb2.
    nia.
  - assert (Hrun : forall xs acc,
              for_each xs (country_item repo_data t) acc g = Ok (acc, g)).
    { induction xs as [|[country c] xs IH]; intros [[cs cf] cc]; simpl;
        [reflexivity|].
      destruct (Z.gtb_spec t 0); [lia|]. unfold bind, ret. apply IH. }
    rewrite (bind_ok _ (Hrun dist _)). eexists. split; [reflexivity|].
    simpl. rewrite sum_nil. lia.
Qed.

End CountryShares.

Lemma trunc_below_one q : (q < 1)%Q -> trunc q <= 0.
Proof.
  intros Hq. unfold trunc. unfold Qlt in Hq. simpl in Hq.
  destruct (Z.le_gt_cases 0 (Qnum q)) as [Hpos|Hneg].
  - rewrite Z.quot_small; lia.
  - assert (0 <= Z.quot (- Qnum q) (Z.pos (Qden q)))
      by (apply Z.quot_pos; lia).
    rewrite Z.quot_opp_l in H by lia. lia.
Qed.

(** A repository with fewer than three stars and no contributor listing has
    no country data at all: every default share rounds down to zero, the
    total weight is zero and the loop over the countries adds nothing. *)
Theorem countries_empty_below_three_stars repo_data g :
  stargazers_count repo_data < 3 ->
  country_series repo_data [] g
  = Ok ({| series_stars := []; series_forks := []; series_clones := [] |}, g).
Proof.
  intros Hs. unfold country_series.
  change (contributor_countries []) with (@nil (string * Z)). cbv zeta.
  assert (Hshare : forall p : Q,
            (p <= 0.35)%Q -> (0 <= p)%Q ->
            (trunc (of_int (stargazers_count repo_data) * p) >? 0) = false).
  { intros p Hp Hp0. destruct (Z.gtb_spec (trunc
      (of_int (stargazers_count repo_data) * p)) 0) as [Hgt|]; [|reflexivity].
    assert (H1 : (of_int (stargazers_count repo_data) <= 2)%Q).
    { unfold of_int. change 2%Q with (inject_Z 2). rewrite <- Zle_Qle. lia. }
    assert (H2 : (of_int (stargazers_count repo_data) * p <= 2 * p)%Q)
      by (apply Qmult_le_compat_r; trivial).
    assert (H3 : (of_int (stargazers_count repo_data) * p < 1)%Q) by Lqa.lra.
    apply trunc_below_one in H3. lia. }
  assert (Ef : fallback_countries repo_data [] = []).
  { unfold fallback_countries, countries_data. cbv zeta. cbn [fold_left].
    rewrite !Hshare by Lqa.lra. reflexivity. }
  rewrite Ef. reflexivity.
Qed.

(** The sample repository with its two contributors. *)
Lemma country_shares_within_totals_witness :
  exists s,
    country_series Samples.repo_react Samples.two_contributors Samples.half
    = Ok (s, Samples.half)
    /\ 0 <= sum (entry_values (series_stars s))
         <= stargazers_count Samples.repo_react
    /\ 0 <= sum (entry_values (series_forks s))
         <= forks_count Samples.repo_react.
Proof.
  apply country_shares_within_totals.
  - simpl. lia.
  - simpl. lia.
  - unfold counted, Samples.two_contributors.
    repeat constructor; simpl; lia.
Defined.

(** No stars and no contributors. *)
Lemma countries_empty_below_three_stars_witness :
  country_series Samples.repo_empty [] Samples.half
  = Ok ({| series_stars := []; series_forks := []; series_clones := [] |},
        Samples.half).
Proof.
  apply countries_empty_below_three_stars. simpl. lia.
Defined.
End CountryFacts.

(** ** [get_github_data] and [test_repo] *)

Section RequestFacts.
Open Scope Z_scope.
Section GithubData.

Variable pow : Q -> Q -> Q.
Variable net : Network.
Variable current_date today timestamp : datetime.

(** When the repository request is answered with a document and the two
    listing requests are answered at all, [get_github_data] returns, whatever
    the traffic, stargazer and contributor-page requests do: their failures
    only empty the data they would have brought. *)
Theorem github_data_returned document contributors languages g :
  repo_reply net = response 200 (Some document) ->
  json_or (contributors_reply net) [] = Some contributors ->
  json_or (languages_reply net) [] = Some languages ->
  valid_datetime (created_at (snapshot document)) ->
  valid_datetime current_date ->
  exists data g',
    get_github_data pow net current_date today timestamp g = Done (data, g')
    /\ generate_real_analytics_data pow (snapshot document)
         (get_stargazers_timeline (stargazers_reply net))
         (get_contributors_data (contributors_page_reply net))
         current_date today g = Ok (data_analytics data, g')
    /\ data_stars data = stargazers_count (snapshot document)
    /\ data_forks data = forks_count (snapshot document)
    /\ data_contributors_count data = len contributors
    /\ data_classification data
       = classify_repository (snapshot document) languages
    /\ data_clones data = get_real_traffic_data (clones_reply net)
    /\ data_views data = get_real_traffic_data (views_reply net)
    /\ test_repo pow net current_date today timestamp g
       = test_success (full_name document) (stargazers_count (snapshot document)).
Proof.
  intros Hrepo Hc Hl Hcreated Hnow.
  destruct (monthly_history_spec pow (snapshot document)
              (get_stargazers_timeline (stargazers_reply net)) current_date
              Hnow Hcreated g)
    as (sim & h & g1 & _ & Hh & _).
  destruct (engine_after_history pow (snapshot document)
              (get_stargazers_timeline (stargazers_reply net))
              (get_contributors_data (contributors_page_reply net))
              current_date today g h g1 Hh) as (b & g2 & Hrun & _).
  assert (Hdata : exists data,
    get_github_data pow net current_date today timestamp g = Done (data, g2)
    /\ data_analytics data = b
    /\ data_full_name data = full_name document
    /\ data_stars data = stargazers_count (snapshot document)
    /\ data_forks data = forks_count (snapshot document)
    /\ data_contributors_count data = len contributors
    /\ data_classification data
       = classify_repository (snapshot document) languages
    /\ data_clones data = get_real_traffic_data (clones_reply net)
    /\ data_views data = get_real_traffic_data (views_reply net)).
  { unfold get_github_data. rewrite Hrepo. cbn [Z.eqb Pos.eqb negb].
    unfold json_or in Hc, Hl.
    destruct (contributors_reply net) as [|cs cb]; [discriminate|].
    destruct (languages_reply net) as [|ls lb]; [discriminate|].
    unfold fetch_and_generate. cbv zeta. rewrite Hrun.
    destruct (cs =? 200), (ls =? 200);
      repeat match goal with
             | H : Some _ = Some _ |- _ => injection H as <-
             | H : ?x = Some _ |- _ => subst x
             end;
      (eexists; split; [reflexivity|]; cbn; repeat split). }
  destruct Hdata as (data & Hdone & Ha & Hn & Hs & Hf & Hcc & Hcl & Hk & Hv).
  exists data, g2. unfold test_repo. rewrite Hdone, Ha, Hn, Hs.
  repeat split; trivial.
Qed.

(** [get_github_data] raises an [HTTPException] exactly when the repository
    request is answered with a status other than 200; it is then the 404
    "Repository not found", and [test_repo] reports an error.  No other
    request can cause an [HTTPException]. *)
Theorem github_data_not_found g :
  ((exists status_code detail,
      get_github_data pow net current_date today timestamp g
      = HTTPException status_code detail)
   <-> (exists status_code body,
          repo_reply net = response status_code body /\ status_code <> 200))
  /\ (forall status_code detail,
        get_github_data pow net current_date today timestamp g
        = HTTPException status_code detail ->
        status_code = 404 /\ detail = "Repository not found"%string
        /\ test_repo pow net current_date today timestamp g = test_error).
Proof.
  assert (Hcases :
    (exists status_code body,
       repo_reply net = response status_code body /\ status_code <> 200
       /\ get_github_data pow net current_date today timestamp g
          = HTTPException 404 "Repository not found")
    \/ ((forall status_code body,
           repo_reply net = response status_code body -> status_code = 200)
        /\ forall status_code detail,
             get_github_data pow net current_date today timestamp g
             <> HTTPException status_code detail)).
  { unfold get_github_data.
    destruct (repo_reply net) as [|status_code body].
    - right. split; [discriminate|]. discriminate.
    - destruct (Z.eqb_spec status_code 200) as [->|Hne]; cbn [negb].
      + right. split; [now intros ? ? [= <- _]|].
        intros s d. destruct body as [document|]; [|discriminate].
        destruct (contributors_reply net) as [|cs cb]; [discriminate|].
        destruct (languages_reply net) as [|ls lb]; [discriminate|].
        destruct (if cs =? 200 then cb else Some []); [|discriminate].
        destruct (if ls =? 200 then lb else Some []); [|discriminate].
        destruct (fetch_and_generate _ _ _ _ _ _) as [[a g']|e]; discriminate.
      + left. now exists status_code, body. }
  split.
  - split.
    + intros (s & d & H). destruct Hcases as [(sc & body & Hr & Hne & _)|[_ Hno]].
      * now exists sc, body.
      * now apply Hno in H.
    + intros (sc & body & Hr & Hne).
      destruct Hcases as [(sc' & body' & Hr' & _ & H)|[Hok _]].
      * eauto.
      * apply Hok in Hr. contradiction.
  - intros s d H. destruct Hcases as [(sc & body & Hr & Hne & H')|[_ Hno]].
    + unfold test_repo. rewrite H' in *. injection H as <- <-. auto.
    + now apply Hno in H.
Qed.

End GithubData.

(** Only the repository and its languages are served. *)
Lemma github_data_returned_witness :
  exists data g',
    get_github_data Samples.linear_pow MoreSamples.degraded_network
      Samples.tenth_of_april Samples.tenth_of_april Samples.tenth_of_april
      Samples.half = Done (data, g')
    /\ data_contributors_count data = 0
    /\ data_stars data = 100
    /\ test_repo Samples.linear_pow MoreSamples.degraded_network
         Samples.tenth_of_april Samples.tenth_of_april Samples.tenth_of_april
         Samples.half
       = test_success "acme/widgets" 100.
Proof.
  destruct (github_data_returned Samples.linear_pow
              MoreSamples.degraded_network
              Samples.tenth_of_april Samples.tenth_of_april
              Samples.tenth_of_april MoreSamples.document_react []
              [("TypeScript"%string, 1000)] Samples.half)
    as (data & g' & Hrun & _ & Hs & _ & Hc & _ & _ & _ & Ht).
  - reflexivity.
  - reflexivity.
  - reflexivity.
  - unfold valid_datetime, valid_date. vm_compute. intuition discriminate.
  - unfold valid_datetime, valid_date. vm_compute. intuition discriminate.
  - exists data, g'. repeat split; assumption.
Defined.
End RequestFacts.

(** ** The connection registry *)

Section RegistryFacts.
Open Scope Z_scope.
Section Registry.

Import ConnectionManager.

Implicit Types (websocket other : WebSocket) (l : list WebSocket).

Lemma list_remove_none websocket l :
  list_remove websocket l = None <-> ~ In websocket l.
Proof.
  induction l as [|y l IH]; simpl.
  - tauto.
  - destruct (Nat.eqb_spec y websocket) as [->|Hne].
    + split; [discriminate|]. intros H. exfalso. apply H. now left.
    + destruct (list_remove websocket l) as [r|].
      * split; [discriminate|]. intros H. exfalso.
        assert (Hn : ~ In websocket l) by tauto.
        apply IH in Hn. discriminate.
      * split; [|reflexivity]. intros _ [H|H]; [congruence|].
        now apply (proj1 IH).
Qed.

Lemma list_remove_split websocket l r :
  list_remove websocket l = Some r ->
  exists l1 l2, l = l1 ++ websocket :: l2 /\ r = l1 ++ l2
                /\ ~ In websocket l1.
Proof.
  revert r. induction l as [|y l IH]; intros r; simpl; [discriminate|].
  destruct (Nat.eqb_spec y websocket) as [->|Hne].
  - intros [= <-]. exists [], l. simpl. tauto.
  - destruct (list_remove websocket l) as [r'|]; [|discriminate].
    intros [= <-]. destruct (IH r' eq_refl) as (l1 & l2 & -> & -> & Hn).
    exists (y :: l1), l2. simpl. repeat split; trivial.
    intros [H|H]; [congruence|contradiction].
Qed.

Lemma list_remove_app websocket l :
  ~ In websocket l -> list_remove websocket (l ++ [websocket]) = Some l.
Proof.
  induction l as [|y l IH]; simpl; intros Hn.
  - now rewrite Nat.eqb_refl.
  - destruct (Nat.eqb_spec y websocket) as [->|Hne]; [tauto|].
    rewrite IH by tauto. reflexivity.
Qed.

(** [disconnect] raises exactly when the connection is not registered. *)
Theorem disconnect_raises_iff_unregistered websocket l :
  disconnect websocket l = Raised <-> ~ In websocket l.
Proof.
  unfold disconnect. rewrite <- list_remove_none.
  destruct (list_remove websocket l); split; congruence.
Qed.

(** [disconnect] takes out the first registration of the connection and
    nothing else: the other connections keep their places and their number
    of registrations, and a connection registered twice stays registered. *)
Theorem disconnect_removes_first websocket l :
  In websocket l ->
  exists l1 l2,
    l = l1 ++ websocket :: l2
    /\ ~ In websocket l1
    /\ disconnect websocket l = Returned (l1 ++ l2)
    /\ (forall other,
          count_occ Nat.eq_dec (l1 ++ l2) other
          = if Nat.eq_dec websocket other
            then pred (count_occ Nat.eq_dec l other)
            else count_occ Nat.eq_dec l other).
Proof.
  intros Hin. unfold disconnect.
  destruct (list_remove websocket l) as [r|] eqn:E.
  - destruct (list_remove_split _ _ _ E) as (l1 & l2 & -> & -> & Hn).
    exists l1, l2. repeat split; trivial. intros other.
    rewrite !count_occ_app. simpl.
    destruct (Nat.eq_dec websocket other); lia.
  - apply list_remove_none in E. contradiction.
Qed.

(** A connection that is accepted and then disconnected leaves the registry
    as it was; one that is not accepted is never registered. *)
Theorem connect_then_disconnect websocket l :
  ~ In websocket l ->
  exists l', connect true websocket l = Returned l'
             /\ In websocket l'
             /\ disconnect websocket l' = Returned l
             /\ connect false websocket l = Raised.
Proof.
  intros Hn. exists (l ++ [websocket]). unfold connect, disconnect.
  rewrite list_remove_app by trivial. repeat split.
  apply in_or_app. right. now left.
Qed.

Lemma broadcast_filter (send_text : WebSocket -> bool) l :
  broadcast send_text l = filter send_text l.
Proof.
  induction l as [|c l IH]; simpl; [reflexivity|]. now rewrite IH.
Qed.

(** A message reaches exactly the registered connections whose [send_text]
    returns, in the order of registration: a send that raises stops nothing,
    and when no send raises every connection is reached. *)
Theorem broadcast_reaches_all (send_text : WebSocket -> bool) l :
  (forall websocket,
     In websocket (broadcast send_text l)
     <-> In websocket l /\ send_text websocket = true)
  /\ (forall l1 websocket l2,
        l = l1 ++ websocket :: l2 ->
        broadcast send_text l
        = broadcast send_text l1
          ++ (if send_text websocket then [websocket] else [])
          ++ broadcast send_text l2)
  /\ ((forall websocket, In websocket l -> send_text websocket = true) ->
      broadcast send_text l = l).
Proof.
  split; [|split].
  - intros websocket. rewrite broadcast_filter. apply filter_In.
  - intros l1 websocket l2 ->. rewrite !broadcast_filter, filter_app.
    simpl. now destruct (send_text websocket).
  - induction l as [|c l IH]; simpl; intros H; [reflexivity|].
    rewrite (H c) by now left. f_equal. apply IH.
    intros w Hw. apply H. now right.
Qed.

End Registry.

Lemma disconnect_removes_first_witness :
  exists l1 l2,
    MoreSamples.registry = l1 ++ 1%nat :: l2
    /\ ~ In 1%nat l1
    /\ ConnectionManager.disconnect 1%nat MoreSamples.registry
       = Returned (l1 ++ l2)
    /\ (forall other,
          count_occ Nat.eq_dec (l1 ++ l2) other
          = if Nat.eq_dec 1%nat other
            then pred (count_occ Nat.eq_dec MoreSamples.registry other)
            else count_occ Nat.eq_dec MoreSamples.registry other).
Proof.
  apply disconnect_removes_first. now left.
Defined.

Lemma connect_then_disconnect_witness :
  exists l',
    ConnectionManager.connect true 3%nat MoreSamples.registry = Returned l'
    /\ In 3%nat l'
    /\ ConnectionManager.disconnect 3%nat l' = Returned MoreSamples.registry
    /\ ConnectionManager.connect false 3%nat MoreSamples.registry = Raised.
Proof.
  apply connect_then_disconnect.
  unfold MoreSamples.registry. simpl. intuition discriminate.
Defined.
End RegistryFacts.
